(** * Comment storage engine: edit window, counters, ancestry, archiving

    A shallow embedding of the comment model
    ([src/core/server/models/comment/comment.ts]) and of the story
    archiver (the module defining [getCommentCounts], [archiveStory],
    [unarchiveStory] and [moveDocuments]).

    Conventions of the embedding:
    - a MongoDB collection is the list of its documents in natural order;
      [findOne] and [findOneAndUpdate] act on the first document that
      satisfies the filter;
    - a JavaScript [Date] is the integer it compares as (milliseconds since
      the epoch), a count is an integer;
    - an object used as a dictionary ([EncodedCommentActionCounts], the
      counter breakdowns) is a [gmap string Z];
    - an [async] function is a function from the store to the new store and
      a [result]: either the returned value or the thrown error; logging is
      not modelled;
    - identifiers produced by [uuid.v4()] and the clock [now] are inputs. *)

From stdpp Require Import gmap strings list sorting.
From Stdlib Require Import ZArith.

Local Open Scope Z_scope.

(** ** Errors and results *)

(** The errors the modelled functions throw: plain [Error]s carry their
    message, the typed errors of [coral-server/errors] carry their
    arguments. *)
Inductive Err : Type :=
  | Error (message : string)
  | CommentEditWindowExpiredError (commentID : string)
  | CommentNotFoundError (commentID : string)
  | CommentRevisionNotFoundError (commentID revisionID : string)
  | StoryNotFoundError (storyID : string).

Inductive result (A : Type) : Type :=
  | Ok (value : A)
  | Throw (error : Err).
Arguments Ok {A} value.
Arguments Throw {A} error.

#[global] Instance Err_eq_dec : EqDecision Err.
Proof. solve_decision. Defined.

(** ** Data model *)

Inductive GQLCOMMENT_STATUS : Type :=
  | NONE | APPROVED | REJECTED | PREMOD | SYSTEM_WITHHELD.

#[global] Instance GQLCOMMENT_STATUS_eq_dec : EqDecision GQLCOMMENT_STATUS.
Proof. solve_decision. Defined.

(** [$inc] of a dictionary of counters into another one: a key absent from
    the target is created with the increment. *)
Definition incCounts (target delta : gmap string Z) : gmap string Z :=
  union_with (fun a b => Some (a + b)) target delta.

Module Revision.
Record t : Type := mk {
  id : string;
  body : string;
  actionCounts : gmap string Z;
  metadata : string;
  createdAt : Z;
  media : option string
}.

Definition incActionCounts (delta : gmap string Z) (r : t) : t :=
  mk (id r) (body r) (incCounts (actionCounts r) delta) (metadata r)
     (createdAt r) (media r).
End Revision.

Module Comment.
Record t : Type := mk {
  id : string;
  tenantID : string;
  ancestorIDs : list string;
  parentID : option string;
  parentRevisionID : option string;
  authorID : option string;
  storyID : string;
  siteID : string;
  section : option string;
  revisions : list Revision.t;
  status : GQLCOMMENT_STATUS;
  actionCounts : gmap string Z;
  childIDs : list string;
  tags : list string;
  rating : option Z;
  childCount : Z;
  createdAt : Z;
  deletedAt : option Z
}.

Definition setStatus (s : GQLCOMMENT_STATUS) (c : t) : t :=
  mk (id c) (tenantID c) (ancestorIDs c) (parentID c) (parentRevisionID c)
     (authorID c) (storyID c) (siteID c) (section c) (revisions c) s
     (actionCounts c) (childIDs c) (tags c) (rating c) (childCount c)
     (createdAt c) (deletedAt c).

Definition setRevisions (rs : list Revision.t) (c : t) : t :=
  mk (id c) (tenantID c) (ancestorIDs c) (parentID c) (parentRevisionID c)
     (authorID c) (storyID c) (siteID c) (section c) rs (status c)
     (actionCounts c) (childIDs c) (tags c) (rating c) (childCount c)
     (createdAt c) (deletedAt c).

Definition setActionCounts (a : gmap string Z) (c : t) : t :=
  mk (id c) (tenantID c) (ancestorIDs c) (parentID c) (parentRevisionID c)
     (authorID c) (storyID c) (siteID c) (section c) (revisions c)
     (status c) a (childIDs c) (tags c) (rating c) (childCount c)
     (createdAt c) (deletedAt c).

Definition setChildren (ids : list string) (n : Z) (c : t) : t :=
  mk (id c) (tenantID c) (ancestorIDs c) (parentID c) (parentRevisionID c)
     (authorID c) (storyID c) (siteID c) (section c) (revisions c)
     (status c) (actionCounts c) ids (tags c) (rating c) n
     (createdAt c) (deletedAt c).
End Comment.


(** The counters a story or a site aggregates.  The code reads them from
    stored documents and guards each part ([if (commentCounts.action)]): a
    part that is missing is [None]. *)
Record CommentModerationQueueCounts : Type := {
  total : Z;
  queues : gmap string Z
}.

Record RelatedCommentCounts : Type := {
  action : option (gmap string Z);
  moderationQueue : option CommentModerationQueueCounts;
  status : option (gmap string Z)
}.

Module Story.
Record t : Type := mk {
  id : string;
  tenantID : string;
  siteID : string;
  commentCounts : RelatedCommentCounts;
  isArchiving : bool;
  isArchived : bool
}.

Definition setCommentCounts (counts : RelatedCommentCounts) (s : t) : t :=
  mk (id s) (tenantID s) (siteID s) counts (isArchiving s) (isArchived s).

Definition setArchive (archiving archived : bool) (s : t) : t :=
  mk (id s) (tenantID s) (siteID s) (commentCounts s) archiving archived.
End Story.

Module Site.
Record t : Type := mk {
  id : string;
  tenantID : string;
  commentCounts : RelatedCommentCounts
}.
End Site.

Module CommentAction.
Record t : Type := mk {
  id : string;
  tenantID : string;
  storyID : string;
  commentID : string;
  actionType : string
}.
End CommentAction.

Module CommentModerationAction.
Record t : Type := mk {
  id : string;
  tenantID : string;
  commentID : string;
  status : GQLCOMMENT_STATUS
}.
End CommentModerationAction.

(** What [moveDocuments] reads of a document of any collection: its
    tenant and its [id], when it has one. *)
Class Document (D : Type) : Type := {
  docTenantID : D -> string;
  docID : D -> option string
}.

#[global] Instance Comment_Document : Document Comment.t :=
  {| docTenantID := Comment.tenantID; docID := fun c => Some (Comment.id c) |}.
#[global] Instance CommentAction_Document : Document CommentAction.t :=
  {| docTenantID := CommentAction.tenantID;
     docID := fun a => Some (CommentAction.id a) |}.
#[global] Instance CommentModerationAction_Document : Document CommentModerationAction.t :=
  {| docTenantID := CommentModerationAction.tenantID;
     docID := fun a => Some (CommentModerationAction.id a) |}.

(** ** The document store *)

(** A database: the collections that
    [coral-server/services/mongodb/collections] names. *)
Module Db.
Record t : Type := mk {
  comments : list Comment.t;
  commentActions : list CommentAction.t;
  commentModerationActions : list CommentModerationAction.t;
  archivedComments : list Comment.t;
  archivedCommentActions : list CommentAction.t;
  archivedCommentModerationActions : list CommentModerationAction.t;
  stories : list Story.t;
  sites : list Site.t
}.

Definition withComments (l : list Comment.t) (d : t) : t :=
  mk l (commentActions d) (commentModerationActions d) (archivedComments d)
     (archivedCommentActions d) (archivedCommentModerationActions d)
     (stories d) (sites d).

Definition withCommentActions (l : list CommentAction.t) (d : t) : t :=
  mk (comments d) l (commentModerationActions d) (archivedComments d)
     (archivedCommentActions d) (archivedCommentModerationActions d)
     (stories d) (sites d).

Definition withCommentModerationActions (l : list CommentModerationAction.t) (d : t) : t :=
  mk (comments d) (commentActions d) l (archivedComments d)
     (archivedCommentActions d) (archivedCommentModerationActions d)
     (stories d) (sites d).

Definition withArchivedComments (l : list Comment.t) (d : t) : t :=
  mk (comments d) (commentActions d) (commentModerationActions d) l
     (archivedCommentActions d) (archivedCommentModerationActions d)
     (stories d) (sites d).

Definition withArchivedCommentActions (l : list CommentAction.t) (d : t) : t :=
  mk (comments d) (commentActions d) (commentModerationActions d)
     (archivedComments d) l (archivedCommentModerationActions d)
     (stories d) (sites d).

Definition withArchivedCommentModerationActions
    (l : list CommentModerationAction.t) (d : t) : t :=
  mk (comments d) (commentActions d) (commentModerationActions d)
     (archivedComments d) (archivedCommentActions d) l
     (stories d) (sites d).

Definition withStories (l : list Story.t) (d : t) : t :=
  mk (comments d) (commentActions d) (commentModerationActions d)
     (archivedComments d) (archivedCommentActions d)
     (archivedCommentModerationActions d) l (sites d).

Definition withSites (l : list Site.t) (d : t) : t :=
  mk (comments d) (commentActions d) (commentModerationActions d)
     (archivedComments d) (archivedCommentActions d)
     (archivedCommentModerationActions d) (stories d) l.
End Db.

(** [collection.findOne(filter)]: the first document matching the filter. *)
Definition findOne {A : Type} (filter : A -> bool) (coll : list A) : option A :=
  List.find filter coll.

(** [collection.find(filter)] read to the end. *)
Definition find {A : Type} (filter : A -> bool) (coll : list A) : list A :=
  List.filter filter coll.

(** [collection.findOneAndUpdate(filter, update)]: the first document
    matching the filter is replaced by its update; the matched document, as
    it was before the update, comes back with the new collection. *)
Fixpoint findOneAndUpdate {A : Type} (filter : A -> bool) (update : A -> A)
    (coll : list A) : option A * list A :=
  match coll with
  | [] => (None, [])
  | d :: rest =>
      if filter d then (Some d, update d :: rest)
      else
        let '(found, rest') := findOneAndUpdate filter update rest in
        (found, d :: rest')
  end.

(** The filter [{ id, tenantID }] on comments. *)
Definition byTenantAndID (tenantID id : string) (c : Comment.t) : bool :=
  bool_decide (Comment.id c = id) && bool_decide (Comment.tenantID c = tenantID).

(** A JavaScript number used as a condition. *)
Definition truthy (n : Z) : bool := negb (n =? 0).

(** ** [pushChildCommentIDOntoParent] *)

Definition pushChildCommentIDOntoParent (mongo : Db.t)
    (tenantID parentID childID : string) : Db.t * option Comment.t :=
  let '(value, comments') :=
    findOneAndUpdate
      (byTenantAndID tenantID parentID)
      (fun c => Comment.setChildren (Comment.childIDs c ++ [childID])
                                    (Comment.childCount c + 1) c)
      (Db.comments mongo) in
  (Db.withComments comments' mongo, value).

(** ** [editComment] *)

Record EditCommentInput : Type := {
  input_id : string;
  input_authorID : option string;
  input_status : GQLCOMMENT_STATUS;
  lastEditableCommentCreatedAt : Z;
  input_body : string;
  input_metadata : string;
  input_media : option string;
  input_actionCounts : option (gmap string Z)
}.

Definition EDITABLE_STATUSES : list GQLCOMMENT_STATUS := [NONE; PREMOD; APPROVED].

(** [statuses.includes(status)] *)
Definition includes (statuses : list GQLCOMMENT_STATUS) (s : GQLCOMMENT_STATUS) : bool :=
  bool_decide (s ∈ statuses).

(** [validateEditable] throws or returns nothing. *)
Definition validateEditable (comment : Comment.t) (authorID : option string)
    (lastEditable : Z) : result unit :=
  if negb (bool_decide (Comment.authorID comment = authorID)) then
    Throw (Error "comment author mismatch")
  else if negb (includes EDITABLE_STATUSES (Comment.status comment)) then
    Throw (Error "comment status is not editable")
  else if Comment.createdAt comment <=? lastEditable then
    Throw (CommentEditWindowExpiredError (Comment.id comment))
  else Ok tt.

Record EditComment : Type := {
  before : Comment.t;
  after : Comment.t;
  revision : Revision.t
}.

Definition retrieveComment (mongo : Db.t) (tenantID id : string) : option Comment.t :=
  findOne (byTenantAndID tenantID id) (Db.comments mongo).

(** Modelled from the spec: [mergeCommentActionCounts] of
    [coral-server/models/action/comment] is not among the sources;
    [editComment] uses it to replay the [$inc] of the action counts on the
    copy it returns ("increments [actionCounts] by any supplied delta"). *)
Definition mergeCommentActionCounts (counts delta : gmap string Z) : gmap string Z :=
  incCounts counts delta.

(** The filter of the conditional update of [editComment]. *)
Definition editFilter (tenantID : string) (input : EditCommentInput)
    (c : Comment.t) : bool :=
  bool_decide (Comment.id c = input_id input)
  && bool_decide (Comment.tenantID c = tenantID)
  && bool_decide (Comment.authorID c = input_authorID input)
  && includes EDITABLE_STATUSES (Comment.status c)
  && bool_decide (Comment.deletedAt c = None)
  && (lastEditableCommentCreatedAt input <? Comment.createdAt c).

(** The update document of [editComment]: [$set] the status, [$push] the
    revision and, when the action counts given are not empty, [$inc] them. *)
Definition editUpdate (status : GQLCOMMENT_STATUS) (actionCounts : gmap string Z)
    (rev : Revision.t) (c : Comment.t) : Comment.t :=
  let c1 := Comment.setStatus status c in
  let c2 := Comment.setRevisions (Comment.revisions c ++ [rev]) c1 in
  if bool_decide (actionCounts = ∅) then c2
  else Comment.setActionCounts (incCounts (Comment.actionCounts c) actionCounts) c2.

(** [editComment].  When the conditional update misses, the function awaits
    the store a second time: [concurrent] is what other writers did to the
    database between the update and the re-fetch (the identity when there
    are none).  [revisionID] is the identifier drawn for the new revision. *)
Definition editComment (concurrent : Db.t -> Db.t) (mongo : Db.t) (tenantID : string)
    (input : EditCommentInput) (now : Z) (revisionID : string)
    : Db.t * result EditComment :=
  let actionCounts := default ∅ (input_actionCounts input) in
  let rev :=
    Revision.mk revisionID (input_body input) actionCounts
                (input_metadata input) now (input_media input) in
  let '(value, comments') :=
    findOneAndUpdate (editFilter tenantID input)
                     (editUpdate (input_status input) actionCounts rev)
                     (Db.comments mongo) in
  match value with
  | None =>
      let mongo' := concurrent (Db.withComments comments' mongo) in
      match retrieveComment mongo' tenantID (input_id input) with
      | None => (mongo', Throw (Error "comment not found"))
      | Some comment =>
          match validateEditable comment (input_authorID input)
                                 (lastEditableCommentCreatedAt input) with
          | Throw e => (mongo', Throw e)
          | Ok _ =>
              (mongo', Throw (Error "comment edit failed for an unexpected reason"))
          end
      end
  | Some original =>
      let after :=
        Comment.setRevisions (Comment.revisions original ++ [rev])
          (Comment.setActionCounts
             (mergeCommentActionCounts (Comment.actionCounts original) actionCounts)
             (Comment.setStatus (input_status input) original)) in
      (Db.withComments comments' mongo,
       Ok {| before := original; after := after; revision := rev |})
  end.

(** ** [updateCommentActionCounts] *)

(** The update [$inc: dotize({ actionCounts, "revisions.$[revision]":
    { actionCounts } })] with [arrayFilters: [{ "revision.id": revisionID }]]:
    the comment's own counters are incremented, and so are those of every
    element of [revisions] that passes the array filter; an array filter
    that selects no element leaves the array as it is. *)
Definition incActionCountsUpdate (revisionID : string) (actionCounts : gmap string Z)
    (c : Comment.t) : Comment.t :=
  Comment.setRevisions
    (map (fun r => if bool_decide (Revision.id r = revisionID)
                   then Revision.incActionCounts actionCounts r else r)
         (Comment.revisions c))
    (Comment.setActionCounts (incCounts (Comment.actionCounts c) actionCounts) c).

Definition updateCommentActionCounts (mongo : Db.t) (tenantID id revisionID : string)
    (actionCounts : gmap string Z) : Db.t * result Comment.t :=
  let '(original, comments') :=
    findOneAndUpdate (byTenantAndID tenantID id)
                     (incActionCountsUpdate revisionID actionCounts)
                     (Db.comments mongo) in
  (* returnOriginal: false, the value is the updated document *)
  match incActionCountsUpdate revisionID actionCounts <$> original with
  | None => (Db.withComments comments' mongo,
             Throw (CommentRevisionNotFoundError id revisionID))
  | Some value => (Db.withComments comments' mongo, Ok value)
  end.

(** ** Connections *)

(** A cursor is a [Date] or a number; both are the integer they stand for.
    Which of the two is meant follows from the ordering, as in the casts
    [input.after as Date] and [input.after as number] of the source. *)
Record Edge : Type := {
  node : Comment.t;
  cursor : Z
}.

Record PageInfo : Type := {
  hasNextPage : bool;
  hasPreviousPage : bool;
  startCursor : option Z;
  endCursor : option Z
}.

Record Connection : Type := {
  edges : list Edge;
  nodes : list Comment.t;
  pageInfo : PageInfo
}.

(** Modelled from the spec: [createConnection] of
    [coral-server/models/helpers] is not among the sources.  It completes
    what it is given into a connection; here it is given the page
    information only, and the page has no nodes and no edges ("an empty
    page"). *)
Definition createConnection (info : PageInfo) : Connection :=
  {| edges := []; nodes := []; pageInfo := info |}.

(** Modelled from the spec: [nodesToEdges] of [coral-server/models/helpers]
    is not among the sources.  It pairs each node with the cursor that the
    transformer computes from the node and its index in the page ("edges
    {node, cursor}", "page index"). *)
Definition nodesToEdges (nodes : list Comment.t) (transformer : Comment.t -> Z -> Z)
    : list Edge :=
  imap (fun index n => {| node := n; cursor := transformer n (Z.of_nat index) |}) nodes.

(** Modelled from the spec: [doesNotContainNull] of
    [coral-server/models/helpers] is not among the sources; by its name and
    its use, it tells whether no entry of the array is [null]. *)
Definition doesNotContainNull (nodes : list (option Comment.t)) : bool :=
  forallb (fun n => bool_decide (is_Some n)) nodes.

(** Modelled from the spec: [hasAncestors] of [./helpers] is not among the
    sources.  [ancestorIDs] is "empty for top-level" comments: a comment has
    ancestors when the sequence is not empty. *)
Definition hasAncestors (comment : Comment.t) : bool :=
  bool_decide (Comment.ancestorIDs comment ≠ []).

(** [array.slice(start, end)]: a negative index counts from the end, and
    both indices are clamped to the array. *)
Definition sliceIndex (len i : Z) : nat :=
  Z.to_nat (if i <? 0 then Z.max (len + i) 0 else Z.min i len).

Definition slice {A : Type} (l : list A) (start finish : Z) : list A :=
  let len := Z.of_nat (length l) in
  let s := sliceIndex len start in
  let e := sliceIndex len finish in
  take (e - s)%nat (drop s l).

Definition retrieveManyComments (collection : list Comment.t) (tenantID : string)
    (ids : list string) : list (option Comment.t) :=
  let items :=
    find (fun c => bool_decide (Comment.id c ∈ ids)
                   && bool_decide (Comment.tenantID c = tenantID)) collection in
  if (0 <? length items)%nat then
    map (fun id => List.find (fun c => bool_decide (Comment.id c = id)) items) ids
  else [].

(** [retrieveCommentParentsConnection]; [limit] is [last], [before] is the
    optional [before], [0] when it is not given. *)
Definition retrieveCommentParentsConnection (collection : list Comment.t)
    (tenantID : string) (comment : Comment.t) (limit : Z) (before : option Z)
    : result Connection :=
  let skip := default 0 before in
  if negb (hasAncestors comment) then
    Ok (createConnection
          {| hasNextPage := false; hasPreviousPage := false;
             startCursor := None; endCursor := None |})
  else if limit <=? 0 then
    Ok (createConnection
          {| hasNextPage := false; hasPreviousPage := true;
             startCursor := Some 0; endCursor := Some 0 |})
  else
    let ancestorIDs := slice (Comment.ancestorIDs comment) skip (skip + limit) in
    let nodes := retrieveManyComments collection tenantID ancestorIDs in
    if negb (doesNotContainNull nodes) then
      Throw (Error "parent id specified does not exist")
    else
      let nodes := omap (fun n => n) nodes in
      let edges := reverse (nodesToEdges nodes (fun _ index => index + skip + 1)) in
      Ok {| edges := edges;
            nodes := nodes;
            pageInfo :=
              {| hasNextPage := false;
                 hasPreviousPage :=
                   limit + skip <? Z.of_nat (length (Comment.ancestorIDs comment));
                 startCursor := cursor <$> head edges;
                 endCursor := cursor <$> last edges |} |}.

(** ** Ordered queries *)

Inductive GQLCOMMENT_SORT : Type :=
  | CREATED_AT_DESC | CREATED_AT_ASC | REPLIES_DESC | REACTION_DESC.

Record CommentConnectionInput : Type := {
  first : Z;
  after_ : option Z;
  orderBy : GQLCOMMENT_SORT;
  filter_ : option (Comment.t -> bool)
}.

(** [cursorGetterFactory]: the transformer from a node and its index in the
    page to the cursor of its edge. *)
Definition cursorGetterFactory (input : CommentConnectionInput)
    : Comment.t -> Z -> Z :=
  match orderBy input with
  | CREATED_AT_DESC | CREATED_AT_ASC => fun comment _ => Comment.createdAt comment
  | REPLIES_DESC | REACTION_DESC =>
      fun _ index =>
        (match after_ input with
         | Some n => if truthy n then n else 0
         | None => 0
         end) + index + 1
  end.

(** The fields a query is ordered by, and the value a comment has there
    (none when the comment lacks the field). *)
Inductive SortField : Type :=
  | FieldCreatedAt
  | FieldChildCount
  | FieldActionCount (action : string).

Definition fieldValue (f : SortField) (c : Comment.t) : option Z :=
  match f with
  | FieldCreatedAt => Some (Comment.createdAt c)
  | FieldChildCount => Some (Comment.childCount c)
  | FieldActionCount a => Comment.actionCounts c !! a
  end.

(** Comparison of two field values: a missing value is below any value. *)
Definition compareValues (x y : option Z) : comparison :=
  match x, y with
  | None, None => Eq
  | None, Some _ => Lt
  | Some _, None => Gt
  | Some a, Some b => a ?= b
  end.

(** Comparison by one entry [{ field: direction }] of a sort document. *)
Definition compareField (entry : SortField * Z) (a b : Comment.t) : comparison :=
  let c := compareValues (fieldValue entry.1 a) (fieldValue entry.1 b) in
  if entry.2 <? 0 then CompOpp c else c.

(** Comparison by a sort document: entry after entry, a later entry
    deciding only the ties of the earlier ones. *)
Fixpoint compareSort (sort : list (SortField * Z)) (a b : Comment.t) : comparison :=
  match sort with
  | [] => Eq
  | entry :: rest =>
      match compareField entry a b with
      | Eq => compareSort rest a b
      | c => c
      end
  end.

(** [a] may come before [b] in a result ordered by [sort]. *)
Definition sortedBefore (sort : list (SortField * Z)) (a b : Comment.t) : Prop :=
  compareSort sort a b ≠ Gt.

#[global] Instance sortedBefore_dec sort a b : Decision (sortedBefore sort a b).
Proof. unfold sortedBefore. apply _. Defined.

(** Modelled from the spec: the [Query] builder of
    [coral-server/models/helpers] is not among the sources.  A query holds
    the filters given to [where], the sort document given to [orderBy], the
    number of documents to skip given to [after] and the limit given to
    [first]; [exec] returns the matching documents in the order asked,
    without the skipped ones, up to the limit ("an ordered, filtered comment
    set", "a running ordinal offset"). *)
Module Query.
Record t : Type := mk {
  collection : list Comment.t;
  filter : Comment.t -> bool;
  sort : list (SortField * Z);
  skip : Z;
  limit : option Z
}.

Definition new (coll : list Comment.t) : t := mk coll (fun _ => true) [] 0 None.

Definition where_ (f : Comment.t -> bool) (q : t) : t :=
  mk (collection q) (fun c => filter q c && f c) (sort q) (skip q) (limit q).

Definition orderBy (s : list (SortField * Z)) (q : t) : t :=
  mk (collection q) (filter q) s (skip q) (limit q).

Definition after (n : Z) (q : t) : t :=
  mk (collection q) (filter q) (sort q) n (limit q).

Definition first (n : Z) (q : t) : t :=
  mk (collection q) (filter q) (sort q) (skip q) (Some n).

(** The whole ordered, filtered set the query pages through. *)
Definition ordered (q : t) : list Comment.t :=
  merge_sort (sortedBefore (sort q)) (List.filter (filter q) (collection q)).

Definition exec (q : t) : list Comment.t :=
  let rest := drop (Z.to_nat (skip q)) (ordered q) in
  match limit q with
  | Some n => take (Z.to_nat n) rest
  | None => rest
  end.
End Query.

Definition applyInputToQuery (input : CommentConnectionInput) (query : Query.t)
    : Query.t :=
  match orderBy input with
  | CREATED_AT_DESC =>
      let query := Query.orderBy [(FieldCreatedAt, -1)] query in
      match after_ input with
      | Some d => Query.where_ (fun c => Comment.createdAt c <? d) query
      | None => query
      end
  | CREATED_AT_ASC =>
      let query := Query.orderBy [(FieldCreatedAt, 1)] query in
      match after_ input with
      | Some d => Query.where_ (fun c => d <? Comment.createdAt c) query
      | None => query
      end
  | REPLIES_DESC =>
      let query :=
        Query.orderBy [(FieldChildCount, -1); (FieldCreatedAt, -1)] query in
      match after_ input with
      | Some n => if truthy n then Query.after n query else query
      | None => query
      end
  | REACTION_DESC =>
      let query :=
        Query.orderBy [(FieldActionCount "REACTION", -1); (FieldCreatedAt, -1)]
                      query in
      match after_ input with
      | Some n => if truthy n then Query.after n query else query
      | None => query
      end
  end.

(** Modelled from the spec: [resolveConnection] of
    [coral-server/models/helpers] is not among the sources.  It asks the
    query for one node more than [first], to know whether a next page
    exists, turns the nodes into edges with the transformer, and returns
    the first [first] of them with the page information ("produce a page
    with nodes, edges and pageInfo"). *)
Definition resolveConnection (query : Query.t) (input : CommentConnectionInput)
    (transformer : Comment.t -> Z -> Z) : Connection :=
  let query := if truthy (first input) then Query.first (first input + 1) query
               else query in
  let found := Query.exec query in
  let more := truthy (first input) && (first input <? Z.of_nat (length found)) in
  let nodes := if more then take (Z.to_nat (first input)) found else found in
  let edges := nodesToEdges nodes transformer in
  {| edges := edges;
     nodes := nodes;
     pageInfo :=
       {| hasNextPage := more;
          hasPreviousPage := false;
          startCursor := cursor <$> head edges;
          endCursor := cursor <$> last edges |} |}.

Definition retrieveConnection (input : CommentConnectionInput) (query : Query.t)
    : Connection :=
  resolveConnection (applyInputToQuery input query) input (cursorGetterFactory input).

Definition retrieveCommentConnection (collection : list Comment.t) (tenantID : string)
    (input : CommentConnectionInput) : Connection :=
  let query :=
    Query.where_ (fun c => bool_decide (Comment.tenantID c = tenantID))
                 (Query.new collection) in
  let query :=
    match filter_ input with
    | Some f => Query.where_ f query
    | None => query
    end in
  retrieveConnection input query.

(** ** Counters of an archived story *)

(** Modelled from the spec: [createEmptyCommentStatusCounts],
    [createEmptyCommentModerationQueueCounts] and
    [createEmptyRelatedCommentCounts] of [coral-server/models/comment/counts]
    are not among the sources.  They are the aggregates with every counter
    at zero: each status at zero, a moderation queue total of zero with
    each queue at zero, and no action total. *)
Definition createEmptyCommentStatusCounts : gmap string Z :=
  {[ "APPROVED" := 0; "NONE" := 0; "PREMOD" := 0; "REJECTED" := 0;
     "SYSTEM_WITHHELD" := 0 ]}.

Definition createEmptyCommentModerationQueueCounts : CommentModerationQueueCounts :=
  {| total := 0;
     queues := {[ "unmoderated" := 0; "reported" := 0; "pending" := 0 ]} |}.

Definition createEmptyRelatedCommentCounts : RelatedCommentCounts :=
  {| action := Some ∅;
     moderationQueue := Some createEmptyCommentModerationQueueCounts;
     status := Some createEmptyCommentStatusCounts |}.

(** The loop [for (key in source) if (hasOwnProperty(source, key))
    target[key] = source[key] * multiplier]: every key of [source] is
    written into [target], the other keys of [target] stay. *)
Definition scaleInto (multiplier : Z) (source target : gmap string Z) : gmap string Z :=
  ((fun value => value * multiplier) <$> source) ∪ target.

Definition getCommentCounts (story : Story.t) (negate : bool) : RelatedCommentCounts :=
  let commentCounts := Story.commentCounts story in
  let multiplier := if negate then -1 else 1 in
  let result := createEmptyRelatedCommentCounts in
  let resultAction := default ∅ (action result) in
  let resultQueue :=
    default {| total := 0; queues := ∅ |} (moderationQueue result) in
  let resultStatus := default ∅ (status result) in
  {| action :=
       Some (match action commentCounts with
             | Some a => scaleInto multiplier a resultAction
             | None => resultAction
             end);
     moderationQueue :=
       Some (match moderationQueue commentCounts with
             | Some q =>
                 {| total := total q * multiplier;
                    queues := scaleInto multiplier (queues q) (queues resultQueue) |}
             | None => resultQueue
             end);
     status :=
       Some (match status commentCounts with
             | Some s => scaleInto multiplier s resultStatus
             | None => resultStatus
             end) |}.

(** ** Moving documents between collections *)

Definition BATCH_SIZE : nat := 100.

(** [bulkDelete.find({ tenantID, id: { $in: deleteIDs } }).remove()] *)
Definition bulkRemove {D : Type} `{Document D} (tenantID : string)
    (deleteIDs : list string) (source : list D) : list D :=
  List.filter
    (fun d => negb (bool_decide (docTenantID d = tenantID)
                    && match docID d with
                       | Some i => bool_decide (i ∈ deleteIDs)
                       | None => false
                       end))
    source.

(** The variables of [moveDocuments], with the two collections it writes. *)
Record MoveState (D : Type) : Type := {
  insertBatch : list D;
  deleteIDs : list string;
  allIDs : list string;
  source : list D;
  destination : list D
}.
Arguments insertBatch {D} _.
Arguments deleteIDs {D} _.
Arguments allIDs {D} _.
Arguments source {D} _.
Arguments destination {D} _.

(** The [while] loop of [moveDocuments] over the documents the selection
    cursor yields. *)
Fixpoint moveLoop {D : Type} `{Document D} (tenantID : string)
    (returnMovedIDs : bool) (selection : list D) (st : MoveState D) : MoveState D :=
  match selection with
  | [] => st
  | document :: selection' =>
      let insertBatch' := insertBatch st ++ [document] in
      let deleteIDs' :=
        match docID document with
        | Some i => deleteIDs st ++ [i]
        | None => deleteIDs st
        end in
      let allIDs' :=
        match docID document with
        | Some i => if returnMovedIDs then allIDs st ++ [i] else allIDs st
        | None => allIDs st
        end in
      if (BATCH_SIZE <=? length insertBatch')%nat then
        moveLoop tenantID returnMovedIDs selection'
          {| insertBatch := [];
             deleteIDs := [];
             allIDs := allIDs';
             source := bulkRemove tenantID deleteIDs' (source st);
             destination := destination st ++ insertBatch' |}
      else
        moveLoop tenantID returnMovedIDs selection'
          {| insertBatch := insertBatch';
             deleteIDs := deleteIDs';
             allIDs := allIDs';
             source := source st;
             destination := destination st |}
  end.

(** [moveDocuments]: the new source, the new destination and the
    identifiers moved. *)
Definition moveDocuments {D : Type} `{Document D} (tenantID : string)
    (src : list D) (selectionCursor : list D) (dst : list D)
    (returnMovedIDs : bool) : list D * list D * list string :=
  let st :=
    moveLoop tenantID returnMovedIDs selectionCursor
      {| insertBatch := []; deleteIDs := []; allIDs := [];
         source := src; destination := dst |} in
  let dst' :=
    if (0 <? length (insertBatch st))%nat then destination st ++ insertBatch st
    else destination st in
  let src' :=
    if (0 <? length (deleteIDs st))%nat
    then bulkRemove tenantID (deleteIDs st) (source st)
    else source st in
  (src', dst', allIDs st).

(** ** Archiving and unarchiving a story *)

Record MongoContext : Type := {
  live : Db.t;
  archive : option Db.t
}.

(** The two counter stores the archiver writes through functions that are
    not among the sources: [updateSiteCounts] of [coral-server/models/site],
    which writes to the live database, and [updateSharedCommentCounts] of
    [coral-server/models/comment/counts], which writes to the cache. *)
Class CounterStores : Type := {
  AugmentedRedis : Type;
  updateSiteCounts : Db.t -> string -> string -> RelatedCommentCounts -> Db.t;
  updateSharedCommentCounts :
    AugmentedRedis -> string -> RelatedCommentCounts -> AugmentedRedis
}.

(** The filter [{ id, tenantID }] on stories. *)
Definition storyByTenantAndID (tenantID id : string) (s : Story.t) : bool :=
  bool_decide (Story.id s = id) && bool_decide (Story.tenantID s = tenantID).

Definition archiveStory `{CounterStores} (mongo : MongoContext) (redis : AugmentedRedis)
    (tenantID id : string) : MongoContext * AugmentedRedis * result (option Story.t) :=
  match archive mongo with
  | None =>
      (mongo, redis,
       Throw (Error "Cannot archive, archive connection is not initialized"))
  | Some archiveDb =>
      let liveDb := live mongo in
      match findOne (storyByTenantAndID tenantID id) (Db.stories liveDb) with
      | None => (mongo, redis, Throw (StoryNotFoundError id))
      | Some targetStory =>
          if Story.isArchived targetStory then (mongo, redis, Ok None)
          else
            let ofStory (c : Comment.t) :=
              bool_decide (Comment.tenantID c = tenantID)
              && bool_decide (Comment.storyID c = id) in
            let actionOfStory (a : CommentAction.t) :=
              bool_decide (CommentAction.tenantID a = tenantID)
              && bool_decide (CommentAction.storyID a = id) in
            let '(liveComments, archived, targetCommentIDs) :=
              moveDocuments tenantID (Db.comments liveDb)
                (find ofStory (Db.comments liveDb))
                (Db.archivedComments archiveDb) true in
            let liveDb := Db.withComments liveComments liveDb in
            let archiveDb := Db.withArchivedComments archived archiveDb in
            let '(liveActions, archivedActions, _) :=
              moveDocuments tenantID (Db.commentActions liveDb)
                (find actionOfStory (Db.commentActions liveDb))
                (Db.archivedCommentActions archiveDb) false in
            let liveDb := Db.withCommentActions liveActions liveDb in
            let archiveDb := Db.withArchivedCommentActions archivedActions archiveDb in
            let moderationOfComments (a : CommentModerationAction.t) :=
              bool_decide (CommentModerationAction.tenantID a = tenantID)
              && bool_decide (CommentModerationAction.commentID a ∈ targetCommentIDs) in
            let '(liveModeration, archivedModeration, _) :=
              moveDocuments tenantID (Db.commentModerationActions liveDb)
                (find moderationOfComments (Db.commentModerationActions liveDb))
                (Db.archivedCommentModerationActions archiveDb) false in
            let liveDb := Db.withCommentModerationActions liveModeration liveDb in
            let archiveDb :=
              Db.withArchivedCommentModerationActions archivedModeration archiveDb in
            let commentCounts := getCommentCounts targetStory true in
            let liveDb := updateSiteCounts liveDb tenantID id commentCounts in
            let redis := updateSharedCommentCounts redis tenantID commentCounts in
            let '(original, stories') :=
              findOneAndUpdate (storyByTenantAndID tenantID id)
                               (Story.setArchive false true) (Db.stories liveDb) in
            ({| live := Db.withStories stories' liveDb; archive := Some archiveDb |},
             redis,
             Ok (Story.setArchive false true <$> original))
      end
  end.

Definition unarchiveStory `{CounterStores} (mongo : MongoContext) (redis : AugmentedRedis)
    (tenantID id : string) : MongoContext * AugmentedRedis * result (option Story.t) :=
  match archive mongo with
  | None =>
      (mongo, redis,
       Throw (Error "Cannot archive, archive connection is not initialized"))
  | Some archiveDb =>
      let liveDb := live mongo in
      match findOne (storyByTenantAndID tenantID id) (Db.stories liveDb) with
      | None => (mongo, redis, Throw (StoryNotFoundError id))
      | Some targetStory =>
          if negb (Story.isArchived targetStory) then (mongo, redis, Ok None)
          else
            let ofStory (c : Comment.t) :=
              bool_decide (Comment.tenantID c = tenantID)
              && bool_decide (Comment.storyID c = id) in
            let actionOfStory (a : CommentAction.t) :=
              bool_decide (CommentAction.tenantID a = tenantID)
              && bool_decide (CommentAction.storyID a = id) in
            let '(archived, liveComments, targetCommentIDs) :=
              moveDocuments tenantID (Db.archivedComments archiveDb)
                (find ofStory (Db.archivedComments archiveDb))
                (Db.comments liveDb) true in
            let liveDb := Db.withComments liveComments liveDb in
            let archiveDb := Db.withArchivedComments archived archiveDb in
            let '(archivedActions, liveActions, _) :=
              moveDocuments tenantID (Db.archivedCommentActions archiveDb)
                (find actionOfStory (Db.archivedCommentActions archiveDb))
                (Db.commentActions liveDb) false in
            let liveDb := Db.withCommentActions liveActions liveDb in
            let archiveDb := Db.withArchivedCommentActions archivedActions archiveDb in
            let moderationOfComments (a : CommentModerationAction.t) :=
              bool_decide (CommentModerationAction.tenantID a = tenantID)
              && bool_decide (CommentModerationAction.commentID a ∈ targetCommentIDs) in
            let '(archivedModeration, liveModeration, _) :=
              moveDocuments tenantID (Db.archivedCommentModerationActions archiveDb)
                (find moderationOfComments
                      (Db.archivedCommentModerationActions archiveDb))
                (Db.commentModerationActions liveDb) false in
            let liveDb := Db.withCommentModerationActions liveModeration liveDb in
            let archiveDb :=
              Db.withArchivedCommentModerationActions archivedModeration archiveDb in
            let commentCounts := getCommentCounts targetStory false in
            let liveDb := updateSiteCounts liveDb tenantID id commentCounts in
            let redis := updateSharedCommentCounts redis tenantID commentCounts in
            let '(original, stories') :=
              findOneAndUpdate (storyByTenantAndID tenantID id)
                               (Story.setArchive false false) (Db.stories liveDb) in
            ({| live := Db.withStories stories' liveDb; archive := Some archiveDb |},
             redis,
             Ok (Story.setArchive false false <$> original))
      end
  end.

(** ** Vocabulary of the properties *)

(** The error the edit-window state machine of the specification assigns to
    an edit that missed, from the comment the re-fetch found: author first,
    then status, then the edit window, then the conflict. *)
Definition editFailure (comment : Comment.t) (input : EditCommentInput) : Err :=
  if decide (Comment.authorID comment ≠ input_authorID input) then
    Error "comment author mismatch"
  else if decide (Comment.status comment ∉ [NONE; PREMOD; APPROVED]) then
    Error "comment status is not editable"
  else if decide (Comment.createdAt comment ≤ lastEditableCommentCreatedAt input) then
    CommentEditWindowExpiredError (Comment.id comment)
  else Error "comment edit failed for an unexpected reason".

(** Sample documents, used to run the functions on concrete stores. *)
Definition sampleRevision : Revision.t :=
  Revision.mk "r1" "first" ∅ "{}" 100 None.

Definition sampleComment : Comment.t :=
  Comment.mk "c1" "t1" [] None None (Some "alice") "s1" "site1" None
             [sampleRevision] NONE ∅ [] [] None 0 100 None.

(** A database holding the given comments and nothing else. *)
Definition commentsOnly (cs : list Comment.t) : Db.t :=
  Db.mk cs [] [] [] [] [] [] [].

(** An edit of [c1] by the given author, for an edit window that closed for
    the comments created at [lastEditable] or before. *)
Definition sampleEdit (author : string) (lastEditable : Z) : EditCommentInput :=
  {| input_id := "c1"; input_authorID := Some author; input_status := NONE;
     lastEditableCommentCreatedAt := lastEditable; input_body := "second";
     input_metadata := "{}"; input_media := None; input_actionCounts := None |}.

(** A reply to [p1], itself a reply to [p2]. *)
Definition sampleReply : Comment.t :=
  Comment.mk "c2" "t1" ["p1"; "p2"] (Some "p1") (Some "r1") (Some "bob") "s1" "site1"
             None [sampleRevision] NONE ∅ [] [] None 0 150 None.

(** A [RelatedCommentCounts] as its type declares it: the three parts are
    there, with a counter for each queue and for each status. *)
Definition isRelatedCommentCounts (c : RelatedCommentCounts) : Prop :=
  match action c, moderationQueue c, status c with
  | Some _, Some q, Some s =>
      dom (queues createEmptyCommentModerationQueueCounts) ⊆ dom (queues q)
      /\ dom createEmptyCommentStatusCounts ⊆ dom s
  | _, _, _ => False
  end.

(** The counters of a story with two approved comments and one held for
    moderation, one of them reported, and five reactions. *)
Definition sampleCounts : RelatedCommentCounts :=
  {| action := Some {[ "REACTION" := 5; "FLAG" := 1 ]};
     moderationQueue :=
       Some {| total := 2;
               queues := {[ "unmoderated" := 0; "reported" := 1; "pending" := 1 ]} |};
     status :=
       Some {[ "APPROVED" := 2; "NONE" := 0; "PREMOD" := 1; "REJECTED" := 0;
               "SYSTEM_WITHHELD" := 0 ]} |}.

Definition sampleStory (archived : bool) : Story.t :=
  Story.mk "s1" "t1" "site1" sampleCounts false archived.

(** [updateSiteCounts] deletes no story: a story that the store finds by
    tenant and identifier before the call is still found after it. *)
Definition keepsStories `{CounterStores} : Prop :=
  forall db tenantID id counts storyTenantID storyID,
    is_Some (findOne (storyByTenantAndID storyTenantID storyID) (Db.stories db)) ->
    is_Some (findOne (storyByTenantAndID storyTenantID storyID)
                     (Db.stories (updateSiteCounts db tenantID id counts))).

(** The story with the given tenant and identifier as the live database
    holds it after a migration: not archiving any more, and archived or
    not as asked. *)
Definition isPostImage (final : MongoContext) (tenantID id : string)
    (archived : bool) (s : Story.t) : Prop :=
  findOne (storyByTenantAndID tenantID id) (Db.stories (live final)) = Some s
  /\ Story.isArchiving s = false
  /\ Story.isArchived s = archived.

(** The sum of two aggregates, counter by counter. *)
Definition addRelatedCommentCounts (a b : RelatedCommentCounts) : RelatedCommentCounts :=
  {| action := Some (incCounts (default ∅ (action a)) (default ∅ (action b)));
     moderationQueue :=
       (let qa := default createEmptyCommentModerationQueueCounts (moderationQueue a) in
        let qb := default createEmptyCommentModerationQueueCounts (moderationQueue b) in
        Some {| total := total qa + total qb;
                queues := incCounts (queues qa) (queues qb) |});
     status := Some (incCounts (default ∅ (status a)) (default ∅ (status b))) |}.

(** Modelled from the spec: [updateSiteCounts] and
    [updateSharedCommentCounts] are not among the sources; this instance of
    them serves to run the archiver.  [updateSiteCounts] increments the
    counters of the site document with the identifier and tenant given; the
    cache keeps one aggregate per tenant and [updateSharedCommentCounts]
    increments it ("atomic increment per field", "a cache supporting atomic
    numeric increment"). *)
Definition sampleCounterStores : CounterStores :=
  {| AugmentedRedis := gmap string RelatedCommentCounts;
     updateSiteCounts := fun db tenantID id counts =>
       Db.withSites
         (findOneAndUpdate
            (fun s => bool_decide (Site.id s = id)
                      && bool_decide (Site.tenantID s = tenantID))
            (fun s => Site.mk (Site.id s) (Site.tenantID s)
                              (addRelatedCommentCounts (Site.commentCounts s) counts))
            (Db.sites db)).2
         db;
     updateSharedCommentCounts := fun redis tenantID counts =>
       <[ tenantID :=
            addRelatedCommentCounts
              (default createEmptyRelatedCommentCounts (redis !! tenantID)) counts ]>
         redis |}.

(** A live database with the story [s1], archived or not, and one comment
    on it, and an empty archive database. *)
Definition sampleLive (archived : bool) : Db.t :=
  Db.mk [sampleComment] [] [] [] [] [] [sampleStory archived] [].

Definition emptyDb : Db.t := Db.mk [] [] [] [] [] [] [] [].

Definition sampleContext (archived : bool) : MongoContext :=
  {| live := sampleLive archived; archive := Some emptyDb |}.

(** The same connection input with another [after]. *)
Definition withAfter (cursor : option Z) (input : CommentConnectionInput)
    : CommentConnectionInput :=
  {| first := first input; after_ := cursor; orderBy := orderBy input;
     filter_ := filter_ input |}.

(** The query that [retrieveCommentConnection] builds before it applies the
    ordering: the comments of the tenant that pass the filter of the input. *)
Definition commentQuery (collection : list Comment.t) (tenantID : string)
    (input : CommentConnectionInput) : Query.t :=
  let query :=
    Query.where_ (fun c => bool_decide (Comment.tenantID c = tenantID))
                 (Query.new collection) in
  match filter_ input with
  | Some f => Query.where_ f query
  | None => query
  end.

(** The count a connection ordered by replies or by reactions sorts on. *)
Definition countField (input : CommentConnectionInput) : SortField :=
  match orderBy input with
  | REACTION_DESC => FieldActionCount "REACTION"
  | _ => FieldChildCount
  end.

(** The whole set a connection ordered by replies or by reactions pages
    through: the comments of the query by count, the greatest first, and
    among equal counts by creation date, the latest first. *)
Definition rankedComments (collection : list Comment.t) (tenantID : string)
    (input : CommentConnectionInput) : list Comment.t :=
  Query.ordered
    (Query.orderBy [(countField input, -1); (FieldCreatedAt, -1)]
                   (commentQuery collection tenantID input)).

(** A published comment of story [s1] with the given identifier, number of
    replies and creation date. *)
Definition commentWithReplies (id : string) (replies createdAt : Z) : Comment.t :=
  Comment.mk id "t1" [] None None (Some "alice") "s1" "site1" None
             [sampleRevision] APPROVED ∅ [] [] None replies createdAt None.

(** Five comments with the reply counts 5, 5, 3, 1 and 0, stored in the
    order of their creation. *)
Definition sampleThread : list Comment.t :=
  [ commentWithReplies "a" 5 10; commentWithReplies "b" 0 20;
    commentWithReplies "c" 3 30; commentWithReplies "d" 5 40;
    commentWithReplies "e" 1 50 ].

(** Pages of two comments, by replies. *)
Definition byReplies (cursor : option Z) : CommentConnectionInput :=
  {| first := 2; after_ := cursor; orderBy := REPLIES_DESC; filter_ := None |}.

(** ** Further operations of the comment model *)

(** The input of [createComment]: the fields of a comment that the caller
    chooses, with the body, metadata and media of its first revision. *)
Record CreateCommentInput : Type := {
  create_ancestorIDs : list string;
  create_parentID : option string;
  create_parentRevisionID : option string;
  create_authorID : option string;
  create_storyID : string;
  create_siteID : string;
  create_section : option string;
  create_status : GQLCOMMENT_STATUS;
  create_tags : list string;
  create_rating : option Z;
  create_body : string;
  create_metadata : string;
  create_media : option string;
  create_actionCounts : option (gmap string Z)
}.

(** [createComment]; [commentID] and [revisionID] are the two identifiers
    drawn with [uuid.v4()].  [insertOne] adds the document after the ones
    the collection holds. *)
Definition createComment (mongo : Db.t) (tenantID : string) (input : CreateCommentInput)
    (now : Z) (commentID revisionID : string) : Db.t * (Comment.t * Revision.t) :=
  let actionCounts := default ∅ (create_actionCounts input) in
  let revision :=
    Revision.mk revisionID (create_body input) actionCounts (create_metadata input)
                now (create_media input) in
  let comment :=
    Comment.mk commentID tenantID (create_ancestorIDs input) (create_parentID input)
               (create_parentRevisionID input) (create_authorID input)
               (create_storyID input) (create_siteID input) (create_section input)
               [revision] (create_status input) actionCounts [] (create_tags input)
               (create_rating input) 0 now None in
  (Db.withComments (Db.comments mongo ++ [comment]) mongo, (comment, revision)).

Record UpdateCommentStatus : Type := {
  status_before : Comment.t;
  status_after : Comment.t
}.

(** The filter [{ id, tenantID, "revisions.id": revisionID }]. *)
Definition byRevision (tenantID id revisionID : string) (c : Comment.t) : bool :=
  bool_decide (Comment.id c = id)
  && bool_decide (Comment.tenantID c = tenantID)
  && bool_decide (revisionID ∈ map Revision.id (Comment.revisions c)).

(** [updateCommentStatus]; [null] is [None]. *)
Definition updateCommentStatus (mongo : Db.t) (tenantID id revisionID : string)
    (status : GQLCOMMENT_STATUS) : Db.t * option UpdateCommentStatus :=
  let '(value, comments') :=
    findOneAndUpdate (byRevision tenantID id revisionID) (Comment.setStatus status)
                     (Db.comments mongo) in
  (Db.withComments comments' mongo,
   match value with
   | None => None
   | Some original =>
       Some {| status_before := original;
               status_after := Comment.setStatus status original |}
   end).

(** [removeStoryComments]: [deleteMany] with the number of documents it
    deleted. *)
Definition removeStoryComments (mongo : Db.t) (tenantID storyID : string) : Db.t * nat :=
  let doomed (c : Comment.t) :=
    bool_decide (Comment.tenantID c = tenantID)
    && bool_decide (Comment.storyID c = storyID) in
  (Db.withComments (List.filter (fun c => negb (doomed c)) (Db.comments mongo)) mongo,
   length (List.filter doomed (Db.comments mongo))).

Definition setStoryID (storyID : string) (c : Comment.t) : Comment.t :=
  Comment.mk (Comment.id c) (Comment.tenantID c) (Comment.ancestorIDs c)
             (Comment.parentID c) (Comment.parentRevisionID c) (Comment.authorID c)
             storyID (Comment.siteID c) (Comment.section c) (Comment.revisions c)
             (Comment.status c) (Comment.actionCounts c) (Comment.childIDs c)
             (Comment.tags c) (Comment.rating c) (Comment.childCount c)
             (Comment.createdAt c) (Comment.deletedAt c).

(** [mergeManyCommentStories]: [updateMany] with the number of documents it
    matched. *)
Definition mergeManyCommentStories (mongo : Db.t) (tenantID newStoryID : string)
    (oldStoryIDs : list string) : Db.t * nat :=
  let matched (c : Comment.t) :=
    bool_decide (Comment.tenantID c = tenantID)
    && bool_decide (Comment.storyID c ∈ oldStoryIDs) in
  (Db.withComments
     (map (fun c => if matched c then setStoryID newStoryID c else c)
          (Db.comments mongo))
     mongo,
   length (List.filter matched (Db.comments mongo))).

(** The filter that [hasAuthorStoryRating] and [retrieveAuthorStoryRating]
    share: a top-level comment of the author on the story with a positive
    rating ([parentID: null] matches a missing parent, [rating: { $gt: 0 }]
    a rating that is there and positive). *)
Definition ratedBy (tenantID storyID authorID : string) (c : Comment.t) : bool :=
  bool_decide (Comment.tenantID c = tenantID)
  && bool_decide (Comment.storyID c = storyID)
  && bool_decide (Comment.authorID c = Some authorID)
  && bool_decide (Comment.parentID c = None)
  && match Comment.rating c with
     | Some r => 0 <? r
     | None => false
     end.

Definition hasAuthorStoryRating (mongo : Db.t) (tenantID storyID authorID : string) : bool :=
  bool_decide
    (is_Some
       (findOne (fun c => ratedBy tenantID storyID authorID c
                          && negb (bool_decide (Comment.status c = REJECTED)))
                (Db.comments mongo))).

(** [retrieveAuthorStoryRating]; [PUBLISHED_STATUSES], a constant of
    [./constants], is an argument. *)
Definition retrieveAuthorStoryRating (PUBLISHED_STATUSES : list GQLCOMMENT_STATUS)
    (mongo : Db.t) (tenantID storyID authorID : string) : option Comment.t :=
  findOne (fun c => ratedBy tenantID storyID authorID c
                    && includes (PUBLISHED_STATUSES ++ [PREMOD]) (Comment.status c))
          (Db.comments mongo).

(** The store keeps, for every comment, the number of its replies equal to
    the length of the list of its replies, and at least one revision. *)
Definition wellFormed (c : Comment.t) : Prop :=
  Comment.childCount c = Z.of_nat (length (Comment.childIDs c))
  /\ Comment.revisions c ≠ [].

(** The value of a counter in a dictionary of counters: zero when the key
    is missing. *)
Definition countOf (counts : gmap string Z) (key : string) : Z :=
  default 0 (counts !! key).

(** What an operation may do to a stored comment without rewriting its
    history: keep its identity, tenant, author, creation date and deletion
    mark, and keep its revisions as the first revisions of the new list. *)
Definition extends (old new : Comment.t) : Prop :=
  Comment.id new = Comment.id old
  /\ Comment.tenantID new = Comment.tenantID old
  /\ Comment.authorID new = Comment.authorID old
  /\ Comment.createdAt new = Comment.createdAt old
  /\ Comment.deletedAt new = Comment.deletedAt old
  /\ Comment.revisions old `prefix_of` Comment.revisions new.


(** A top-level comment of alice on [s1], approved, with the rating 4. *)
Definition sampleRated : Comment.t :=
  Comment.mk "c3" "t1" [] None None (Some "alice") "s1" "site1" None
             [sampleRevision] APPROVED ∅ [] [] (Some 4) 0 100 None.

(** The sort document that [applyInputToQuery] gives the query for each
    ordering. *)
Definition sortDocument (order : GQLCOMMENT_SORT) : list (SortField * Z) :=
  match order with
  | CREATED_AT_DESC => [(FieldCreatedAt, -1)]
  | CREATED_AT_ASC => [(FieldCreatedAt, 1)]
  | REPLIES_DESC => [(FieldChildCount, -1); (FieldCreatedAt, -1)]
  | REACTION_DESC => [(FieldActionCount "REACTION", -1); (FieldCreatedAt, -1)]
  end.



(** The documents of a story that the archiver selects: the comments of the
    story in the tenant, the comment actions of the story in the tenant,
    and the moderation actions of the tenant on given comments. *)
Definition commentOfStory (tenantID id : string) (c : Comment.t) : bool :=
  bool_decide (Comment.tenantID c = tenantID)
  && bool_decide (Comment.storyID c = id).

Definition actionOfStory (tenantID id : string) (a : CommentAction.t) : bool :=
  bool_decide (CommentAction.tenantID a = tenantID)
  && bool_decide (CommentAction.storyID a = id).

Definition moderationOfComments (tenantID : string) (commentIDs : list string)
    (a : CommentModerationAction.t) : bool :=
  bool_decide (CommentModerationAction.tenantID a = tenantID)
  && bool_decide (CommentModerationAction.commentID a ∈ commentIDs).

(** [updateSiteCounts] writes to the sites and to nothing else. *)
Definition onlySites `{CounterStores} : Prop :=
  forall db tenantID id counts,
    exists sites', updateSiteCounts db tenantID id counts = Db.withSites sites' db.

(** Within a tenant, an identifier belongs to the comments of one story. *)
Definition oneStoryPerID (tenantID : string) (comments : list Comment.t) : Prop :=
  forall c1 c2, c1 ∈ comments -> c2 ∈ comments ->
    Comment.tenantID c1 = tenantID -> Comment.tenantID c2 = tenantID ->
    Comment.id c1 = Comment.id c2 -> Comment.storyID c1 = Comment.storyID c2.

(** A live database with the archived story [s1] and no comment, and an
    archive database with the comment of the story. *)
Definition sampleArchived : MongoContext :=
  {| live := Db.withComments [] (sampleLive true);
     archive := Some (Db.withArchivedComments [sampleComment] emptyDb) |}.

(** ** Subscription filters *)

(** The filters of [graph/subscriptions.js] that the server starts with,
    before plugins merge theirs over them.  An argument of a subscription
    is absent or a string; a published comment carries the identifier of
    its asset and a published user its own, both strings. *)
Module Subscriptions.

Inductive Permission : Type :=
  | SUBSCRIBE_COMMENT_ACCEPTED
  | SUBSCRIBE_COMMENT_REJECTED
  | SUBSCRIBE_COMMENT_FLAGGED
  | SUBSCRIBE_ALL_COMMENT_EDITED
  | SUBSCRIBE_ALL_COMMENT_ADDED
  | SUBSCRIBE_ALL_USER_SUSPENDED
  | SUBSCRIBE_ALL_USER_BANNED
  | SUBSCRIBE_ALL_USERNAME_REJECTED.

(** [context.user], with its method [can]. *)
Record ContextUser : Type := { can : Permission -> bool }.

Record Context : Type := { user : option ContextUser }.

Record Args : Type := { asset_id : option string; user_id : option string }.

Record PublishedComment : Type := { comment_asset_id : string }.

Record PublishedUser : Type := { id : string }.

(** [!value] for an argument: absent, or the empty string. *)
Definition not_ (value : option string) : bool :=
  match value with
  | Some s => bool_decide (s = "")
  | None => true
  end.

(** [!context.user || !context.user.can(permission)] *)
Definition cannot (context : Context) (permission : Permission) : bool :=
  match user context with
  | Some u => negb (can u permission)
  | None => true
  end.

(** [comment.asset_id === args.asset_id] *)
Definition sameAsset (comment : PublishedComment) (args : Args) : bool :=
  bool_decide (Some (comment_asset_id comment) = asset_id args).

(** [user.id === args.user_id] *)
Definition sameUser (published : PublishedUser) (args : Args) : bool :=
  bool_decide (Some (id published) = user_id args).

Definition commentAdded (args : Args) (comment : PublishedComment)
    (context : Context) : bool :=
  if not_ (asset_id args) && cannot context SUBSCRIBE_ALL_COMMENT_ADDED then false
  else not_ (asset_id args) || sameAsset comment args.

Definition commentEdited (args : Args) (comment : PublishedComment)
    (context : Context) : bool :=
  if not_ (asset_id args) && cannot context SUBSCRIBE_ALL_COMMENT_EDITED then false
  else not_ (asset_id args) || sameAsset comment args.

Definition commentFlagged (args : Args) (comment : PublishedComment)
    (context : Context) : bool :=
  if cannot context SUBSCRIBE_COMMENT_FLAGGED then false
  else not_ (asset_id args) || sameAsset comment args.

Definition commentAccepted (args : Args) (comment : PublishedComment)
    (context : Context) : bool :=
  if cannot context SUBSCRIBE_COMMENT_ACCEPTED then false
  else not_ (asset_id args) || sameAsset comment args.

Definition commentRejected (args : Args) (comment : PublishedComment)
    (context : Context) : bool :=
  if cannot context SUBSCRIBE_COMMENT_REJECTED then false
  else not_ (asset_id args) || sameAsset comment args.

Definition userSuspended (args : Args) (published : PublishedUser)
    (context : Context) : bool :=
  if match user context with
     | None => true
     | Some u => negb (sameUser published args)
                 && negb (can u SUBSCRIBE_ALL_USER_SUSPENDED)
     end
  then false
  else not_ (user_id args) || sameUser published args.

Definition userBanned (args : Args) (published : PublishedUser)
    (context : Context) : bool :=
  if match user context with
     | None => true
     | Some u => negb (sameUser published args)
                 && negb (can u SUBSCRIBE_ALL_USER_BANNED)
     end
  then false
  else not_ (user_id args) || sameUser published args.

Definition usernameRejected (args : Args) (published : PublishedUser)
    (context : Context) : bool :=
  if match user context with
     | None => true
     | Some u => negb (sameUser published args)
                 && negb (can u SUBSCRIBE_ALL_USERNAME_REJECTED)
     end
  then false
  else not_ (user_id args) || sameUser published args.

(** A signed-in user without any permission, and nobody. *)
Definition plainUser : Context := {| user := Some {| can := fun _ => false |} |}.

Definition nobody : Context := {| user := None |}.

End Subscriptions.

(** * Properties *)

(** ** The store primitives *)

Lemma findOneAndUpdate_value {A : Type} (filter : A -> bool) (update : A -> A)
    (coll : list A) :
  (findOneAndUpdate filter update coll).1 = findOne filter coll.
Proof.
  induction coll as [|d rest IH]; simpl; [done|].
  destruct (filter d); [done|].
  destruct (findOneAndUpdate filter update rest) as [found rest']. exact IH.
Qed.

Lemma findOneAndUpdate_miss {A : Type} (filter : A -> bool) (update : A -> A)
    (coll : list A) :
  findOne filter coll = None ->
  findOneAndUpdate filter update coll = (None, coll).
Proof.
  induction coll as [|d rest IH]; simpl; [done|].
  destruct (filter d); [done|].
  intros Hmiss. by rewrite (IH Hmiss).
Qed.

Lemma findOne_Some {A : Type} (filter : A -> bool) (coll : list A) (d : A) :
  findOne filter coll = Some d -> d ∈ coll /\ filter d = true.
Proof.
  intros Hfound. apply List.find_some in Hfound as [Hin Hf].
  split; [by apply list_elem_of_In|done].
Qed.

Lemma findOne_None {A : Type} (filter : A -> bool) (coll : list A) (d : A) :
  findOne filter coll = None -> d ∈ coll -> filter d = false.
Proof.
  intros Hnone Hin. apply list_elem_of_In in Hin.
  exact (List.find_none filter coll Hnone d Hin).
Qed.

Lemma withComments_same (mongo : Db.t) : Db.withComments (Db.comments mongo) mongo = mongo.
Proof. by destruct mongo. Qed.

Lemma byTenantAndID_true tenantID id c :
  byTenantAndID tenantID id c = true <->
  Comment.id c = id /\ Comment.tenantID c = tenantID.
Proof.
  unfold byTenantAndID.
  rewrite andb_true_iff, !bool_decide_eq_true. done.
Qed.

(** ** Editing a comment *)

(** What [validateEditable] answers, as a function of the three tests in
    their order. *)
Lemma validateEditable_cases comment authorID lastEditable :
  validateEditable comment authorID lastEditable =
    if decide (Comment.authorID comment ≠ authorID) then
      Throw (Error "comment author mismatch")
    else if decide (Comment.status comment ∉ [NONE; PREMOD; APPROVED]) then
      Throw (Error "comment status is not editable")
    else if decide (Comment.createdAt comment ≤ lastEditable) then
      Throw (CommentEditWindowExpiredError (Comment.id comment))
    else Ok tt.
Proof.
  unfold validateEditable, includes, EDITABLE_STATUSES.
  destruct (decide (Comment.authorID comment ≠ authorID)) as [Hne|Heq].
  - by rewrite bool_decide_eq_false_2.
  - apply dec_stable in Heq. rewrite bool_decide_eq_true_2 by done. simpl.
    destruct (decide (Comment.status comment ∉ [NONE; PREMOD; APPROVED])) as [Hs|Hs].
    + by rewrite bool_decide_eq_false_2.
    + apply dec_stable in Hs. rewrite bool_decide_eq_true_2 by done. simpl.
      destruct (decide (Comment.createdAt comment ≤ lastEditable)) as [Hc|Hc].
      * by rewrite (proj2 (Z.leb_le _ _) Hc).
      * rewrite (proj2 (Z.leb_gt _ _)); [done|lia].
Qed.

Lemma editComment_miss concurrent mongo tenantID input now revisionID :
  findOne (editFilter tenantID input) (Db.comments mongo) = None ->
  editComment concurrent mongo tenantID input now revisionID =
    (concurrent mongo,
     match retrieveComment (concurrent mongo) tenantID (input_id input) with
     | None => Throw (Error "comment not found")
     | Some comment => Throw (editFailure comment input)
     end).
Proof.
  intros Hmiss. unfold editComment.
  rewrite (findOneAndUpdate_miss _ _ _ Hmiss), withComments_same.
  destruct (retrieveComment (concurrent mongo) tenantID (input_id input))
    as [comment|]; [|done].
  rewrite validateEditable_cases. unfold editFailure.
  repeat case_decide; done.
Qed.

(** C1.  When the conditional update of [editComment] matches no document
    and the re-fetch finds a comment with the given tenant and id, the call
    fails, leaves the store as it found it, and the error is chosen from
    the re-fetched comment in this order: author mismatch, then status not
    editable, then edit window expired, then the unexpected-reason
    conflict.  An author or status failure thus comes before the timing
    failure whatever the creation date is. *)
Theorem editComment_miss_classified concurrent mongo tenantID input now revisionID comment :
  findOne (editFilter tenantID input) (Db.comments mongo) = None ->
  retrieveComment (concurrent mongo) tenantID (input_id input) = Some comment ->
  editComment concurrent mongo tenantID input now revisionID =
    (concurrent mongo,
     Throw (if decide (Comment.authorID comment ≠ input_authorID input) then
              Error "comment author mismatch"
            else if decide (Comment.status comment ∉ [NONE; PREMOD; APPROVED]) then
              Error "comment status is not editable"
            else if decide (Comment.createdAt comment
                            ≤ lastEditableCommentCreatedAt input) then
              CommentEditWindowExpiredError (Comment.id comment)
            else Error "comment edit failed for an unexpected reason")).
Proof.
  intros Hmiss Hfetch.
  rewrite (editComment_miss _ _ _ _ _ _ Hmiss), Hfetch. reflexivity.
Qed.

Lemma editComment_miss_classified_witness :
  editComment (fun db => db) (commentsOnly [sampleComment]) "t1"
              (sampleEdit "alice" 200) 300 "r2" =
    (commentsOnly [sampleComment], Throw (CommentEditWindowExpiredError "c1")).
Proof.
  exact (editComment_miss_classified (fun db => db) (commentsOnly [sampleComment])
           "t1" (sampleEdit "alice" 200) 300 "r2" sampleComment
           eq_refl eq_refl).
Defined.

(** The conditional update of [editComment] never matches a comment created
    at the last editable date or before. *)
Lemma editFilter_outside_window tenantID input c :
  Comment.createdAt c ≤ lastEditableCommentCreatedAt input ->
  editFilter tenantID input c = false.
Proof.
  intros Hold. unfold editFilter.
  rewrite (proj2 (Z.ltb_ge _ _) Hold). apply andb_false_r.
Qed.

Lemma editFilter_byTenantAndID tenantID input c :
  editFilter tenantID input c = true ->
  byTenantAndID tenantID (input_id input) c = true.
Proof.
  unfold editFilter, byTenantAndID. rewrite !andb_true_iff. tauto.
Qed.

Lemma findOne_None_intro {A : Type} (filter : A -> bool) (coll : list A) :
  (forall d, d ∈ coll -> filter d = false) -> findOne filter coll = None.
Proof.
  induction coll as [|d rest IH]; simpl; [done|].
  intros Hall. rewrite (Hall d) by left.
  apply IH. intros d' Hin. apply Hall. by right.
Qed.

(** C2, as the code has it.  When every stored comment with the given
    tenant and id was created at [lastEditableCommentCreatedAt] or before,
    and so was the comment the re-fetch finds, [editComment] fails and the
    store is left as it was found.  The error is [CommentEditWindowExpiredError]
    when the stored author is the input author and the stored status is
    editable; a different author or a status that is not editable is
    reported first.  The call never succeeds and never fails with the
    unexpected-reason conflict. *)
Theorem editComment_outside_window concurrent mongo tenantID input now revisionID comment :
  (forall c, c ∈ Db.comments mongo ->
             Comment.id c = input_id input -> Comment.tenantID c = tenantID ->
             Comment.createdAt c ≤ lastEditableCommentCreatedAt input) ->
  retrieveComment (concurrent mongo) tenantID (input_id input) = Some comment ->
  Comment.createdAt comment ≤ lastEditableCommentCreatedAt input ->
  editComment concurrent mongo tenantID input now revisionID =
    (concurrent mongo,
     Throw (if decide (Comment.authorID comment ≠ input_authorID input) then
              Error "comment author mismatch"
            else if decide (Comment.status comment ∉ [NONE; PREMOD; APPROVED]) then
              Error "comment status is not editable"
            else CommentEditWindowExpiredError (input_id input))).
Proof.
  intros Hstored Hfetch Hold.
  assert (findOne (editFilter tenantID input) (Db.comments mongo) = None) as Hmiss.
  { apply findOne_None_intro. intros c Hin.
    destruct (editFilter tenantID input c) eqn:Hmatch; [|done].
    pose proof (editFilter_byTenantAndID _ _ _ Hmatch) as Hkey.
    apply byTenantAndID_true in Hkey as [Hid Htenant].
    rewrite (editFilter_outside_window tenantID input c) in Hmatch; [done|].
    by apply Hstored. }
  rewrite (editComment_miss _ _ _ _ _ _ Hmiss), Hfetch. unfold editFailure.
  apply findOne_Some in Hfetch as [_ Hkey].
  apply byTenantAndID_true in Hkey as [-> _].
  repeat case_decide; done.
Qed.

Lemma editComment_outside_window_witness :
  editComment (fun db => db) (commentsOnly [sampleComment]) "t1"
              (sampleEdit "alice" 100) 300 "r2" =
    (commentsOnly [sampleComment], Throw (CommentEditWindowExpiredError "c1")).
Proof.
  refine (editComment_outside_window (fun db => db) (commentsOnly [sampleComment])
            "t1" (sampleEdit "alice" 100) 300 "r2" sampleComment _ eq_refl _).
  - intros c Hin _ _. apply list_elem_of_singleton in Hin as ->. simpl. lia.
  - simpl. lia.
Defined.

(** C2 as stated fails: [c1] was created at 100 by alice, the edit window
    closed for the comments created at 200 or before, and an edit of [c1]
    by bob fails with the author mismatch, not with the expired window. *)
Lemma editComment_outside_window_other_error :
  retrieveComment (commentsOnly [sampleComment]) "t1" "c1" = Some sampleComment
  /\ Comment.createdAt sampleComment ≤ lastEditableCommentCreatedAt (sampleEdit "bob" 200)
  /\ (editComment (fun db => db) (commentsOnly [sampleComment]) "t1"
                  (sampleEdit "bob" 200) 300 "r2").2
     = Throw (Error "comment author mismatch")
  /\ (editComment (fun db => db) (commentsOnly [sampleComment]) "t1"
                  (sampleEdit "bob" 200) 300 "r2").2
     ≠ Throw (CommentEditWindowExpiredError "c1").
Proof. repeat split; [simpl; lia | done]. Qed.

(** ** Linking a reply to its parent *)

(** C9.  When no comment of the tenant has the identifier [parentID],
    [pushChildCommentIDOntoParent] returns [null] (no value), throws
    nothing, and the database is exactly what it was. *)
Theorem pushChildCommentIDOntoParent_missing_parent mongo tenantID parentID childID :
  (forall c, c ∈ Db.comments mongo ->
             ~ (Comment.id c = parentID /\ Comment.tenantID c = tenantID)) ->
  pushChildCommentIDOntoParent mongo tenantID parentID childID = (mongo, None).
Proof.
  intros Habsent. unfold pushChildCommentIDOntoParent.
  rewrite findOneAndUpdate_miss, withComments_same; [done|].
  apply findOne_None_intro. intros c Hin.
  apply not_true_is_false. rewrite byTenantAndID_true. by apply Habsent.
Qed.

Lemma pushChildCommentIDOntoParent_missing_parent_witness :
  pushChildCommentIDOntoParent (commentsOnly [sampleComment]) "t1" "c9" "c2"
  = (commentsOnly [sampleComment], None).
Proof.
  apply (pushChildCommentIDOntoParent_missing_parent
           (commentsOnly [sampleComment]) "t1" "c9" "c2").
  intros c Hin [Hid _]. apply list_elem_of_singleton in Hin as ->. discriminate Hid.
Defined.

(** ** Counting the actions on a revision *)

Lemma updateCommentActionCounts_found mongo tenantID id revisionID actionCounts c :
  retrieveComment mongo tenantID id = Some c ->
  (updateCommentActionCounts mongo tenantID id revisionID actionCounts).2
  = Ok (incActionCountsUpdate revisionID actionCounts c).
Proof.
  intros Hfound. unfold updateCommentActionCounts.
  pose proof (findOneAndUpdate_value (byTenantAndID tenantID id)
                (incActionCountsUpdate revisionID actionCounts) (Db.comments mongo))
    as Hvalue.
  destruct (findOneAndUpdate _ _ _) as [original comments'].
  simpl in Hvalue. unfold retrieveComment in Hfound.
  rewrite Hvalue, Hfound. reflexivity.
Qed.

(** The only failure of [updateCommentActionCounts] is the absence of the
    comment: the revisions play no part in it. *)
Lemma updateCommentActionCounts_throws mongo tenantID id revisionID actionCounts :
  (updateCommentActionCounts mongo tenantID id revisionID actionCounts).2
  = Throw (CommentRevisionNotFoundError id revisionID)
  <-> retrieveComment mongo tenantID id = None.
Proof.
  destruct (retrieveComment mongo tenantID id) as [c|] eqn:Hfound.
  - rewrite (updateCommentActionCounts_found _ _ _ _ _ _ Hfound). split; discriminate.
  - unfold updateCommentActionCounts.
    rewrite (findOneAndUpdate_miss _ _ _ Hfound). done.
Qed.

(** When no revision has the identifier given, the counters of the comment
    are incremented all the same and its revisions are left as they are. *)
Lemma incActionCountsUpdate_unknown_revision revisionID actionCounts c :
  revisionID ∉ map Revision.id (Comment.revisions c) ->
  incActionCountsUpdate revisionID actionCounts c
  = Comment.setActionCounts (incCounts (Comment.actionCounts c) actionCounts) c.
Proof.
  intros Hunknown. unfold incActionCountsUpdate.
  assert (map (fun r => if bool_decide (Revision.id r = revisionID)
                        then Revision.incActionCounts actionCounts r else r)
              (Comment.revisions c) = Comment.revisions c) as ->.
  { induction (Comment.revisions c) as [|r rs IH]; simpl; [done|].
    simpl in Hunknown. apply not_elem_of_cons in Hunknown as [Hne Hrest].
    rewrite bool_decide_eq_false_2 by done. by rewrite IH. }
  by destruct c.
Qed.

(** C3, the code at the failing input.  [c1] has the single revision [r1].
    Counting one reaction on the revision [r9] of [c1], which does not
    exist, throws nothing: the call returns the comment with its own
    [actionCounts] incremented, the store holds that comment, and no
    revision has changed. *)
Theorem updateCommentActionCounts_unknown_revision_counted :
  ("r9" ∉ map Revision.id (Comment.revisions sampleComment))
  /\ updateCommentActionCounts (commentsOnly [sampleComment]) "t1" "c1" "r9"
                               {[ "REACTION" := 1 ]}
     = (commentsOnly [Comment.setActionCounts {[ "REACTION" := 1 ]} sampleComment],
        Ok (Comment.setActionCounts {[ "REACTION" := 1 ]} sampleComment)).
Proof.
  split.
  - simpl. rewrite list_elem_of_singleton. discriminate.
  - vm_compute. reflexivity.
Qed.

(** ** The parents of a comment *)

Lemma retrieveManyComments_none collection tenantID ids :
  (forall c, c ∈ collection -> Comment.tenantID c = tenantID -> Comment.id c ∉ ids) ->
  retrieveManyComments collection tenantID ids = [].
Proof.
  intros Hnone. unfold retrieveManyComments, find.
  assert (List.filter
            (fun c => bool_decide (Comment.id c ∈ ids)
                      && bool_decide (Comment.tenantID c = tenantID)) collection = [])
    as ->; [|done].
  induction collection as [|c rest IH]; simpl; [done|].
  destruct (bool_decide (Comment.id c ∈ ids)) eqn:Hid;
    destruct (bool_decide (Comment.tenantID c = tenantID)) eqn:Htenant; simpl;
    try (apply IH; intros c' Hin; apply Hnone; by right).
  apply bool_decide_eq_true in Hid, Htenant.
  destruct (Hnone c); [by left|done|done].
Qed.

(** When one of the identifiers asked for is stored and another is not, the
    answer of [retrieveManyComments] has a [null] entry. *)
Lemma retrieveManyComments_some_missing collection tenantID ids found missing :
  found ∈ collection -> Comment.tenantID found = tenantID -> Comment.id found ∈ ids ->
  missing ∈ ids ->
  (forall c, c ∈ collection -> Comment.tenantID c = tenantID -> Comment.id c ≠ missing) ->
  doesNotContainNull (retrieveManyComments collection tenantID ids) = false.
Proof.
  intros Hin Htenant Hid Hmissing Habsent.
  unfold retrieveManyComments, find.
  set (items := List.filter _ collection).
  assert (found ∈ items) as Hitem.
  { apply list_elem_of_In, List.filter_In. split; [by apply list_elem_of_In|].
    by rewrite !bool_decide_eq_true_2. }
  destruct items as [|i items'] eqn:Hitems; [by apply not_elem_of_nil in Hitem|].
  simpl length. change (0 <? S (length items'))%nat with true. cbv iota.
  rewrite <- Hitems. clear Hitem Hitems.
  apply not_true_is_false. unfold doesNotContainNull.
  rewrite List.forallb_forall. intros Hall.
  specialize (Hall (List.find (fun c => bool_decide (Comment.id c = missing)) items)).
  destruct (List.find (fun c => bool_decide (Comment.id c = missing)) items)
    as [c|] eqn:Hfind.
  - apply List.find_some in Hfind as [Hc Hcid].
    apply List.filter_In in Hc as [Hc Hkey].
    apply andb_true_iff in Hkey as [_ Hct].
    apply bool_decide_eq_true in Hcid, Hct.
    by apply (Habsent c); [apply list_elem_of_In|..].
  - assert (bool_decide (is_Some (@None Comment.t)) = true) as Habs.
    { apply Hall, List.in_map_iff. exists missing.
      split; [done|by apply list_elem_of_In]. }
    apply bool_decide_eq_true in Habs. by destruct Habs.
Qed.

(** The part of the broken-ancestry check that holds: a window of ancestors
    of which one is stored and another is missing makes the call fail. *)
Lemma retrieveCommentParentsConnection_some_missing
    collection tenantID comment limit before found missing :
  hasAncestors comment = true -> 0 < limit ->
  found ∈ collection -> Comment.tenantID found = tenantID ->
  Comment.id found ∈ slice (Comment.ancestorIDs comment) (default 0 before)
                           (default 0 before + limit) ->
  missing ∈ slice (Comment.ancestorIDs comment) (default 0 before)
                  (default 0 before + limit) ->
  (forall c, c ∈ collection -> Comment.tenantID c = tenantID -> Comment.id c ≠ missing) ->
  retrieveCommentParentsConnection collection tenantID comment limit before
  = Throw (Error "parent id specified does not exist").
Proof.
  intros Hanc Hlimit Hin Htenant Hid Hmissing Habsent.
  unfold retrieveCommentParentsConnection.
  rewrite Hanc. simpl negb. cbv iota.
  rewrite (proj2 (Z.leb_gt _ _) Hlimit).
  by rewrite (retrieveManyComments_some_missing _ _ _ _ _ Hin Htenant Hid Hmissing Habsent).
Qed.

(** C4, the code at the failing input.  The reply [c2] has the ancestors
    [p1] and [p2]; the collection holds neither (it holds [c1] only).
    Asking for the two nearest parents throws nothing: the call returns a
    page without nodes and without edges. *)
Theorem retrieveCommentParentsConnection_all_missing_tolerated :
  hasAncestors sampleReply = true
  /\ slice (Comment.ancestorIDs sampleReply) 0 (0 + 2) = ["p1"; "p2"]
  /\ retrieveManyComments [sampleComment] "t1" ["p1"; "p2"] = []
  /\ retrieveCommentParentsConnection [sampleComment] "t1" sampleReply 2 None
     = Ok {| edges := []; nodes := [];
             pageInfo := {| hasNextPage := false; hasPreviousPage := false;
                            startCursor := None; endCursor := None |} |}.
Proof. repeat split. Qed.

(** C5, as the code has it.  For a comment that has ancestors, a limit of
    zero gives an empty page, no node and no edge, whose page information
    has [hasPreviousPage = true]; nothing is thrown and the collection is
    not read. *)
Theorem retrieveCommentParentsConnection_zero_limit collection tenantID comment before :
  Comment.ancestorIDs comment ≠ [] ->
  retrieveCommentParentsConnection collection tenantID comment 0 before
  = Ok {| edges := []; nodes := [];
          pageInfo := {| hasNextPage := false; hasPreviousPage := true;
                         startCursor := Some 0; endCursor := Some 0 |} |}.
Proof.
  intros Hanc. unfold retrieveCommentParentsConnection, hasAncestors.
  by rewrite bool_decide_eq_true_2.
Qed.

Lemma retrieveCommentParentsConnection_zero_limit_witness :
  retrieveCommentParentsConnection [] "t1" sampleReply 0 None
  = Ok {| edges := []; nodes := [];
          pageInfo := {| hasNextPage := false; hasPreviousPage := true;
                         startCursor := Some 0; endCursor := Some 0 |} |}.
Proof.
  apply (retrieveCommentParentsConnection_zero_limit [] "t1" sampleReply None).
  discriminate.
Defined.

(** C5 as stated fails on a comment without ancestors: with a limit of
    zero the page is empty but its [hasPreviousPage] is [false]. *)
Lemma retrieveCommentParentsConnection_zero_limit_top_level :
  Comment.ancestorIDs sampleComment = []
  /\ retrieveCommentParentsConnection [] "t1" sampleComment 0 None
     = Ok {| edges := []; nodes := [];
             pageInfo := {| hasNextPage := false; hasPreviousPage := false;
                            startCursor := None; endCursor := None |} |}.
Proof. split; reflexivity. Qed.

(** ** Negating the counters of a story *)

Lemma scaleInto_lookup multiplier (source target : gmap string Z) key :
  scaleInto multiplier source target !! key =
    match source !! key with
    | Some value => Some (value * multiplier)
    | None => target !! key
    end.
Proof.
  unfold scaleInto. rewrite lookup_union, lookup_fmap.
  destruct (source !! key), (target !! key); reflexivity.
Qed.

(** Negating twice into the same zeroed target gives back a dictionary that
    has all the keys of the target. *)
Lemma scaleInto_negate_twice (source target : gmap string Z) :
  dom target ⊆ dom source ->
  scaleInto (-1) (scaleInto (-1) source target) target = source.
Proof.
  intros Hkeys. apply map_eq. intros key.
  rewrite !scaleInto_lookup.
  destruct (source !! key) as [value|] eqn:Hsource.
  - f_equal. lia.
  - assert (target !! key = None) as ->; [|done].
    apply not_elem_of_dom. intros Hin.
    apply Hkeys, elem_of_dom in Hin. rewrite Hsource in Hin. by destruct Hin.
Qed.

(** C6.  For the counters of a story, negating them and negating the result
    again gives the counters back whole: every action total, the moderation
    queue total, every queue count and every status count. *)
Theorem getCommentCounts_negate_twice story :
  isRelatedCommentCounts (Story.commentCounts story) ->
  getCommentCounts (Story.setCommentCounts (getCommentCounts story true) story) true
  = Story.commentCounts story.
Proof.
  destruct story as [id tenantID siteID counts archiving archived].
  destruct counts as [a q s].
  destruct a as [a|], q as [q|], s as [s|];
    unfold isRelatedCommentCounts; simpl; try done.
  destruct q as [t q]. intros [Hqueues Hstatus].
  unfold getCommentCounts. simpl.
  rewrite !scaleInto_negate_twice by (done || set_solver).
  do 3 f_equal. f_equal. lia.
Qed.

Lemma getCommentCounts_negate_twice_witness :
  getCommentCounts
    (Story.setCommentCounts (getCommentCounts (sampleStory false) true)
                            (sampleStory false)) true
  = sampleCounts.
Proof.
  apply (getCommentCounts_negate_twice (sampleStory false)).
  split; simpl; unfold createEmptyCommentStatusCounts; set_solver.
Defined.

(** Each leaf counter of the stored counters comes back from the double
    negation with its value, whatever parts and keys the stored counters
    have. *)
Lemma getCommentCounts_negate_twice_leaves story :
  let c := Story.commentCounts story in
  let r := getCommentCounts
             (Story.setCommentCounts (getCommentCounts story true) story) true in
  (forall a key v, action c = Some a -> a !! key = Some v ->
                   action r ≫= (fun a' => a' !! key) = Some v)
  /\ (forall q, moderationQueue c = Some q ->
                total <$> moderationQueue r = Some (total q))
  /\ (forall q key v, moderationQueue c = Some q -> queues q !! key = Some v ->
                      moderationQueue r ≫= (fun q' => queues q' !! key) = Some v)
  /\ (forall s key v, status c = Some s -> s !! key = Some v ->
                      status r ≫= (fun s' => s' !! key) = Some v).
Proof.
  destruct story as [id tenantID siteID counts archiving archived].
  destruct counts as [a q s]. simpl.
  repeat split.
  - intros a' key v -> Hv. simpl. rewrite !scaleInto_lookup, Hv. f_equal. lia.
  - intros q' ->. simpl. f_equal. lia.
  - intros q' key v -> Hv. simpl. rewrite !scaleInto_lookup, Hv. f_equal. lia.
  - intros s' key v -> Hv. simpl. rewrite !scaleInto_lookup, Hv. f_equal. lia.
Qed.

(** ** Archiving and unarchiving *)

Lemma findOneAndUpdate_hit {A : Type} (filter : A -> bool) (update : A -> A)
    (coll : list A) (d : A) :
  findOne filter coll = Some d -> filter (update d) = true ->
  exists coll', findOneAndUpdate filter update coll = (Some d, coll')
                /\ findOne filter coll' = Some (update d).
Proof.
  induction coll as [|x rest IH]; simpl; [done|].
  destruct (filter x) eqn:Hx.
  - intros [= ->] Hupdated. exists (update d :: rest). simpl. by rewrite Hupdated.
  - intros Hfound Hupdated. destruct (IH Hfound Hupdated) as (rest' & -> & Hrest).
    exists (x :: rest'). simpl. by rewrite Hx.
Qed.

(** *** The batches of [moveDocuments] *)

Section MoveDocuments.
Context {D : Type} `{Document D}.

Lemma filter_twice {A : Type} (f g : A -> bool) (l : list A) :
  List.filter f (List.filter g l) = List.filter (fun x => g x && f x) l.
Proof.
  induction l as [|x l IH]; simpl; [done|].
  destruct (g x); simpl; [|done]. destruct (f x); by rewrite IH.
Qed.

Lemma bulkRemove_nil tenantID (src : list D) : bulkRemove tenantID [] src = src.
Proof.
  unfold bulkRemove. induction src as [|d rest IH]; cbn [List.filter]; [done|].
  rewrite IH.
  destruct (docID d) as [i|];
    [rewrite (bool_decide_eq_false_2 (i ∈ [])) by apply not_elem_of_nil|];
    by rewrite andb_false_r.
Qed.

Lemma bulkRemove_app tenantID ids1 ids2 (src : list D) :
  bulkRemove tenantID ids2 (bulkRemove tenantID ids1 src)
  = bulkRemove tenantID (ids1 ++ ids2) src.
Proof.
  unfold bulkRemove. rewrite filter_twice. apply List.filter_ext. intros d.
  destruct (bool_decide (docTenantID d = tenantID)); [|done].
  destruct (docID d) as [i|]; [|done]. cbn [andb].
  destruct (decide (i ∈ ids1)) as [Hin|Hout].
  - rewrite (bool_decide_eq_true_2 (i ∈ ids1)) by done.
    by rewrite (bool_decide_eq_true_2 (i ∈ ids1 ++ ids2))
        by (rewrite elem_of_app; tauto).
  - rewrite (bool_decide_eq_false_2 (i ∈ ids1)) by done. cbn [negb andb].
    destruct (decide (i ∈ ids2)) as [Hin2|Hout2].
    + rewrite (bool_decide_eq_true_2 (i ∈ ids2)) by done.
      by rewrite (bool_decide_eq_true_2 (i ∈ ids1 ++ ids2))
        by (rewrite elem_of_app; tauto).
    + rewrite (bool_decide_eq_false_2 (i ∈ ids2)) by done.
      by rewrite (bool_decide_eq_false_2 (i ∈ ids1 ++ ids2))
        by (rewrite elem_of_app; tauto).
Qed.

(** What the loop keeps true: the documents inserted and those still in the
    batch are the documents read so far, and the deletions made and those
    still to make remove the identifiers read so far. *)
Lemma moveLoop_invariant tenantID returnMovedIDs selection (st : MoveState D) :
  let st' := moveLoop tenantID returnMovedIDs selection st in
  destination st' ++ insertBatch st' = destination st ++ insertBatch st ++ selection
  /\ bulkRemove tenantID (deleteIDs st') (source st')
     = bulkRemove tenantID (deleteIDs st ++ omap docID selection) (source st)
  /\ allIDs st'
     = allIDs st ++ (if returnMovedIDs then omap docID selection else []).
Proof.
  revert st. induction selection as [|document rest IH]; intros st; cbv zeta.
  - cbn [moveLoop omap list_omap]. rewrite !app_nil_r.
    destruct returnMovedIDs; by rewrite app_nil_r.
  - cbn [moveLoop].
    destruct (BATCH_SIZE <=? length (insertBatch st ++ [document]))%nat;
      match goal with |- context [moveLoop _ _ rest ?st0] =>
        destruct (IH st0) as (Hdst & Hsrc & Hids)
      end;
      cbn [insertBatch deleteIDs allIDs source destination] in Hdst, Hsrc, Hids;
      rewrite Hdst, Hsrc, Hids; cbn [omap list_omap];
      destruct (docID document) as [i|];
      rewrite ?bulkRemove_app, ?app_nil_r, <- ?(assoc_L (++)); cbn [app];
      repeat split; try done;
      destruct returnMovedIDs; by rewrite <- ?(assoc_L (++)).
Qed.

(** The batches add up: every selected document is inserted into the
    destination, every selected identifier is removed from the source, and
    the identifiers are returned when asked for. *)
Lemma moveDocuments_moved tenantID (src selection dst : list D) returnMovedIDs :
  moveDocuments tenantID src selection dst returnMovedIDs
  = (bulkRemove tenantID (omap docID selection) src,
     dst ++ selection,
     if returnMovedIDs then omap docID selection else []).
Proof.
  unfold moveDocuments.
  match goal with |- context [moveLoop _ _ _ ?st0] =>
    destruct (moveLoop_invariant tenantID returnMovedIDs selection st0)
      as (Hdst & Hsrc & Hids);
    set (st := moveLoop tenantID returnMovedIDs selection st0) in *
  end.
  simpl in Hdst, Hsrc, Hids. rewrite Hids. f_equal. f_equal.
  - rewrite <- Hsrc. destruct (deleteIDs st); simpl; [|done].
    by rewrite bulkRemove_nil.
  - rewrite <- Hdst. destruct (insertBatch st); simpl; [|done].
    by rewrite app_nil_r.
Qed.

End MoveDocuments.

Section Archiver.
Context `{CounterStores}.

Lemma archiveStory_disabled mongo redis tenantID id :
  archive mongo = None ->
  archiveStory mongo redis tenantID id
  = (mongo, redis,
     Throw (Error "Cannot archive, archive connection is not initialized")).
Proof. intros Hnone. unfold archiveStory. by rewrite Hnone. Qed.

(** C7, as the code has it.  With an archive connection, archiving a story
    that the live database holds with [isArchived] set returns at once,
    successfully and with no value: the live database, the archive
    database and the cache are what they were, so no document has moved,
    no counter has changed and the story is as it was.  Archiving again is
    the same no-op. *)
Theorem archiveStory_already_archived mongo redis tenantID id archiveDb story :
  archive mongo = Some archiveDb ->
  findOne (storyByTenantAndID tenantID id) (Db.stories (live mongo)) = Some story ->
  Story.isArchived story = true ->
  archiveStory mongo redis tenantID id = (mongo, redis, Ok None)
  /\ archiveStory (archiveStory mongo redis tenantID id).1.1
                  (archiveStory mongo redis tenantID id).1.2 tenantID id
     = (mongo, redis, Ok None).
Proof.
  intros Harchive Hfound Harchived.
  assert (archiveStory mongo redis tenantID id = (mongo, redis, Ok None)) as Hnoop.
  { unfold archiveStory. by rewrite Harchive, Hfound, Harchived. }
  by rewrite !Hnoop.
Qed.

Lemma unarchiveStory_not_archived mongo redis tenantID id archiveDb story :
  archive mongo = Some archiveDb ->
  findOne (storyByTenantAndID tenantID id) (Db.stories (live mongo)) = Some story ->
  Story.isArchived story = false ->
  unarchiveStory mongo redis tenantID id = (mongo, redis, Ok None).
Proof.
  intros Harchive Hfound Harchived.
  unfold unarchiveStory. by rewrite Harchive, Hfound, Harchived.
Qed.

Lemma storyByTenantAndID_setArchive tenantID id archiving archived s :
  storyByTenantAndID tenantID id (Story.setArchive archiving archived s)
  = storyByTenantAndID tenantID id s.
Proof. reflexivity. Qed.

(** The last step of both migrations: the flags are set on the story that
    the store still holds, and the updated story is the value returned. *)
Lemma markStory tenantID id archived (liveDb : Db.t) :
  is_Some (findOne (storyByTenantAndID tenantID id) (Db.stories liveDb)) ->
  exists original stories',
    findOneAndUpdate (storyByTenantAndID tenantID id)
                     (Story.setArchive false archived) (Db.stories liveDb)
    = (Some original, stories')
    /\ findOne (storyByTenantAndID tenantID id) stories'
       = Some (Story.setArchive false archived original).
Proof.
  intros [original Hfound].
  destruct (findOneAndUpdate_hit _ (Story.setArchive false archived) _ _ Hfound)
    as (stories' & Hupdate & Hafter).
  { rewrite storyByTenantAndID_setArchive. by apply findOne_Some in Hfound as [_ ?]. }
  by exists original, stories'.
Qed.

Lemma archiveStory_migrated mongo redis tenantID id archiveDb story :
  keepsStories ->
  archive mongo = Some archiveDb ->
  findOne (storyByTenantAndID tenantID id) (Db.stories (live mongo)) = Some story ->
  Story.isArchived story = false ->
  exists s, (archiveStory mongo redis tenantID id).2 = Ok (Some s)
            /\ isPostImage (archiveStory mongo redis tenantID id).1.1 tenantID id true s.
Proof.
  intros Hkeeps Harchive Hfound Hlive.
  unfold archiveStory. rewrite Harchive, Hfound, Hlive.
  destruct (moveDocuments tenantID (Db.comments (live mongo)) _ _ true)
    as [[liveComments archived] targetCommentIDs].
  destruct (moveDocuments tenantID _ _ _ false) as [[liveActions archivedActions] ?].
  destruct (moveDocuments tenantID _ _ _ false)
    as [[liveModeration archivedModeration] ?].
  match goal with
  | |- context [findOneAndUpdate _ _ (Db.stories ?db)] =>
      destruct (markStory tenantID id true db) as (original & stories' & -> & Hafter)
  end.
  { apply Hkeeps. simpl. by rewrite Hfound. }
  exists (Story.setArchive false true original). by repeat split.
Qed.

Lemma unarchiveStory_migrated mongo redis tenantID id archiveDb story :
  keepsStories ->
  archive mongo = Some archiveDb ->
  findOne (storyByTenantAndID tenantID id) (Db.stories (live mongo)) = Some story ->
  Story.isArchived story = true ->
  exists s, (unarchiveStory mongo redis tenantID id).2 = Ok (Some s)
            /\ isPostImage (unarchiveStory mongo redis tenantID id).1.1 tenantID id false s.
Proof.
  intros Hkeeps Harchive Hfound Harchived.
  unfold unarchiveStory. rewrite Harchive, Hfound, Harchived. simpl negb. cbv iota.
  destruct (moveDocuments tenantID (Db.archivedComments archiveDb) _ _ true)
    as [[archived liveComments] targetCommentIDs].
  destruct (moveDocuments tenantID _ _ _ false) as [[archivedActions liveActions] ?].
  destruct (moveDocuments tenantID _ _ _ false)
    as [[archivedModeration liveModeration] ?].
  match goal with
  | |- context [findOneAndUpdate _ _ (Db.stories ?db)] =>
      destruct (markStory tenantID id false db) as (original & stories' & -> & Hafter)
  end.
  { apply Hkeeps. simpl. by rewrite Hfound. }
  exists (Story.setArchive false false original). by repeat split.
Qed.

(** C10.  With an archive connection and a story that the live database
    holds, the two calls return as follows.  On an archived story,
    [archiveStory] is the no-op and returns no value, while
    [unarchiveStory] migrates and returns the story as the store then holds
    it, with [isArchiving] and [isArchived] both cleared.  On a story that
    is not archived, [unarchiveStory] is the no-op and returns no value,
    while [archiveStory] migrates and returns the story as the store then
    holds it, with [isArchiving] cleared and [isArchived] set. *)
Theorem archive_unarchive_return_value mongo redis tenantID id archiveDb story :
  keepsStories ->
  archive mongo = Some archiveDb ->
  findOne (storyByTenantAndID tenantID id) (Db.stories (live mongo)) = Some story ->
  if Story.isArchived story then
    (archiveStory mongo redis tenantID id).2 = Ok None
    /\ exists s, (unarchiveStory mongo redis tenantID id).2 = Ok (Some s)
                 /\ isPostImage (unarchiveStory mongo redis tenantID id).1.1
                                tenantID id false s
  else
    (unarchiveStory mongo redis tenantID id).2 = Ok None
    /\ exists s, (archiveStory mongo redis tenantID id).2 = Ok (Some s)
                 /\ isPostImage (archiveStory mongo redis tenantID id).1.1
                                tenantID id true s.
Proof.
  intros Hkeeps Harchive Hfound.
  destruct (Story.isArchived story) eqn:Harchived.
  - split; [|by eapply unarchiveStory_migrated].
    unfold archiveStory. by rewrite Harchive, Hfound, Harchived.
  - split; [|by eapply archiveStory_migrated].
    by erewrite unarchiveStory_not_archived.
Qed.

End Archiver.

(** ** Ordering of a query *)

Lemma compareValues_opp x y : compareValues y x = CompOpp (compareValues x y).
Proof. destruct x, y; simpl; try done. apply Z.compare_antisym. Qed.

Lemma compareValues_eq x y : compareValues x y = Eq -> x = y.
Proof.
  destruct x, y; simpl; try done. intros Heq. by apply Z.compare_eq in Heq as ->.
Qed.

Lemma compareValues_lt_trans x y z :
  compareValues x y = Lt -> compareValues y z = Lt -> compareValues x z = Lt.
Proof.
  destruct x, y, z; simpl; try done. rewrite !Z.compare_lt_iff. lia.
Qed.

Lemma compareField_opp entry a b :
  compareField entry b a = CompOpp (compareField entry a b).
Proof.
  unfold compareField. rewrite (compareValues_opp (fieldValue entry.1 a)).
  by destruct (entry.2 <? 0); rewrite ?CompOpp_involutive.
Qed.

Lemma compareField_eq entry a b :
  compareField entry a b = Eq -> fieldValue entry.1 a = fieldValue entry.1 b.
Proof.
  unfold compareField. intros Heq. apply compareValues_eq.
  destruct (entry.2 <? 0); [|done].
  by destruct (compareValues (fieldValue entry.1 a) (fieldValue entry.1 b)).
Qed.

Lemma compareField_lt_trans entry a b c :
  compareField entry a b = Lt -> compareField entry b c = Lt ->
  compareField entry a c = Lt.
Proof.
  unfold compareField. destruct (entry.2 <? 0).
  - rewrite <- !compareValues_opp. simpl. intros Hba Hcb.
    exact (compareValues_lt_trans _ _ _ Hcb Hba).
  - apply compareValues_lt_trans.
Qed.

Lemma compareSort_opp sort a b : compareSort sort b a = CompOpp (compareSort sort a b).
Proof.
  induction sort as [|entry rest IH]; simpl; [done|].
  rewrite (compareField_opp entry a b).
  by destruct (compareField entry a b); simpl.
Qed.

#[global] Instance sortedBefore_total sort : Total (sortedBefore sort).
Proof.
  intros a b. unfold sortedBefore. rewrite (compareSort_opp sort a b).
  destruct (compareSort sort a b); simpl; [left|left|right]; done.
Qed.

#[global] Instance sortedBefore_transitive sort : Transitive (sortedBefore sort).
Proof.
  unfold sortedBefore. intros a b c.
  induction sort as [|entry rest IH]; simpl; [done|].
  destruct (compareField entry a b) eqn:Hab;
    destruct (compareField entry b c) eqn:Hbc; try done.
  - pose proof (compareField_eq _ _ _ Hab) as Hvalue.
    assert (compareField entry a c = Eq) as ->; [|exact IH].
    by unfold compareField in *; rewrite Hvalue.
  - pose proof (compareField_eq _ _ _ Hab) as Hvalue.
    assert (compareField entry a c = Lt) as ->; [|done].
    by unfold compareField in *; rewrite Hvalue.
  - pose proof (compareField_eq _ _ _ Hbc) as Hvalue.
    assert (compareField entry a c = Lt) as ->; [|done].
    by unfold compareField in *; rewrite <- Hvalue.
  - by rewrite (compareField_lt_trans _ _ _ _ Hab Hbc).
Qed.

Lemma ordered_StronglySorted q :
  StronglySorted (sortedBefore (Query.sort q)) (Query.ordered q).
Proof. unfold Query.ordered. apply (StronglySorted_merge_sort _). Qed.

(** What the sort document [{ count: -1, createdAt: -1 }] means for two
    comments: the first has the greater count, or the counts are equal (a
    missing count being below every count) and the first was not created
    before the second. *)
Lemma sortedBefore_count_then_createdAt field a b :
  sortedBefore [(field, -1); (FieldCreatedAt, -1)] a b <->
  compareValues (fieldValue field b) (fieldValue field a) = Lt
  \/ (fieldValue field a = fieldValue field b
      /\ Comment.createdAt b ≤ Comment.createdAt a).
Proof.
  unfold sortedBefore. simpl. unfold compareField. simpl.
  rewrite (compareValues_opp (fieldValue field b) (fieldValue field a)).
  destruct (compareValues (fieldValue field b) (fieldValue field a)) eqn:Hcount;
    simpl.
  - apply compareValues_eq in Hcount.
    destruct (Z.compare_spec (Comment.createdAt a) (Comment.createdAt b))
      as [Hdate|Hdate|Hdate]; simpl.
    + split; [|done]. intros _. right. split; [done|lia].
    + split; [done|]. intros [?|[_ ?]]; [done|exfalso; lia].
    + split; [|done]. intros _. right. split; [done|lia].
  - split; [by left|done].
  - split; [done|]. intros [?|[Heq _]]; [done|].
    rewrite Heq in Hcount. destruct (fieldValue field b); simpl in Hcount; [|done].
    by rewrite Z.compare_refl in Hcount.
Qed.

(** ** Cursors of the connections ordered by a count *)

Lemma nodesToEdges_lookup nodes transformer k :
  nodesToEdges nodes transformer !! k
  = (fun n => {| node := n; cursor := transformer n (Z.of_nat k) |}) <$> nodes !! k.
Proof. unfold nodesToEdges. apply list_lookup_imap. Qed.

Lemma nodesToEdges_length nodes transformer :
  length (nodesToEdges nodes transformer) = length nodes.
Proof. unfold nodesToEdges. apply length_imap. Qed.

Lemma cursorGetterFactory_ordinal input n index :
  orderBy input = REPLIES_DESC \/ orderBy input = REACTION_DESC ->
  cursorGetterFactory input n index = default 0 (after_ input) + index + 1.
Proof.
  unfold cursorGetterFactory, truthy.
  intros [-> | ->]; destruct (after_ input) as [c|]; simpl; try done;
    destruct (Z.eqb_spec c 0); simpl; lia.
Qed.

(** Under the two orderings by a count, the input sets the sort document
    and turns a cursor into the number of comments to skip. *)
Lemma applyInputToQuery_ordinal input q :
  orderBy input = REPLIES_DESC \/ orderBy input = REACTION_DESC ->
  applyInputToQuery input q
  = Query.mk (Query.collection q) (Query.filter q)
             [(countField input, -1); (FieldCreatedAt, -1)]
             (if truthy (default 0 (after_ input)) then default 0 (after_ input)
              else Query.skip q)
             (Query.limit q).
Proof.
  unfold applyInputToQuery, countField.
  intros [-> | ->]; destruct (after_ input) as [c|]; simpl;
    try destruct (truthy c); by destruct q.
Qed.

Lemma commentQuery_skip collection tenantID input :
  Query.skip (commentQuery collection tenantID input) = 0
  /\ Query.limit (commentQuery collection tenantID input) = None.
Proof. unfold commentQuery. by destruct (filter_ input). Qed.

(** The query of a connection ordered by a count skips as many ranked
    comments as the cursor says. *)
Lemma applyInputToQuery_commentQuery collection tenantID input :
  orderBy input = REPLIES_DESC \/ orderBy input = REACTION_DESC ->
  Query.exec (applyInputToQuery input (commentQuery collection tenantID input))
  = drop (Z.to_nat (default 0 (after_ input)))
         (rankedComments collection tenantID input)
  /\ forall n,
       Query.exec (Query.first n
                     (applyInputToQuery input (commentQuery collection tenantID input)))
       = take (Z.to_nat n)
              (drop (Z.to_nat (default 0 (after_ input)))
                    (rankedComments collection tenantID input)).
Proof.
  intros Hordinal. rewrite (applyInputToQuery_ordinal _ _ Hordinal).
  destruct (commentQuery_skip collection tenantID input) as [Hskip Hlimit].
  unfold Query.exec, Query.first, rankedComments, Query.ordered. simpl.
  rewrite Hskip, Hlimit.
  assert ((if truthy (default 0 (after_ input)) then default 0 (after_ input) else 0)
          = default 0 (after_ input)) as ->; [|done].
  unfold truthy. by destruct (Z.eqb_spec (default 0 (after_ input)) 0).
Qed.

(** A page holds the first [first] comments the query finds: the one more
    it asked for is dropped. *)
Lemma take_one_more {A : Type} (n : nat) (l : list A) :
  (if (n <? length (take (S n) l))%nat then take n (take (S n) l) else take (S n) l)
  = take n l.
Proof.
  rewrite length_take. destruct (Nat.ltb_spec n (S n `min` length l)).
  - rewrite take_take. f_equal. lia.
  - rewrite !take_ge by lia. done.
Qed.

Lemma retrieveCommentConnection_page collection tenantID input :
  orderBy input = REPLIES_DESC \/ orderBy input = REACTION_DESC ->
  0 < first input ->
  nodes (retrieveCommentConnection collection tenantID input)
  = take (Z.to_nat (first input))
         (drop (Z.to_nat (default 0 (after_ input)))
               (rankedComments collection tenantID input)).
Proof.
  intros Hordinal Hfirst.
  destruct (applyInputToQuery_commentQuery collection tenantID input Hordinal)
    as [_ Hexec].
  unfold retrieveCommentConnection. fold (commentQuery collection tenantID input).
  unfold retrieveConnection, resolveConnection. simpl.
  assert (truthy (first input) = true) as ->.
  { unfold truthy. destruct (Z.eqb_spec (first input) 0); [lia|done]. }
  rewrite Hexec. simpl.
  set (rest := drop _ _).
  replace (Z.to_nat (first input + 1)) with (S (Z.to_nat (first input))) by lia.
  rewrite <- (take_one_more (Z.to_nat (first input)) rest).
  destruct (Nat.ltb_spec (Z.to_nat (first input))
              (length (take (S (Z.to_nat (first input))) rest)));
    destruct (Z.ltb_spec (first input)
                (Z.of_nat (length (take (S (Z.to_nat (first input))) rest))));
    (done || lia).
Qed.

Lemma retrieveCommentConnection_edges collection tenantID input :
  edges (retrieveCommentConnection collection tenantID input)
  = nodesToEdges (nodes (retrieveCommentConnection collection tenantID input))
                 (cursorGetterFactory input)
  /\ endCursor (pageInfo (retrieveCommentConnection collection tenantID input))
     = cursor <$> last (edges (retrieveCommentConnection collection tenantID input)).
Proof. done. Qed.

(** C8.  For a connection ordered by replies or by reactions, fetched after
    the cursor [c] (zero when no cursor is given):
    - the edge at the zero-based position [k] of the page has the cursor
      [c + k + 1];
    - a page of [L] nodes, [L] positive, has the end cursor [c + L];
    - the first edge of the page fetched after [c + L] has the cursor
      [c + L + 1];
    - the comments paged through are ranked by the count, the greatest
      first, and by creation date, the latest first, among equal counts;
    - for a cursor that is not negative and a positive limit, the page is
      the limit's worth of ranked comments from the rank [c + 1] on, and
      the page fetched after [c + L] starts at the rank [c + L + 1]. *)
Theorem ordinal_cursor_pagination collection tenantID input :
  orderBy input = REPLIES_DESC \/ orderBy input = REACTION_DESC ->
  let c := default 0 (after_ input) in
  let page := retrieveCommentConnection collection tenantID input in
  let L := Z.of_nat (length (nodes page)) in
  let next :=
    retrieveCommentConnection collection tenantID (withAfter (Some (c + L)) input) in
  let ranked := rankedComments collection tenantID input in
  (forall k e, edges page !! k = Some e -> cursor e = c + Z.of_nat k + 1)
  /\ (0 < L -> endCursor (pageInfo page) = Some (c + L))
  /\ (forall e, edges next !! 0%nat = Some e -> cursor e = c + L + 1)
  /\ StronglySorted (sortedBefore [(countField input, -1); (FieldCreatedAt, -1)]) ranked
  /\ (0 ≤ c -> 0 < first input ->
      nodes page = take (Z.to_nat (first input)) (drop (Z.to_nat c) ranked)
      /\ nodes next
         = take (Z.to_nat (first input)) (drop (Z.to_nat c + length (nodes page)) ranked)).
Proof.
  intros Hordinal. cbv zeta.
  assert (forall input', orderBy input' = orderBy input ->
            forall k e,
              edges (retrieveCommentConnection collection tenantID input') !! k = Some e ->
              cursor e = default 0 (after_ input') + Z.of_nat k + 1) as Hcursor.
  { intros input' Hsame k e.
    destruct (retrieveCommentConnection_edges collection tenantID input') as [-> _].
    rewrite nodesToEdges_lookup.
    destruct (nodes _ !! k) as [n|]; simpl; [|done].
    intros [= <-]. simpl. apply cursorGetterFactory_ordinal. by rewrite Hsame. }
  set (page := retrieveCommentConnection collection tenantID input).
  repeat split.
  - by apply Hcursor.
  - intros Hpositive.
    destruct (retrieveCommentConnection_edges collection tenantID input) as [Hedges Hend].
    fold page in Hedges, Hend. rewrite Hend, last_lookup.
    assert (length (edges page) = length (nodes page)) as Hlength.
    { rewrite Hedges. apply nodesToEdges_length. }
    destruct (edges page !! pred (length (edges page))) as [e|] eqn:Hlast.
    + change (Some (cursor e)
              = Some (default 0 (after_ input) + Z.of_nat (length (nodes page)))).
      f_equal. rewrite (Hcursor input eq_refl _ _ Hlast). lia.
    + apply lookup_ge_None in Hlast. lia.
  - intros e Hfirst. rewrite (Hcursor (withAfter _ input) eq_refl _ _ Hfirst).
    cbn [withAfter after_ default from_option id]. lia.
  - apply (ordered_StronglySorted
             (Query.orderBy [(countField input, -1); (FieldCreatedAt, -1)]
                            (commentQuery collection tenantID input))).
  - by apply retrieveCommentConnection_page.
  - rewrite retrieveCommentConnection_page by done.
    cbn [withAfter after_ first default from_option id]. do 2 f_equal. lia.
Qed.

Lemma ordinal_cursor_pagination_witness :
  endCursor (pageInfo (retrieveCommentConnection sampleThread "t1" (byReplies None)))
  = Some 2
  /\ nodes (retrieveCommentConnection sampleThread "t1" (byReplies (Some 2)))
     = take 2 (drop 2 (rankedComments sampleThread "t1" (byReplies None))).
Proof.
  destruct (ordinal_cursor_pagination sampleThread "t1" (byReplies None)
              (or_introl eq_refl)) as (_ & Hend & _ & _ & Hpages).
  split.
  - apply Hend. reflexivity.
  - destruct Hpages as [_ Hnext]; [reflexivity|reflexivity|]. exact Hnext.
Defined.

(** The scenario of the specification: five comments with the reply counts
    5, 5, 3, 1 and 0, paged by two.  The first page holds the two comments
    with five replies, the later one first, and ends at the cursor 2; the
    page after the cursor 2 starts with the comment with three replies, at
    the cursor 3. *)
Example replies_scenario :
  let page := retrieveCommentConnection sampleThread "t1" (byReplies None) in
  let next := retrieveCommentConnection sampleThread "t1" (byReplies (Some 2)) in
  Comment.id <$> nodes page = ["d"; "a"]
  /\ cursor <$> edges page = [1; 2]
  /\ endCursor (pageInfo page) = Some 2
  /\ hasNextPage (pageInfo page) = true
  /\ Comment.id <$> nodes next = ["c"; "e"]
  /\ cursor <$> edges next = [3; 4].
Proof. vm_compute. repeat split. Qed.

(** ** The archiver on a sample store *)

Lemma sampleCounterStores_keepsStories : @keepsStories sampleCounterStores.
Proof. intros db tenantID id counts storyTenantID storyID Hfound. exact Hfound. Qed.

Lemma archiveStory_already_archived_witness :
  @archiveStory sampleCounterStores (sampleContext true) ∅ "t1" "s1"
  = (sampleContext true, ∅, Ok None)
  /\ @archiveStory sampleCounterStores
       (@archiveStory sampleCounterStores (sampleContext true) ∅ "t1" "s1").1.1
       (@archiveStory sampleCounterStores (sampleContext true) ∅ "t1" "s1").1.2
       "t1" "s1"
     = (sampleContext true, ∅, Ok None).
Proof.
  exact (@archiveStory_already_archived sampleCounterStores (sampleContext true) ∅
           "t1" "s1" emptyDb (sampleStory true) eq_refl eq_refl eq_refl).
Defined.

(** C7 as stated fails without an archive connection: the story [s1] is
    archived, and archiving it throws instead of returning. *)
Lemma archiveStory_already_archived_no_connection :
  findOne (storyByTenantAndID "t1" "s1") (Db.stories (sampleLive true))
  = Some (sampleStory true)
  /\ Story.isArchived (sampleStory true) = true
  /\ (@archiveStory sampleCounterStores
        {| live := sampleLive true; archive := None |} ∅ "t1" "s1").2
     = Throw (Error "Cannot archive, archive connection is not initialized").
Proof. repeat split. Qed.

Lemma archive_unarchive_return_value_witness :
  (@unarchiveStory sampleCounterStores (sampleContext false) ∅ "t1" "s1").2 = Ok None
  /\ exists s,
       (@archiveStory sampleCounterStores (sampleContext false) ∅ "t1" "s1").2
       = Ok (Some s)
       /\ isPostImage
            (@archiveStory sampleCounterStores (sampleContext false) ∅ "t1" "s1").1.1
            "t1" "s1" true s.
Proof.
  exact (@archive_unarchive_return_value sampleCounterStores (sampleContext false) ∅
           "t1" "s1" emptyDb (sampleStory false)
           sampleCounterStores_keepsStories eq_refl eq_refl).
Defined.

(** Archiving the sample story moves its comment to the archive database,
    marks the story and returns it. *)
Example archiveStory_sample :
  let '(mongo, _, value) :=
    @archiveStory sampleCounterStores (sampleContext false) ∅ "t1" "s1" in
  Db.comments (live mongo) = []
  /\ Db.archivedComments <$> archive mongo = Some [sampleComment]
  /\ Db.stories (live mongo) = [sampleStory true]
  /\ value = Ok (Some (sampleStory true)).
Proof. vm_compute. repeat split. Qed.

(** * Further properties of the comment model *)

(** ** Updating one document *)

Lemma findOneAndUpdate_at {A : Type} (filter : A -> bool) (update : A -> A)
    (coll : list A) (d : A) :
  findOne filter coll = Some d ->
  exists i, coll !! i = Some d
            /\ (forall j x, (j < i)%nat -> coll !! j = Some x -> filter x = false)
            /\ findOneAndUpdate filter update coll = (Some d, <[i := update d]> coll).
Proof.
  induction coll as [|x rest IH]; simpl; [done|].
  destruct (filter x) eqn:Hx.
  - intros [= ->]. exists 0%nat. split; [done|]. split; [|done].
    intros j y Hj. lia.
  - intros Hfound. destruct (IH Hfound) as (i & Hi & Hfirst & ->).
    exists (S i). split; [done|]. split; [|done].
    intros [|j] y Hj Hy; simpl in Hy; [by injection Hy as <-|].
    apply (Hfirst j); [lia|done].
Qed.

Lemma findOneAndUpdate_Forall {A : Type} (P : A -> Prop) (filter : A -> bool)
    (update : A -> A) (coll : list A) :
  (forall x, P x -> P (update x)) -> Forall P coll ->
  Forall P (findOneAndUpdate filter update coll).2.
Proof.
  intros Hupdate. induction 1 as [|x rest Hx Hrest IH]; simpl; [done|].
  destruct (filter x); simpl; [by constructor; auto|].
  destruct (findOneAndUpdate filter update rest). by constructor.
Qed.

Lemma findOne_app {A : Type} (filter : A -> bool) (l1 l2 : list A) :
  findOne filter (l1 ++ l2)
  = match findOne filter l1 with
    | Some d => Some d
    | None => findOne filter l2
    end.
Proof.
  induction l1 as [|x l1 IH]; simpl; [done|]. by destruct (filter x).
Qed.

(** Replacing the first document that passes a filter by one that passes
    it too makes that one the first to pass. *)
Lemma findOne_insert_first {A : Type} (filter : A -> bool) (l : list A) i x x' :
  l !! i = Some x ->
  (forall j y, (j < i)%nat -> l !! j = Some y -> filter y = false) ->
  filter x' = true ->
  findOne filter (<[i := x']> l) = Some x'.
Proof.
  revert i. induction l as [|y l IH]; intros [|i] Hi Hfirst Hx'; simpl in *; try done.
  - by rewrite Hx'.
  - rewrite (Hfirst 0%nat y) by (done || lia).
    apply IH; [done| |done]. intros j z Hj Hz. apply (Hfirst (S j)); [lia|done].
Qed.

(** Replacing a document leaves the searches that neither the old nor the
    new document passes as they were. *)
Lemma findOne_insert_other {A : Type} (filter : A -> bool) (l : list A) i x x' :
  l !! i = Some x -> filter x = false -> filter x' = false ->
  findOne filter (<[i := x']> l) = findOne filter l.
Proof.
  revert i. induction l as [|y l IH]; intros [|i] Hi Hx Hx'; simpl in *; try done.
  - injection Hi as ->. by rewrite Hx, Hx'.
  - destruct (filter y); [done|]. by apply IH.
Qed.

(** ** Creating a comment *)

(** X1.  After [createComment], looking a comment up by tenant and
    identifier finds what it found before; where it found nothing, it finds
    the new comment under the new comment's tenant and identifier, and still
    nothing elsewhere. *)
Theorem createComment_retrieve mongo tenantID input now commentID revisionID
    lookupTenantID lookupID :
  retrieveComment (createComment mongo tenantID input now commentID revisionID).1
                  lookupTenantID lookupID
  = match retrieveComment mongo lookupTenantID lookupID with
    | Some c => Some c
    | None =>
        if decide (lookupID = commentID /\ lookupTenantID = tenantID)
        then Some (createComment mongo tenantID input now commentID revisionID).2.1
        else None
    end.
Proof.
  unfold retrieveComment, createComment. simpl. rewrite findOne_app.
  destruct (findOne _ (Db.comments mongo)); [done|].
  simpl. unfold byTenantAndID. simpl.
  destruct (decide (lookupID = commentID /\ lookupTenantID = tenantID)) as [[-> ->]|Hne].
  - by rewrite !bool_decide_eq_true_2.
  - destruct (decide (commentID = lookupID)) as [->|?];
      destruct (decide (tenantID = lookupTenantID)) as [->|?];
      rewrite ?(bool_decide_eq_false_2 (commentID = lookupID)) by done;
      rewrite ?(bool_decide_eq_false_2 (tenantID = lookupTenantID)) by done;
      rewrite ?andb_false_r; try done.
    by destruct Hne.
Qed.

(** ** What every mutator keeps *)

Lemma comments_withComments l mongo : Db.comments (Db.withComments l mongo) = l.
Proof. done. Qed.

(** The comments that [editComment] leaves in the store when no other
    writer interferes, whether it succeeds or fails. *)
Lemma editComment_comments mongo tenantID input now revisionID :
  Db.comments (editComment (fun db => db) mongo tenantID input now revisionID).1
  = (findOneAndUpdate
       (editFilter tenantID input)
       (editUpdate (input_status input) (default ∅ (input_actionCounts input))
          (Revision.mk revisionID (input_body input)
             (default ∅ (input_actionCounts input)) (input_metadata input) now
             (input_media input)))
       (Db.comments mongo)).2.
Proof.
  unfold editComment. destruct (findOneAndUpdate _ _ _) as [[original|] comments'];
    [done|]. simpl.
  destruct (retrieveComment _ _ _) as [comment|]; [|done].
  by destruct (validateEditable _ _ _).
Qed.

Lemma updateCommentActionCounts_comments mongo tenantID id revisionID actionCounts :
  Db.comments (updateCommentActionCounts mongo tenantID id revisionID actionCounts).1
  = (findOneAndUpdate (byTenantAndID tenantID id)
       (incActionCountsUpdate revisionID actionCounts) (Db.comments mongo)).2.
Proof.
  unfold updateCommentActionCounts.
  by destruct (findOneAndUpdate _ _ _) as [[original|] comments'].
Qed.

Lemma updateCommentStatus_comments mongo tenantID id revisionID status :
  Db.comments (updateCommentStatus mongo tenantID id revisionID status).1
  = (findOneAndUpdate (byRevision tenantID id revisionID) (Comment.setStatus status)
       (Db.comments mongo)).2.
Proof.
  unfold updateCommentStatus. by destruct (findOneAndUpdate _ _ _).
Qed.

Lemma pushChildCommentIDOntoParent_comments mongo tenantID parentID childID :
  Db.comments (pushChildCommentIDOntoParent mongo tenantID parentID childID).1
  = (findOneAndUpdate (byTenantAndID tenantID parentID)
       (fun c => Comment.setChildren (Comment.childIDs c ++ [childID])
                                     (Comment.childCount c + 1) c)
       (Db.comments mongo)).2.
Proof.
  unfold pushChildCommentIDOntoParent. by destruct (findOneAndUpdate _ _ _).
Qed.

Lemma editUpdate_wellFormed status actionCounts rev c :
  wellFormed c -> wellFormed (editUpdate status actionCounts rev c).
Proof.
  intros [Hcount Hrevisions]. unfold editUpdate.
  destruct (bool_decide (actionCounts = ∅)); (split; [done|]); simpl;
    by destruct (Comment.revisions c).
Qed.

(** X2.  Every operation that writes comments keeps the two redundancies of
    the documents: in a store where every comment has [childCount] equal to
    the length of [childIDs] and at least one revision, that is still so
    after [createComment], [pushChildCommentIDOntoParent], [editComment],
    [updateCommentStatus], [updateCommentActionCounts],
    [removeStoryComments] and [mergeManyCommentStories], whatever their
    arguments and whether they succeed or fail ([editComment] with no
    other writer between its update and its re-fetch). *)
Theorem mutators_keep_wellFormed mongo :
  Forall wellFormed (Db.comments mongo) ->
  (forall tenantID input now commentID revisionID,
     Forall wellFormed
       (Db.comments (createComment mongo tenantID input now commentID revisionID).1))
  /\ (forall tenantID parentID childID,
        Forall wellFormed
          (Db.comments (pushChildCommentIDOntoParent mongo tenantID parentID childID).1))
  /\ (forall tenantID input now revisionID,
        Forall wellFormed
          (Db.comments
             (editComment (fun db => db) mongo tenantID input now revisionID).1))
  /\ (forall tenantID id revisionID status,
        Forall wellFormed
          (Db.comments (updateCommentStatus mongo tenantID id revisionID status).1))
  /\ (forall tenantID id revisionID actionCounts,
        Forall wellFormed
          (Db.comments
             (updateCommentActionCounts mongo tenantID id revisionID actionCounts).1))
  /\ (forall tenantID storyID,
        Forall wellFormed (Db.comments (removeStoryComments mongo tenantID storyID).1))
  /\ (forall tenantID newStoryID oldStoryIDs,
        Forall wellFormed
          (Db.comments
             (mergeManyCommentStories mongo tenantID newStoryID oldStoryIDs).1)).
Proof.
  intros Hstore. repeat split.
  - intros. unfold createComment. simpl. apply Forall_app. split; [done|].
    by repeat constructor.
  - intros. rewrite pushChildCommentIDOntoParent_comments.
    apply findOneAndUpdate_Forall; [|done].
    intros c [Hcount Hrevisions]. split; [|done]. simpl.
    rewrite length_app. simpl. lia.
  - intros. rewrite editComment_comments.
    apply findOneAndUpdate_Forall; [|done]. apply editUpdate_wellFormed.
  - intros. rewrite updateCommentStatus_comments.
    by apply findOneAndUpdate_Forall.
  - intros. rewrite updateCommentActionCounts_comments.
    apply findOneAndUpdate_Forall; [|done].
    intros c [Hcount Hrevisions]. split; [done|]. simpl.
    by destruct (Comment.revisions c).
  - intros. unfold removeStoryComments. simpl.
    rewrite Forall_forall in Hstore |- *. intros c Hin.
    apply Hstore. apply list_elem_of_In in Hin. apply List.filter_In in Hin as [Hin _].
    by apply list_elem_of_In.
  - intros. unfold mergeManyCommentStories. simpl.
    apply Forall_fmap. eapply Forall_impl; [done|].
    intros c Hc. simpl. by destruct (_ && _).
Qed.

Lemma mutators_keep_wellFormed_witness :
  Forall wellFormed
    (Db.comments
       (pushChildCommentIDOntoParent (commentsOnly [sampleComment]) "t1" "c1" "c2").1).
Proof.
  destruct (mutators_keep_wellFormed (commentsOnly [sampleComment])) as (_ & Hpush & _).
  - repeat constructor. discriminate.
  - apply Hpush.
Defined.

(** ** Linking a reply to a parent that exists *)

(** X3.  When the tenant has a comment with the identifier [parentID],
    [pushChildCommentIDOntoParent] returns that comment as it was before
    the update; looking the parent up afterwards finds it with the child
    appended to [childIDs] and [childCount] one greater, and every other
    lookup by tenant and identifier finds what it found before. *)
Theorem pushChildCommentIDOntoParent_found mongo tenantID parentID childID parent :
  retrieveComment mongo tenantID parentID = Some parent ->
  let after := pushChildCommentIDOntoParent mongo tenantID parentID childID in
  after.2 = Some parent
  /\ retrieveComment after.1 tenantID parentID
     = Some (Comment.setChildren (Comment.childIDs parent ++ [childID])
                                 (Comment.childCount parent + 1) parent)
  /\ length (Db.comments after.1) = length (Db.comments mongo)
  /\ forall otherTenantID otherID,
       ~ (otherID = parentID /\ otherTenantID = tenantID) ->
       retrieveComment after.1 otherTenantID otherID
       = retrieveComment mongo otherTenantID otherID.
Proof.
  intros Hfound. cbv zeta. unfold pushChildCommentIDOntoParent, retrieveComment in *.
  set (update := fun c => Comment.setChildren _ _ c).
  destruct (findOneAndUpdate_at _ update _ _ Hfound) as (i & Hi & Hfirst & ->).
  apply findOne_Some in Hfound as [_ Hkey]. simpl.
  repeat split.
  - by apply (findOne_insert_first _ _ i parent).
  - by rewrite length_insert.
  - intros otherTenantID otherID Hother.
    apply (findOne_insert_other _ _ i parent); [done|..];
      apply not_true_is_false; rewrite byTenantAndID_true;
      apply byTenantAndID_true in Hkey as [<- <-]; simpl; intros [<- <-]; by apply Hother.
Qed.

Lemma pushChildCommentIDOntoParent_found_witness :
  (pushChildCommentIDOntoParent (commentsOnly [sampleComment]) "t1" "c1" "c2").2
  = Some sampleComment
  /\ retrieveComment
       (pushChildCommentIDOntoParent (commentsOnly [sampleComment]) "t1" "c1" "c2").1
       "t1" "c1"
     = Some (Comment.setChildren ["c2"] 1 sampleComment).
Proof.
  destruct (pushChildCommentIDOntoParent_found (commentsOnly [sampleComment])
              "t1" "c1" "c2" sampleComment eq_refl) as (Hvalue & Hparent & _).
  split; [exact Hvalue|exact Hparent].
Defined.

(** ** Editing a comment: the successful edit and the history *)

Lemma countOf_incCounts target delta key :
  countOf (incCounts target delta) key = countOf target key + countOf delta key.
Proof.
  unfold countOf, incCounts. rewrite lookup_union_with.
  destruct (target !! key), (delta !! key); simpl; lia.
Qed.

Lemma countOf_empty key : countOf ∅ key = 0.
Proof. unfold countOf. by rewrite lookup_empty. Qed.

Lemma extends_refl c : extends c c.
Proof. by repeat split. Qed.

Lemma editUpdate_extends status actionCounts rev c :
  extends c (editUpdate status actionCounts rev c).
Proof.
  unfold editUpdate. destruct (bool_decide (actionCounts = ∅));
    repeat split; simpl; by apply prefix_app_r.
Qed.

(** X4.  When a stored comment passes the filter of the conditional update,
    [editComment] succeeds whatever other writers do: that comment, and no
    other document, is replaced; its revisions are the old ones followed by
    the new revision, which carries the body, metadata and media given and
    the date [now]; its status is the status given; each of its action
    counters has grown by the counter given for it; its identity, author
    and dates are kept.  The call returns the comment as it was and a copy
    with the same revisions and status as the stored one. *)
Theorem editComment_success concurrent mongo tenantID input now revisionID original :
  findOne (editFilter tenantID input) (Db.comments mongo) = Some original ->
  exists i stored r,
    Db.comments mongo !! i = Some original
    /\ editComment concurrent mongo tenantID input now revisionID
       = (Db.withComments (<[i := stored]> (Db.comments mongo)) mongo, Ok r)
    /\ before r = original
    /\ revision r
       = Revision.mk revisionID (input_body input)
                     (default ∅ (input_actionCounts input)) (input_metadata input)
                     now (input_media input)
    /\ Comment.revisions stored = Comment.revisions original ++ [revision r]
    /\ Comment.revisions (after r) = Comment.revisions original ++ [revision r]
    /\ Comment.status stored = input_status input
    /\ Comment.status (after r) = input_status input
    /\ (forall key,
          countOf (Comment.actionCounts stored) key
          = countOf (Comment.actionCounts original) key
            + countOf (default ∅ (input_actionCounts input)) key)
    /\ extends original stored.
Proof.
  intros Hfound. unfold editComment.
  set (actionCounts := default ∅ (input_actionCounts input)).
  set (rev := Revision.mk _ _ _ _ _ _).
  destruct (findOneAndUpdate_at _
              (editUpdate (input_status input) actionCounts rev) _ _ Hfound)
    as (i & Hi & _ & ->).
  exists i, (editUpdate (input_status input) actionCounts rev original).
  eexists. split; [done|]. split; [done|]. simpl.
  split; [done|]. split; [done|].
  split; [unfold editUpdate; by destruct (bool_decide _)|].
  split; [done|].
  split; [unfold editUpdate; by destruct (bool_decide _)|].
  split; [done|].
  split; [|apply editUpdate_extends].
  intros key. unfold editUpdate.
  destruct (bool_decide (actionCounts = ∅)) eqn:Hempty; simpl.
  - apply bool_decide_eq_true in Hempty. rewrite Hempty, countOf_empty. lia.
  - apply countOf_incCounts.
Qed.

Lemma editComment_success_witness :
  exists r,
    (editComment (fun db => db) (commentsOnly [sampleComment]) "t1"
                 (sampleEdit "alice" 50) 300 "r2").2 = Ok r
    /\ before r = sampleComment.
Proof.
  destruct (editComment_success (fun db => db) (commentsOnly [sampleComment]) "t1"
              (sampleEdit "alice" 50) 300 "r2" sampleComment eq_refl)
    as (i & stored & r & _ & Hedit & Hbefore & _).
  exists r. by rewrite Hedit.
Defined.

Lemma findOneAndUpdate_Forall2 {A : Type} (R : A -> A -> Prop) (filter : A -> bool)
    (update : A -> A) (coll : list A) :
  (forall x, R x x) -> (forall x, R x (update x)) ->
  Forall2 R coll (findOneAndUpdate filter update coll).2.
Proof.
  intros Hrefl Hupdate. induction coll as [|x rest IH]; simpl; [constructor|].
  destruct (filter x); simpl.
  - constructor; [done|]. by apply Forall_Forall2_diag, Forall_true.
  - destruct (findOneAndUpdate filter update rest). by constructor.
Qed.

(** X5.  Neither [editComment] (successful or not), nor
    [updateCommentStatus], nor [pushChildCommentIDOntoParent] rewrites the
    history of a comment: the collection keeps its length and, position by
    position, every stored comment keeps its identifier, tenant, author,
    creation date and deletion mark, and its revisions remain the first
    revisions of the comment that takes its place. *)
Theorem mutators_keep_history mongo :
  (forall tenantID input now revisionID,
     Forall2 extends (Db.comments mongo)
       (Db.comments (editComment (fun db => db) mongo tenantID input now revisionID).1))
  /\ (forall tenantID id revisionID status,
        Forall2 extends (Db.comments mongo)
          (Db.comments (updateCommentStatus mongo tenantID id revisionID status).1))
  /\ (forall tenantID parentID childID,
        Forall2 extends (Db.comments mongo)
          (Db.comments (pushChildCommentIDOntoParent mongo tenantID parentID childID).1)).
Proof.
  repeat split; intros.
  - rewrite editComment_comments.
    apply findOneAndUpdate_Forall2; [apply extends_refl|]. apply editUpdate_extends.
  - rewrite updateCommentStatus_comments.
    apply findOneAndUpdate_Forall2; [apply extends_refl|]. intros c. by repeat split.
  - rewrite pushChildCommentIDOntoParent_comments.
    apply findOneAndUpdate_Forall2; [apply extends_refl|]. intros c. by repeat split.
Qed.



(** X7.  A comment whose status is not editable is never edited, whatever
    its dates.  When every stored comment with the tenant and identifier of
    the edit has a status outside NONE, PREMOD and APPROVED, the call fails
    and writes nothing; if the comment that the re-fetch finds has the
    author of the edit and such a status, the error is the one for a status
    that is not editable. *)
Theorem editComment_status_not_editable
    concurrent mongo tenantID input now revisionID comment :
  (forall c, c ∈ Db.comments mongo ->
             Comment.id c = input_id input -> Comment.tenantID c = tenantID ->
             Comment.status c ∉ [NONE; PREMOD; APPROVED]) ->
  retrieveComment (concurrent mongo) tenantID (input_id input) = Some comment ->
  Comment.authorID comment = input_authorID input ->
  Comment.status comment ∉ [NONE; PREMOD; APPROVED] ->
  editComment concurrent mongo tenantID input now revisionID
  = (concurrent mongo, Throw (Error "comment status is not editable")).
Proof.
  intros Hstored Hfetch Hauthor Hstatus.
  assert (findOne (editFilter tenantID input) (Db.comments mongo) = None) as Hmiss.
  { apply findOne_None_intro. intros c Hin.
    destruct (editFilter tenantID input c) eqn:Hmatch; [|done].
    pose proof (editFilter_byTenantAndID _ _ _ Hmatch) as Hkey.
    apply byTenantAndID_true in Hkey as [Hid Htenant].
    unfold editFilter, includes, EDITABLE_STATUSES in Hmatch.
    rewrite !andb_true_iff in Hmatch.
    destruct Hmatch as [[[_ Heditable] _] _]. apply bool_decide_eq_true in Heditable.
    by destruct (Hstored c Hin Hid Htenant). }
  rewrite (editComment_miss _ _ _ _ _ _ Hmiss), Hfetch. unfold editFailure.
  repeat case_decide; done.
Qed.

Lemma editComment_status_not_editable_witness :
  editComment (fun db => db)
              (commentsOnly [Comment.setStatus REJECTED sampleComment])
              "t1" (sampleEdit "alice" 50) 300 "r2"
  = (commentsOnly [Comment.setStatus REJECTED sampleComment],
     Throw (Error "comment status is not editable")).
Proof.
  refine (editComment_status_not_editable (fun db => db)
            (commentsOnly [Comment.setStatus REJECTED sampleComment]) "t1"
            (sampleEdit "alice" 50) 300 "r2"
            (Comment.setStatus REJECTED sampleComment) _ eq_refl eq_refl _).
  - intros c Hin _ _. apply list_elem_of_singleton in Hin as ->. simpl.
    rewrite !elem_of_cons, elem_of_nil. intros [?|[?|[?|[]]]]; discriminate.
  - simpl. rewrite !elem_of_cons, elem_of_nil. intros [?|[?|[?|[]]]]; discriminate.
Defined.

(** ** Changing the status of a comment *)

Lemma byRevision_true tenantID id revisionID c :
  byRevision tenantID id revisionID c = true <->
  Comment.id c = id /\ Comment.tenantID c = tenantID
  /\ revisionID ∈ map Revision.id (Comment.revisions c).
Proof.
  unfold byRevision. rewrite !andb_true_iff, !bool_decide_eq_true. tauto.
Qed.

(** X8.  When no comment with the tenant and identifier given has a
    revision with the identifier [revisionID] (and so also when there is no
    such comment), [updateCommentStatus] returns [null] and leaves the
    database as it was. *)
Theorem updateCommentStatus_stale mongo tenantID id revisionID status :
  (forall c, c ∈ Db.comments mongo ->
             Comment.id c = id -> Comment.tenantID c = tenantID ->
             revisionID ∉ map Revision.id (Comment.revisions c)) ->
  updateCommentStatus mongo tenantID id revisionID status = (mongo, None).
Proof.
  intros Hstale. unfold updateCommentStatus.
  rewrite findOneAndUpdate_miss, withComments_same; [done|].
  apply findOne_None_intro. intros c Hin. apply not_true_is_false.
  rewrite byRevision_true. intros (Hid & Htenant & Hrevision).
  by apply (Hstale c).
Qed.

Lemma updateCommentStatus_stale_witness :
  updateCommentStatus (commentsOnly [sampleComment]) "t1" "c1" "r9" APPROVED
  = (commentsOnly [sampleComment], None).
Proof.
  apply (updateCommentStatus_stale (commentsOnly [sampleComment]) "t1" "c1" "r9").
  intros c Hin _ _. apply list_elem_of_singleton in Hin as ->. simpl.
  rewrite list_elem_of_singleton. discriminate.
Defined.

(** X9.  When a comment with the tenant and identifier given has the
    revision, [updateCommentStatus] returns the comment as it was and the
    comment as the store now holds it: the same document with the new
    status and nothing else changed.  No other document of the collection
    is touched. *)
Theorem updateCommentStatus_found mongo tenantID id revisionID status original :
  findOne (byRevision tenantID id revisionID) (Db.comments mongo) = Some original ->
  exists i r,
    Db.comments mongo !! i = Some original
    /\ (updateCommentStatus mongo tenantID id revisionID status).2 = Some r
    /\ status_before r = original
    /\ status_after r = Comment.setStatus status original
    /\ Db.comments (updateCommentStatus mongo tenantID id revisionID status).1 !! i
       = Some (status_after r)
    /\ forall j, j ≠ i ->
         Db.comments (updateCommentStatus mongo tenantID id revisionID status).1 !! j
         = Db.comments mongo !! j.
Proof.
  intros Hfound. unfold updateCommentStatus.
  destruct (findOneAndUpdate_at _ (Comment.setStatus status) _ _ Hfound)
    as (i & Hi & _ & ->).
  exists i. eexists. split; [done|]. split; [done|]. simpl.
  split; [done|]. split; [done|]. split.
  - apply list_lookup_insert_eq. by apply lookup_lt_Some in Hi.
  - intros j Hj. by apply list_lookup_insert_ne.
Qed.

Lemma updateCommentStatus_found_witness :
  exists r,
    (updateCommentStatus (commentsOnly [sampleComment]) "t1" "c1" "r1" APPROVED).2
    = Some r
    /\ status_after r = Comment.setStatus APPROVED sampleComment.
Proof.
  destruct (updateCommentStatus_found (commentsOnly [sampleComment]) "t1" "c1" "r1"
              APPROVED sampleComment eq_refl) as (i & r & _ & Hvalue & _ & Hafter & _).
  by exists r.
Defined.

Lemma findOneAndUpdate_twice {A : Type} (filter : A -> bool) (u1 u2 : A -> A)
    (coll : list A) :
  (forall x, filter (u1 x) = filter x) ->
  (findOneAndUpdate filter u2 (findOneAndUpdate filter u1 coll).2).2
  = (findOneAndUpdate filter (fun x => u2 (u1 x)) coll).2.
Proof.
  intros Hkeep. induction coll as [|x rest IH]; simpl; [done|].
  destruct (filter x) eqn:Hx; simpl.
  - by rewrite Hkeep, Hx.
  - destruct (findOneAndUpdate filter u1 rest) as [found1 rest1]. simpl in *.
    rewrite Hx.
    destruct (findOneAndUpdate filter u2 rest1) as [found2 rest2].
    destruct (findOneAndUpdate filter _ rest) as [found rest']. simpl in *.
    by rewrite IH.
Qed.

Lemma findOneAndUpdate_ext {A : Type} (filter : A -> bool) (u1 u2 : A -> A)
    (coll : list A) :
  (forall x, u1 x = u2 x) ->
  findOneAndUpdate filter u1 coll = findOneAndUpdate filter u2 coll.
Proof.
  intros Hsame. induction coll as [|x rest IH]; simpl; [done|].
  by rewrite Hsame, IH.
Qed.

Lemma withComments_twice l l' mongo :
  Db.withComments l (Db.withComments l' mongo) = Db.withComments l mongo.
Proof. done. Qed.

Lemma updateCommentStatus_store mongo tenantID id revisionID status :
  (updateCommentStatus mongo tenantID id revisionID status).1
  = Db.withComments
      (findOneAndUpdate (byRevision tenantID id revisionID)
         (Comment.setStatus status) (Db.comments mongo)).2
      mongo.
Proof. unfold updateCommentStatus. by destruct (findOneAndUpdate _ _ _). Qed.

(** X10.  The last status written wins: changing the status of a comment
    and changing it again, under the same revision, leaves the store as the
    second change alone would. *)
Theorem updateCommentStatus_last_wins mongo tenantID id revisionID status1 status2 :
  (updateCommentStatus
     (updateCommentStatus mongo tenantID id revisionID status1).1
     tenantID id revisionID status2).1
  = (updateCommentStatus mongo tenantID id revisionID status2).1.
Proof.
  rewrite !updateCommentStatus_store, withComments_twice, comments_withComments.
  rewrite findOneAndUpdate_twice by done.
  by rewrite (findOneAndUpdate_ext _ _ (Comment.setStatus status2)).
Qed.

(** ** Counting actions: what is incremented, and in what order *)

Lemma incCounts_comm_r target delta1 delta2 :
  incCounts (incCounts target delta1) delta2
  = incCounts (incCounts target delta2) delta1.
Proof.
  apply map_eq. intros key. unfold incCounts. rewrite !lookup_union_with.
  destruct (target !! key), (delta1 !! key), (delta2 !! key); simpl; f_equal; lia.
Qed.

(** X11.  When the tenant has a comment with the identifier given,
    [updateCommentActionCounts] returns the comment as the store now holds
    it.  Each action counter of the comment has grown by the counter given
    for it (a counter that was missing counts as zero); in each revision
    whose identifier is [revisionID] the counters have grown likewise, and
    the other revisions have theirs unchanged; every revision keeps its
    identifier, body and date.  Lookups of other comments find what they
    found before. *)
Theorem updateCommentActionCounts_counted mongo tenantID id revisionID delta c :
  retrieveComment mongo tenantID id = Some c ->
  let after := updateCommentActionCounts mongo tenantID id revisionID delta in
  exists c',
    after.2 = Ok c'
    /\ retrieveComment after.1 tenantID id = Some c'
    /\ (forall key,
          countOf (Comment.actionCounts c') key
          = countOf (Comment.actionCounts c) key + countOf delta key)
    /\ Forall2
         (fun r r' =>
            Revision.id r' = Revision.id r
            /\ Revision.body r' = Revision.body r
            /\ Revision.createdAt r' = Revision.createdAt r
            /\ forall key,
                 countOf (Revision.actionCounts r') key
                 = countOf (Revision.actionCounts r) key
                   + (if decide (Revision.id r = revisionID)
                      then countOf delta key else 0))
         (Comment.revisions c) (Comment.revisions c')
    /\ forall otherTenantID otherID,
         ~ (otherID = id /\ otherTenantID = tenantID) ->
         retrieveComment after.1 otherTenantID otherID
         = retrieveComment mongo otherTenantID otherID.
Proof.
  intros Hfound. cbv zeta. unfold updateCommentActionCounts, retrieveComment in *.
  destruct (findOneAndUpdate_at _ (incActionCountsUpdate revisionID delta) _ _ Hfound)
    as (i & Hi & Hfirst & ->).
  apply findOne_Some in Hfound as [_ Hkey]. simpl.
  exists (incActionCountsUpdate revisionID delta c).
  split; [done|]. split; [by apply (findOne_insert_first _ _ i c)|].
  split; [intros key; apply countOf_incCounts|]. split.
  - simpl. apply Forall2_fmap_r, Forall_Forall2_diag, Forall_forall.
    intros r _. unfold compose.
    destruct (decide (Revision.id r = revisionID)) as [Hid|Hid].
    + rewrite bool_decide_eq_true_2 by done. simpl.
      repeat split. intros key. apply countOf_incCounts.
    + rewrite bool_decide_eq_false_2 by done.
      repeat split. intros key. lia.
  - intros otherTenantID otherID Hother.
    apply (findOne_insert_other _ _ i c); [done|..];
      apply not_true_is_false; rewrite byTenantAndID_true;
      apply byTenantAndID_true in Hkey as [<- <-]; simpl;
      intros [<- <-]; by apply Hother.
Qed.

Lemma updateCommentActionCounts_counted_witness :
  exists c',
    (updateCommentActionCounts (commentsOnly [sampleComment]) "t1" "c1" "r1"
                               {[ "REACTION" := 2 ]}).2 = Ok c'
    /\ countOf (Comment.actionCounts c') "REACTION" = 2.
Proof.
  destruct (updateCommentActionCounts_counted (commentsOnly [sampleComment]) "t1" "c1"
              "r1" {[ "REACTION" := 2 ]} sampleComment eq_refl)
    as (c' & Hvalue & _ & Hcounts & _).
  exists c'. split; [exact Hvalue|]. rewrite Hcounts. reflexivity.
Defined.

Lemma incActionCountsUpdate_comm revision1 delta1 revision2 delta2 c :
  incActionCountsUpdate revision2 delta2 (incActionCountsUpdate revision1 delta1 c)
  = incActionCountsUpdate revision1 delta1 (incActionCountsUpdate revision2 delta2 c).
Proof.
  unfold incActionCountsUpdate, Comment.setRevisions, Comment.setActionCounts.
  destruct c as [? ? ? ? ? ? ? ? ? revisions ? counts0]. simpl. f_equal.
  - rewrite <- !list_fmap_compose. apply list_fmap_ext. intros _ r _. simpl.
    destruct r as [rid rbody rcounts rmetadata rcreatedAt rmedia].
    unfold Revision.incActionCounts.
    repeat (case_bool_decide; simpl in * ); try done.
    by rewrite incCounts_comm_r.
  - apply incCounts_comm_r.
Qed.

Lemma updateCommentActionCounts_store mongo tenantID id revisionID delta :
  (updateCommentActionCounts mongo tenantID id revisionID delta).1
  = Db.withComments
      (findOneAndUpdate (byTenantAndID tenantID id)
         (incActionCountsUpdate revisionID delta) (Db.comments mongo)).2
      mongo.
Proof.
  unfold updateCommentActionCounts.
  by destruct (findOneAndUpdate _ _ _) as [[original|] comments'].
Qed.

(** X12.  Two increments of the action counts of the same comment commute:
    whatever the two revisions and the two sets of counters, the store
    after both calls is the same in either order. *)
Theorem updateCommentActionCounts_commute
    mongo tenantID id revision1 delta1 revision2 delta2 :
  (updateCommentActionCounts
     (updateCommentActionCounts mongo tenantID id revision1 delta1).1
     tenantID id revision2 delta2).1
  = (updateCommentActionCounts
       (updateCommentActionCounts mongo tenantID id revision2 delta2).1
       tenantID id revision1 delta1).1.
Proof.
  rewrite !updateCommentActionCounts_store, !withComments_twice.
  rewrite !comments_withComments, !findOneAndUpdate_twice by done.
  by rewrite (findOneAndUpdate_ext _ _ _ _ (incActionCountsUpdate_comm _ _ _ _)).
Qed.

(** ** Removing and merging the comments of stories *)

Lemma setStoryID_same c : setStoryID (Comment.storyID c) c = c.
Proof. by destruct c. Qed.

Lemma filter_sublist {A : Type} (f : A -> bool) (l : list A) :
  List.filter f l `sublist_of` l.
Proof.
  induction l as [|x l IH]; simpl; [done|].
  destruct (f x); [by apply sublist_skip|by apply sublist_cons].
Qed.

Lemma filter_length_split {A : Type} (f : A -> bool) (l : list A) :
  (length (List.filter (fun x => negb (f x)) l) + length (List.filter f l)
   = length l)%nat.
Proof. induction l as [|x l IH]; simpl; [done|]. destruct (f x); simpl; lia. Qed.

Lemma filter_idemp {A : Type} (f : A -> bool) (l : list A) :
  List.filter f (List.filter f l) = List.filter f l.
Proof.
  induction l as [|x l IH]; simpl; [done|].
  destruct (f x) eqn:Hx; simpl; [|done]. by rewrite Hx, IH.
Qed.

Lemma filter_negb_none {A : Type} (f : A -> bool) (l : list A) :
  List.filter f (List.filter (fun x => negb (f x)) l) = [].
Proof.
  induction l as [|x l IH]; simpl; [done|].
  destruct (f x) eqn:Hx; simpl; [done|]. by rewrite Hx.
Qed.

(** X13.  [removeStoryComments] removes the comments of the story in the
    tenant and no other: a comment is in the collection afterwards exactly
    when it was there before and is not of that tenant and story; the
    comments kept are in the order they had; the number returned is the
    number of documents that went; and removing again removes nothing. *)
Theorem removeStoryComments_removed mongo tenantID storyID :
  let after := removeStoryComments mongo tenantID storyID in
  (forall c, c ∈ Db.comments after.1 <->
             c ∈ Db.comments mongo
             /\ ~ (Comment.tenantID c = tenantID /\ Comment.storyID c = storyID))
  /\ Db.comments after.1 `sublist_of` Db.comments mongo
  /\ (length (Db.comments after.1) + after.2 = length (Db.comments mongo))%nat
  /\ removeStoryComments after.1 tenantID storyID = (after.1, 0%nat).
Proof.
  cbv zeta. unfold removeStoryComments. cbn [fst snd].
  rewrite !comments_withComments, withComments_twice.
  split; [|split; [|split]].
  - intros c. rewrite !list_elem_of_In, List.filter_In, negb_true_iff.
    by rewrite andb_false_iff, !bool_decide_eq_false, <- not_and_l.
  - apply filter_sublist.
  - apply (filter_length_split
             (fun c => bool_decide (Comment.tenantID c = tenantID)
                       && bool_decide (Comment.storyID c = storyID))).
  - f_equal; [by rewrite filter_idemp|].
    by rewrite (filter_negb_none
                  (fun c => bool_decide (Comment.tenantID c = tenantID)
                            && bool_decide (Comment.storyID c = storyID))).
Qed.

(** X14.  [mergeManyCommentStories] moves the comments of the tenant that
    are on one of the old stories to the new story and changes nothing
    else: position by position, a comment keeps every field but [storyID],
    and keeps that too unless it is of the tenant and on an old story.
    Afterwards the comments of the tenant on the new story are as many as
    those that were on the new story or on an old one, and the number
    returned is the number of comments that were on an old story. *)
Theorem mergeManyCommentStories_merged mongo tenantID newStoryID oldStoryIDs :
  let after := mergeManyCommentStories mongo tenantID newStoryID oldStoryIDs in
  let onOld c :=
    bool_decide (Comment.tenantID c = tenantID)
    && bool_decide (Comment.storyID c ∈ oldStoryIDs) in
  let onNew c :=
    bool_decide (Comment.tenantID c = tenantID)
    && bool_decide (Comment.storyID c = newStoryID) in
  Forall2 (fun c c' =>
             c' = setStoryID (Comment.storyID c') c
             /\ Comment.storyID c' = if onOld c then newStoryID else Comment.storyID c)
          (Db.comments mongo) (Db.comments after.1)
  /\ length (List.filter onNew (Db.comments after.1))
     = length (List.filter (fun c => onOld c || onNew c) (Db.comments mongo))
  /\ after.2 = length (List.filter onOld (Db.comments mongo)).
Proof.
  cbv zeta. unfold mergeManyCommentStories. simpl. split; [|split; [|done]].
  - apply Forall2_fmap_r, Forall_Forall2_diag, Forall_forall. intros c _.
    unfold compose. destruct (_ && _); cbn [Comment.storyID setStoryID]; [done|].
    by rewrite setStoryID_same.
  - induction (Db.comments mongo) as [|c rest IH]; simpl; [done|].
    destruct (bool_decide (Comment.tenantID c = tenantID)) eqn:Htenant; simpl.
    + destruct (bool_decide (Comment.storyID c ∈ oldStoryIDs)); simpl.
      * rewrite Htenant. simpl. rewrite bool_decide_eq_true_2 by done. simpl.
        by rewrite IH.
      * rewrite Htenant. simpl.
        destruct (bool_decide (Comment.storyID c = newStoryID)); simpl; by rewrite IH.
    + rewrite Htenant. simpl. exact IH.
Qed.

(** ** Fetching many comments *)

Lemma find_filter {A : Type} (f g : A -> bool) (l : list A) :
  List.find f (List.filter g l) = List.find (fun x => g x && f x) l.
Proof.
  induction l as [|x l IH]; simpl; [done|].
  destruct (g x); simpl; [|done]. by destruct (f x).
Qed.

Lemma find_ext_in {A : Type} (f g : A -> bool) (l : list A) :
  (forall x, x ∈ l -> f x = g x) -> List.find f l = List.find g l.
Proof.
  induction l as [|x l IH]; simpl; [done|]. intros Hsame.
  rewrite (Hsame x) by left. destruct (g x); [done|].
  apply IH. intros y Hy. apply Hsame. by right.
Qed.

(** [retrieveManyComments] answers entry by entry. *)
Lemma retrieveManyComments_entries collection tenantID ids :
  retrieveManyComments collection tenantID ids
  = let found := map (fun id => findOne (byTenantAndID tenantID id) collection) ids in
    if existsb (fun n => bool_decide (is_Some n)) found then found else [].
Proof.
  cbv zeta. unfold retrieveManyComments, find.
  set (wanted := fun c : Comment.t => _ && _).
  assert (forall id, id ∈ ids ->
            List.find (fun c => bool_decide (Comment.id c = id))
                      (List.filter wanted collection)
            = findOne (byTenantAndID tenantID id) collection) as Hentry.
  { intros id Hid. rewrite find_filter. apply find_ext_in. intros c _.
    unfold wanted, byTenantAndID.
    destruct (decide (Comment.id c = id)) as [Heq|Hne].
    - rewrite Heq. rewrite (bool_decide_eq_true_2 (id ∈ ids)) by done.
      rewrite (bool_decide_eq_true_2 (id = id)) by done.
      by destruct (bool_decide (Comment.tenantID c = tenantID)).
    - rewrite (bool_decide_eq_false_2 (Comment.id c = id)) by done.
      by rewrite andb_false_r. }
  assert (map (fun id => List.find (fun c => bool_decide (Comment.id c = id))
                                   (List.filter wanted collection)) ids
          = map (fun id => findOne (byTenantAndID tenantID id) collection) ids)
    as Hentries.
  { apply List.map_ext_in. intros id Hid. by apply Hentry, list_elem_of_In. }
  rewrite Hentries. clear Hentry Hentries.
  destruct (List.filter wanted collection) as [|c items] eqn:Hitems.
  - change ((0 <? length (@nil Comment.t))%nat) with false. cbv iota.
    assert (existsb (fun n => bool_decide (is_Some n))
              (map (fun id => findOne (byTenantAndID tenantID id) collection) ids)
            = false) as ->; [|done].
    apply not_true_is_false. rewrite List.existsb_exists.
    intros (n & Hn & Hsome). apply bool_decide_eq_true in Hsome as [d Hd]. subst n.
    apply List.in_map_iff in Hn as (id & Hfound & Hid).
    apply findOne_Some in Hfound as [Hin Hkey].
    apply byTenantAndID_true in Hkey as [<- Htenant].
    assert (d ∈ List.filter wanted collection) as Habs.
    { apply list_elem_of_In, List.filter_In. split; [by apply list_elem_of_In|].
      unfold wanted. rewrite !bool_decide_eq_true_2; [done..|].
      by apply list_elem_of_In. }
    rewrite Hitems in Habs. by apply not_elem_of_nil in Habs.
  - change ((0 <? length (c :: items))%nat) with true. cbv iota.
    assert (existsb (fun n => bool_decide (is_Some n))
              (map (fun id => findOne (byTenantAndID tenantID id) collection) ids)
            = true) as ->; [|done].
    assert (c ∈ List.filter wanted collection) as Hc by (rewrite Hitems; left).
    apply list_elem_of_In, List.filter_In in Hc as [Hin Hwanted].
    unfold wanted in Hwanted. apply andb_true_iff in Hwanted as [Hid Htenant].
    apply bool_decide_eq_true in Hid, Htenant.
    apply List.existsb_exists.
    exists (findOne (byTenantAndID tenantID (Comment.id c)) collection). split.
    + apply List.in_map_iff. exists (Comment.id c).
      split; [done|by apply list_elem_of_In].
    + apply bool_decide_eq_true.
      destruct (findOne (byTenantAndID tenantID (Comment.id c)) collection)
        as [d|] eqn:Hnone; [by eexists|].
      apply list_elem_of_In in Hin.
      pose proof (findOne_None _ _ c Hnone Hin) as Habs.
      unfold byTenantAndID in Habs.
      by rewrite !bool_decide_eq_true_2 in Habs.
Qed.

(** X15.  The answer of [retrieveManyComments] is aligned with the
    identifiers asked for: each entry is the first comment of the tenant
    with the identifier at that position, or [null] when the tenant has
    none.  The one exception is that, when none of the identifiers is
    found, the answer is the empty array and not an array of [null]s. *)
Theorem retrieveManyComments_aligned collection tenantID ids :
  retrieveManyComments collection tenantID ids
  = let found := map (fun id => findOne (byTenantAndID tenantID id) collection) ids in
    if existsb (fun n => bool_decide (is_Some n)) found then found else [].
Proof. apply retrieveManyComments_entries. Qed.

(** ** Ratings *)

(** X16.  When the published statuses do not include REJECTED, a rating
    that [retrieveAuthorStoryRating] finds is one that
    [hasAuthorStoryRating] reports; the comment found is a top-level comment
    of the author on the story, with a positive rating. *)
Theorem retrieveAuthorStoryRating_found
    PUBLISHED_STATUSES mongo tenantID storyID authorID c :
  REJECTED ∉ PUBLISHED_STATUSES ->
  retrieveAuthorStoryRating PUBLISHED_STATUSES mongo tenantID storyID authorID = Some c ->
  hasAuthorStoryRating mongo tenantID storyID authorID = true
  /\ Comment.tenantID c = tenantID /\ Comment.storyID c = storyID
  /\ Comment.authorID c = Some authorID /\ Comment.parentID c = None
  /\ exists r, Comment.rating c = Some r /\ 0 < r.
Proof.
  intros Hpublished Hfound. unfold retrieveAuthorStoryRating in Hfound.
  apply findOne_Some in Hfound as [Hin Hmatch].
  apply andb_true_iff in Hmatch as [Hrated Hstatus].
  assert (Comment.status c ≠ REJECTED) as Hstatus'.
  { unfold includes in Hstatus. apply bool_decide_eq_true in Hstatus.
    intros Heq. rewrite Heq in Hstatus.
    apply elem_of_app in Hstatus as [?|Hpremod]; [done|].
    apply list_elem_of_singleton in Hpremod. discriminate. }
  split.
  - unfold hasAuthorStoryRating. apply bool_decide_eq_true.
    destruct (findOne _ (Db.comments mongo)) as [d|] eqn:Hnone; [by eexists|].
    pose proof (findOne_None _ _ c Hnone Hin) as Habs. simpl in Habs.
    by rewrite Hrated, bool_decide_eq_false_2 in Habs.
  - unfold ratedBy in Hrated. rewrite !andb_true_iff, !bool_decide_eq_true in Hrated.
    destruct Hrated as [[[[? ?] ?] ?] Hrating]. repeat split; try done.
    destruct (Comment.rating c) as [r|]; [|done]. exists r. split; [done|lia].
Qed.

Lemma retrieveAuthorStoryRating_found_witness :
  hasAuthorStoryRating (commentsOnly [sampleComment; sampleRated]) "t1" "s1" "alice"
  = true.
Proof.
  refine (proj1 (retrieveAuthorStoryRating_found [NONE; APPROVED]
                   (commentsOnly [sampleComment; sampleRated]) "t1" "s1" "alice"
                   sampleRated _ eq_refl)).
  rewrite !elem_of_cons, elem_of_nil. intros [?|[?|[]]]; discriminate.
Defined.

(** ** The parents of a comment, when they are all stored *)

Lemma slice_window {A : Type} (l : list A) (start count : Z) :
  0 ≤ start -> 0 ≤ count ->
  slice l start (start + count) = take (Z.to_nat count) (drop (Z.to_nat start) l).
Proof.
  intros Hstart Hcount. unfold slice, sliceIndex.
  rewrite (proj2 (Z.ltb_ge start 0)) by lia.
  rewrite (proj2 (Z.ltb_ge (start + count) 0)) by lia.
  destruct (decide (Z.of_nat (length l) ≤ start)) as [Hout|Hin].
  - rewrite !drop_ge by lia. by destruct (_ - _)%nat, (Z.to_nat count).
  - replace (Z.to_nat (start `min` Z.of_nat (length l))) with (Z.to_nat start) by lia.
    replace (Z.to_nat ((start + count) `min` Z.of_nat (length l)) - Z.to_nat start)%nat
      with (Z.to_nat count `min` length (drop (Z.to_nat start) l))%nat
      by (rewrite length_drop; lia).
    rewrite <- take_take. f_equal. apply take_ge. lia.
Qed.

Lemma omap_Some {A : Type} (l : list A) : omap (fun n => n) (Some <$> l) = l.
Proof. induction l as [|x l IH]; [done|]. cbn. by f_equal. Qed.

(** The comments that a list of identifiers resolves to, when each of them
    resolves. *)
Lemma resolve_all collection tenantID ids :
  (forall id, id ∈ ids -> is_Some (findOne (byTenantAndID tenantID id) collection)) ->
  exists cs,
    map (fun id => findOne (byTenantAndID tenantID id) collection) ids = Some <$> cs
    /\ map Comment.id cs = ids
    /\ Forall (fun c => c ∈ collection /\ Comment.tenantID c = tenantID) cs.
Proof.
  induction ids as [|id ids IH]; intros Hall.
  - by exists [].
  - destruct (Hall id) as [c Hc]; [left|].
    destruct IH as (cs & Hmap & Hids & Hcs); [intros; apply Hall; by right|].
    exists (c :: cs). pose proof Hc as Hfound.
    apply findOne_Some in Hfound as [Hin Hkey].
    apply byTenantAndID_true in Hkey as [Hid Htenant].
    split; [|split].
    + cbn. by rewrite Hc, Hmap.
    + cbn. by rewrite Hid, Hids.
    + by constructor.
Qed.

(** X17.  When the comment has ancestors, the limit is positive, the offset
    is not negative, and every identifier of the window of [ancestorIDs]
    that the limit and offset select resolves to a comment of the tenant,
    [retrieveCommentParentsConnection] returns a page whose nodes are those
    comments, nearest ancestor first.  The edges list them farthest
    ancestor first, each with the one-based position of its identifier in
    [ancestorIDs] as its cursor; the start cursor is the position of the
    farthest ancestor of the page, the end cursor the position of the
    nearest, and [hasPreviousPage] tells whether [ancestorIDs] goes on
    beyond the window. *)
Theorem retrieveCommentParentsConnection_resolved
    collection tenantID comment limit before :
  let skip := default 0 before in
  let window :=
    take (Z.to_nat limit) (drop (Z.to_nat skip) (Comment.ancestorIDs comment)) in
  0 < limit -> 0 ≤ skip -> window ≠ [] ->
  (forall id, id ∈ window ->
              is_Some (findOne (byTenantAndID tenantID id) collection)) ->
  exists page,
    retrieveCommentParentsConnection collection tenantID comment limit before = Ok page
    /\ map Comment.id (nodes page) = window
    /\ Forall (fun c => c ∈ collection /\ Comment.tenantID c = tenantID) (nodes page)
    /\ map (fun e => (Comment.id (node e), cursor e)) (edges page)
       = reverse (imap (fun i id => (id, skip + Z.of_nat i + 1)) window)
    /\ startCursor (pageInfo page) = Some (skip + Z.of_nat (length window))
    /\ endCursor (pageInfo page) = Some (skip + 1)
    /\ hasNextPage (pageInfo page) = false
    /\ hasPreviousPage (pageInfo page)
       = bool_decide (limit + skip < Z.of_nat (length (Comment.ancestorIDs comment))).
Proof.
  intros skip window Hlimit Hskip Hwindow Hresolved.
  assert (hasAncestors comment = true) as Hancestors.
  { unfold hasAncestors. apply bool_decide_eq_true. intros Hnone.
    apply Hwindow. unfold window. rewrite Hnone. by rewrite drop_nil, take_nil. }
  destruct (resolve_all collection tenantID window Hresolved)
    as (cs & Hfound & Hids & Hcs).
  assert (cs ≠ []) as Hcs_nonempty.
  { intros ->. by rewrite <- Hids in Hwindow. }
  unfold retrieveCommentParentsConnection. fold skip.
  rewrite Hancestors. cbn [negb]. cbv iota.
  rewrite (proj2 (Z.leb_gt limit 0)) by done.
  rewrite slice_window by lia. fold window.
  rewrite retrieveManyComments_entries. cbv zeta. rewrite Hfound.
  assert (existsb (fun n => bool_decide (is_Some n)) (Some <$> cs) = true) as ->.
  { destruct cs as [|c cs']; [done|]. reflexivity. }
  assert (doesNotContainNull (Some <$> cs) = true) as ->.
  { unfold doesNotContainNull. apply List.forallb_forall. intros n Hn.
    apply List.in_map_iff in Hn as (c & <- & _). by apply bool_decide_eq_true. }
  cbn [negb]. cbv iota. rewrite omap_Some.
  eexists. split; [reflexivity|]. cbn [nodes edges pageInfo startCursor endCursor
                                       hasNextPage hasPreviousPage].
  split; [done|]. split; [done|].
  assert (map (fun e => (Comment.id (node e), cursor e))
              (nodesToEdges cs (fun _ index => index + skip + 1))
          = imap (fun i id => (id, skip + Z.of_nat i + 1)) window) as Hedges.
  { rewrite <- Hids. unfold nodesToEdges.
    change (map ?f ?l) with (f <$> l). rewrite fmap_imap, imap_fmap.
    apply imap_ext. intros i c _. simpl. f_equal. lia. }
  split.
  { change (map ?f ?l) with (f <$> l). rewrite fmap_reverse.
    change (?f <$> ?l) with (map f l). by rewrite Hedges. }
  assert (length (nodesToEdges cs (fun _ index => index + skip + 1)) = length window)
    as Hlength.
  { by rewrite nodesToEdges_length, <- Hids, length_map. }
  split.
  { rewrite head_reverse, last_lookup, nodesToEdges_lookup, nodesToEdges_length.
    destruct (cs !! pred (length cs)) as [c|] eqn:Hlast.
    - cbn. f_equal. rewrite <- Hids, length_map.
      destruct cs; [done|]. simpl. lia.
    - apply lookup_ge_None in Hlast. destruct cs; [done|]. simpl in Hlast. lia. }
  split.
  { rewrite last_reverse, head_lookup, nodesToEdges_lookup.
    destruct cs as [|c cs']; [done|]. cbn. f_equal; lia. }
  split; [done|].
  destruct (Z.ltb_spec (limit + skip) (Z.of_nat (length (Comment.ancestorIDs comment))));
    [by rewrite bool_decide_eq_true_2|by rewrite bool_decide_eq_false_2 by lia].
Qed.

Lemma retrieveCommentParentsConnection_resolved_witness :
  exists page,
    retrieveCommentParentsConnection
      [sampleComment; Comment.setStatus APPROVED sampleComment] "t1"
      (Comment.mk "c2" "t1" ["c1"] (Some "c1") None (Some "bob") "s1" "site1" None
                  [sampleRevision] NONE ∅ [] [] None 0 150 None)
      1 None = Ok page
    /\ map Comment.id (nodes page) = ["c1"].
Proof.
  destruct (retrieveCommentParentsConnection_resolved
              [sampleComment; Comment.setStatus APPROVED sampleComment] "t1"
              (Comment.mk "c2" "t1" ["c1"] (Some "c1") None (Some "bob") "s1" "site1"
                          None [sampleRevision] NONE ∅ [] [] None 0 150 None)
              1 None) as (page & Hpage & Hnodes & _).
  - reflexivity.
  - simpl. lia.
  - discriminate.
  - intros id Hid. apply list_elem_of_singleton in Hid as ->. by eexists.
  - by exists page.
Defined.

(** ** What a connection returns, whatever its ordering *)

Lemma StronglySorted_sublist {A : Type} (R : relation A) (l1 l2 : list A) :
  l1 `sublist_of` l2 -> StronglySorted R l2 -> StronglySorted R l1.
Proof.
  induction 1 as [|x l1 l2 Hsub IH|x l1 l2 Hsub IH]; intros Hsorted; [done|..].
  - apply StronglySorted_inv in Hsorted as [Hrest Hhead].
    constructor; [by apply IH|].
    rewrite Forall_forall in Hhead |- *. intros y Hy.
    apply Hhead. by eapply elem_of_sublist.
  - apply StronglySorted_inv in Hsorted as [Hrest _]. by apply IH.
Qed.

Lemma applyInputToQuery_sort input q :
  Query.sort (applyInputToQuery input q) = sortDocument (orderBy input)
  /\ Query.collection (applyInputToQuery input q) = Query.collection q.
Proof.
  unfold applyInputToQuery, sortDocument.
  destruct (orderBy input), (after_ input) as [n|]; simpl; try done;
    by destruct (truthy n).
Qed.

Lemma applyInputToQuery_filter input q c :
  Query.filter (applyInputToQuery input q) c = true -> Query.filter q c = true.
Proof.
  unfold applyInputToQuery.
  destruct (orderBy input), (after_ input) as [n|]; simpl; try done;
    try (destruct (truthy n); by simpl); by intros [? _]%andb_true_iff.
Qed.

Lemma ordered_elem_of q c :
  c ∈ Query.ordered q -> c ∈ Query.collection q /\ Query.filter q c = true.
Proof.
  unfold Query.ordered. rewrite merge_sort_Permutation.
  rewrite !list_elem_of_In. apply List.filter_In.
Qed.

Lemma exec_sublist q : Query.exec q `sublist_of` Query.ordered q.
Proof.
  unfold Query.exec. destruct (Query.limit q).
  - etrans; [apply sublist_take|apply sublist_drop].
  - apply sublist_drop.
Qed.

(** The nodes of a page are picked, in order, from the whole ordered set of
    the query. *)
Lemma retrieveCommentConnection_sublist collection tenantID input :
  nodes (retrieveCommentConnection collection tenantID input)
  `sublist_of`
  Query.ordered (applyInputToQuery input (commentQuery collection tenantID input)).
Proof.
  unfold retrieveCommentConnection. fold (commentQuery collection tenantID input).
  unfold retrieveConnection, resolveConnection. cbn [nodes].
  set (q := applyInputToQuery input (commentQuery collection tenantID input)).
  assert (Query.exec (if truthy (first input)
                      then Query.first (first input + 1) q else q)
          `sublist_of` Query.ordered q) as Hfound.
  { destruct (truthy (first input)); [|apply exec_sublist].
    apply (exec_sublist (Query.first (first input + 1) q)). }
  destruct (_ && _); [|done]. etrans; [apply sublist_take|done].
Qed.

Lemma commentQuery_filter collection tenantID input c :
  Query.filter (commentQuery collection tenantID input) c = true ->
  Comment.tenantID c = tenantID
  /\ forall f, filter_ input = Some f -> f c = true.
Proof.
  unfold commentQuery. destruct (filter_ input) as [g|]; simpl.
  - intros [Htenant Hg]%andb_true_iff. apply bool_decide_eq_true in Htenant.
    split; [done|]. by intros f [= <-].
  - intros Htenant%bool_decide_eq_true. by split.
Qed.

Lemma commentQuery_collection collection tenantID input :
  Query.collection (commentQuery collection tenantID input) = collection.
Proof. unfold commentQuery. by destruct (filter_ input). Qed.

Lemma imap_node (g : nat -> Comment.t -> Edge) (l : list Comment.t) :
  (forall i x, node (g i x) = x) -> map node (imap g l) = l.
Proof.
  revert g. induction l as [|x l IH]; intros g Hg; [done|].
  rewrite imap_cons. cbn. rewrite Hg. f_equal. apply IH. intros i y. apply Hg.
Qed.

Lemma nodesToEdges_nodes l transformer : map node (nodesToEdges l transformer) = l.
Proof. unfold nodesToEdges. by apply imap_node. Qed.

(** The nodes of a page of [retrieveCommentConnection]. *)
Lemma retrieveCommentConnection_contents collection tenantID input :
  let page := retrieveCommentConnection collection tenantID input in
  Forall (fun c => c ∈ collection
                   /\ Comment.tenantID c = tenantID
                   /\ forall f, filter_ input = Some f -> f c = true)
         (nodes page)
  /\ StronglySorted (sortedBefore (sortDocument (orderBy input))) (nodes page)
  /\ map node (edges page) = nodes page
  /\ (0 < first input -> (length (nodes page) ≤ Z.to_nat (first input))%nat).
Proof.
  cbv zeta.
  pose proof (retrieveCommentConnection_sublist collection tenantID input) as Hsub.
  set (q := applyInputToQuery input (commentQuery collection tenantID input)) in Hsub.
  split; [|split; [|split]].
  - apply Forall_forall. intros c Hc.
    pose proof (elem_of_sublist _ _ _ Hc Hsub) as Hordered.
    apply ordered_elem_of in Hordered as [Hin Hfilter].
    unfold q in Hin. rewrite (proj2 (applyInputToQuery_sort _ _)) in Hin.
    rewrite commentQuery_collection in Hin. split; [done|].
    by apply (commentQuery_filter collection), (applyInputToQuery_filter input).
  - apply (StronglySorted_sublist _ _ _ Hsub).
    rewrite <- (proj1 (applyInputToQuery_sort input
                         (commentQuery collection tenantID input))).
    apply ordered_StronglySorted.
  - destruct (retrieveCommentConnection_edges collection tenantID input) as [-> _].
    apply nodesToEdges_nodes.
  - intros Hfirst. unfold retrieveCommentConnection.
    unfold retrieveConnection, resolveConnection. cbn [nodes].
    assert (truthy (first input) = true) as ->.
    { unfold truthy. destruct (Z.eqb_spec (first input) 0); [lia|done]. }
    cbn [andb].
    match goal with
    | |- context [first input <? ?n] =>
        destruct (Z.ltb_spec (first input) n) as [Hmore|Hall]
    end.
    + rewrite length_take. lia.
    + lia.
Qed.

(** X18.  Whatever the ordering, the cursor and the limit, a page of
    [retrieveCommentConnection] holds only comments that the collection
    stores, that are of the tenant asked for and that pass the filter of
    the input; they come in the order of the sort document of the ordering;
    the edges carry them one for one; and with a positive limit the page
    has at most that many nodes. *)
Theorem retrieveCommentConnection_nodes collection tenantID input :
  let page := retrieveCommentConnection collection tenantID input in
  Forall (fun c => c ∈ collection
                   /\ Comment.tenantID c = tenantID
                   /\ forall f, filter_ input = Some f -> f c = true)
         (nodes page)
  /\ StronglySorted (sortedBefore (sortDocument (orderBy input))) (nodes page)
  /\ map node (edges page) = nodes page
  /\ (0 < first input -> (length (nodes page) ≤ Z.to_nat (first input))%nat).
Proof. apply retrieveCommentConnection_contents. Qed.

(** ** Paging by creation date *)







(** ** Moving documents: nothing lost, nothing doubled *)

(** X20.  The batches of [moveDocuments] add up to one move: whatever the
    number of selected documents, fewer than a batch, a whole number of
    batches or more, every selected document is inserted in the
    destination, in the order of the selection and after the documents the
    destination held; the source loses the documents of the tenant whose
    identifier is that of a selected document; and the identifiers of the
    selected documents are returned when they are asked for, none
    otherwise. *)
Theorem moveDocuments_batches {D : Type} `{Document D} tenantID
    (src selection dst : list D) returnMovedIDs :
  moveDocuments tenantID src selection dst returnMovedIDs
  = (bulkRemove tenantID (omap docID selection) src,
     dst ++ selection,
     if returnMovedIDs then omap docID selection else []).
Proof. apply moveDocuments_moved. Qed.

Lemma filter_complement_Permutation {A : Type} (p : A -> bool) (l : list A) :
  List.filter (fun x => negb (p x)) l ++ List.filter p l ≡ₚ l.
Proof.
  induction l as [|x l IH]; simpl; [done|].
  destruct (p x); simpl; [|by rewrite IH].
  by rewrite <- Permutation_middle, IH.
Qed.

Lemma elem_of_omap_docID {D : Type} `{Document D} (l : list D) i :
  i ∈ omap docID l <-> exists d, d ∈ l /\ docID d = Some i.
Proof. rewrite list_elem_of_omap. naive_solver. Qed.

(** What [bulkRemove] removes when the identifiers are those of a selection
    of the source: the selection, provided the selected documents are of
    the tenant and have an identifier, and provided a document that shares
    its identifier with a selected document is selected too. *)
Lemma bulkRemove_selection {D : Type} `{Document D} tenantID (p : D -> bool)
    (src : list D) :
  (forall d, d ∈ src -> p d = true -> docTenantID d = tenantID /\ is_Some (docID d)) ->
  (forall d1 d2, d1 ∈ src -> d2 ∈ src ->
     docTenantID d1 = tenantID -> docTenantID d2 = tenantID ->
     docID d1 = docID d2 -> p d1 = p d2) ->
  bulkRemove tenantID (omap docID (List.filter p src)) src
  = List.filter (fun d => negb (p d)) src.
Proof.
  intros Hselected Hunique. unfold bulkRemove.
  apply List.filter_ext_in. intros d Hd%list_elem_of_In. f_equal.
  destruct (p d) eqn:Hp.
  - destruct (Hselected d Hd Hp) as [Htenant [i Hi]].
    rewrite Hi, !bool_decide_eq_true_2; [done| |done].
    apply elem_of_omap_docID. exists d. split; [|done].
    apply list_elem_of_In, List.filter_In. split; [by apply list_elem_of_In|done].
  - apply not_true_is_false. intros [Htenant Hid]%andb_true_iff.
    apply bool_decide_eq_true in Htenant.
    destruct (docID d) as [i|] eqn:Hi; [|done].
    apply bool_decide_eq_true, elem_of_omap_docID in Hid as (d' & Hd' & Hi').
    apply list_elem_of_In, List.filter_In in Hd' as [Hd' Hp'].
    apply list_elem_of_In in Hd'.
    destruct (Hselected d' Hd' Hp') as [Htenant' _].
    rewrite (Hunique d d') in Hp; [congruence|done..|congruence].
Qed.

(** X21.  [moveDocuments] loses and doubles nothing when the selection is a
    filter of the source, the selected documents are of the tenant and
    have an identifier, and a document of the tenant with the identifier of
    a selected document is selected too: the source keeps exactly the
    documents that were not selected, in their order, and the documents of
    the source and the destination together are the same as before. *)
Theorem moveDocuments_conserves {D : Type} `{Document D} tenantID (p : D -> bool)
    (src dst : list D) returnMovedIDs :
  (forall d, d ∈ src -> p d = true -> docTenantID d = tenantID /\ is_Some (docID d)) ->
  (forall d1 d2, d1 ∈ src -> d2 ∈ src ->
     docTenantID d1 = tenantID -> docTenantID d2 = tenantID ->
     docID d1 = docID d2 -> p d1 = p d2) ->
  let moved := moveDocuments tenantID src (find p src) dst returnMovedIDs in
  moved.1.1 = List.filter (fun d => negb (p d)) src
  /\ moved.1.2 = dst ++ List.filter p src
  /\ moved.1.1 ++ moved.1.2 ≡ₚ src ++ dst.
Proof.
  intros Hselected Hunique. cbv zeta. rewrite moveDocuments_moved. cbn [fst snd].
  unfold find. rewrite (bulkRemove_selection _ _ _ Hselected Hunique).
  split; [done|]. split; [done|].
  rewrite <- (filter_complement_Permutation p src) at 3.
  rewrite <- !(assoc_L (++)). f_equiv. apply Permutation_app_comm.
Qed.

Lemma moveDocuments_conserves_witness :
  (moveDocuments "t1" [sampleComment; sampleReply]
                 (find (commentOfStory "t1" "s1") [sampleComment; sampleReply])
                 [] true).1.1 = [].
Proof.
  refine (proj1 (moveDocuments_conserves "t1" (commentOfStory "t1" "s1")
                   [sampleComment; sampleReply] [] true _ _)).
  - intros d _ Hd. unfold commentOfStory in Hd.
    apply andb_true_iff in Hd as [Htenant%bool_decide_eq_true _].
    split; [exact Htenant|by eexists].
  - intros d1 d2 Hd1 Hd2 _ _ _.
    apply elem_of_cons in Hd1 as [->|Hd1%list_elem_of_singleton];
      apply elem_of_cons in Hd2 as [->|Hd2%list_elem_of_singleton];
      by subst.
Defined.

(** ** What archiving and unarchiving do to the stores *)

Lemma omap_docID_comments (l : list Comment.t) : omap docID l = map Comment.id l.
Proof. induction l as [|c l IH]; [done|]. cbn. by f_equal. Qed.

(** The documents that pass a filter are gone from the source once
    [bulkRemove] has removed their identifiers, when they are of the tenant
    and have an identifier. *)
Lemma bulkRemove_none_left {D : Type} `{Document D} tenantID (p : D -> bool)
    (src : list D) :
  (forall d, p d = true -> docTenantID d = tenantID /\ is_Some (docID d)) ->
  List.filter p (bulkRemove tenantID (omap docID (List.filter p src)) src) = [].
Proof.
  intros Hselected.
  destruct (List.filter p (bulkRemove _ _ src)) as [|d rest] eqn:Hleft; [done|].
  assert (d ∈ List.filter p (bulkRemove tenantID (omap docID (List.filter p src)) src))
    as Hd by (rewrite Hleft; left).
  apply list_elem_of_In, List.filter_In in Hd as [Hd Hp].
  unfold bulkRemove in Hd. apply List.filter_In in Hd as [Hd Hkept].
  destruct (Hselected d Hp) as [Htenant [i Hi]].
  rewrite Hi, (bool_decide_eq_true_2 _ Htenant), bool_decide_eq_true_2 in Hkept;
    [done|].
  apply elem_of_omap_docID. exists d. split; [|done].
  apply list_elem_of_In, List.filter_In. by split.
Qed.

Lemma withStories_frame l db :
  Db.comments (Db.withStories l db) = Db.comments db
  /\ Db.commentActions (Db.withStories l db) = Db.commentActions db
  /\ Db.commentModerationActions (Db.withStories l db)
     = Db.commentModerationActions db
  /\ Db.stories (Db.withStories l db) = l.
Proof. done. Qed.

Section ArchiverEffects.
Context `{CounterStores}.

Lemma onlySites_frame db tenantID id counts :
  onlySites ->
  Db.comments (updateSiteCounts db tenantID id counts) = Db.comments db
  /\ Db.commentActions (updateSiteCounts db tenantID id counts) = Db.commentActions db
  /\ Db.commentModerationActions (updateSiteCounts db tenantID id counts)
     = Db.commentModerationActions db
  /\ Db.stories (updateSiteCounts db tenantID id counts) = Db.stories db.
Proof. intros Honly. by destruct (Honly db tenantID id counts) as [sites' ->]. Qed.

Lemma onlySites_keepsStories : onlySites -> keepsStories.
Proof.
  intros Honly db tenantID id counts storyTenantID storyID Hfound.
  by destruct (Honly db tenantID id counts) as [sites' ->].
Qed.

(** What a successful [archiveStory] returns and leaves, collection by
    collection. *)
Lemma archiveStory_moved mongo redis tenantID id archiveDb story :
  onlySites ->
  archive mongo = Some archiveDb ->
  findOne (storyByTenantAndID tenantID id) (Db.stories (live mongo)) = Some story ->
  Story.isArchived story = false ->
  exists final archiveDb',
    archiveStory mongo redis tenantID id
    = (final,
       updateSharedCommentCounts redis tenantID (getCommentCounts story true),
       Ok (Some (Story.setArchive false true story)))
    /\ archive final = Some archiveDb'
    /\ Db.archivedComments archiveDb'
       = Db.archivedComments archiveDb
         ++ find (commentOfStory tenantID id) (Db.comments (live mongo))
    /\ Db.archivedCommentActions archiveDb'
       = Db.archivedCommentActions archiveDb
         ++ find (actionOfStory tenantID id) (Db.commentActions (live mongo))
    /\ Db.comments (live final)
       = bulkRemove tenantID
           (map Comment.id (find (commentOfStory tenantID id) (Db.comments (live mongo))))
           (Db.comments (live mongo))
    /\ Db.commentActions (live final)
       = bulkRemove tenantID
           (omap docID (find (actionOfStory tenantID id) (Db.commentActions (live mongo))))
           (Db.commentActions (live mongo))
    /\ findOne (storyByTenantAndID tenantID id) (Db.stories (live final))
       = Some (Story.setArchive false true story).
Proof.
  intros Honly Harchive Hfound Hlive.
  unfold archiveStory. rewrite Harchive, Hfound, Hlive.
  rewrite !moveDocuments_moved. cbn [fst snd].
  match goal with
  | |- context [updateSiteCounts ?db ?t ?i ?c] =>
      destruct (onlySites_frame db t i c Honly)
        as (Hcomments & Hactions & _ & Hstories)
  end.
  rewrite Hstories.
  change (Db.stories (Db.withCommentModerationActions ?l3
            (Db.withCommentActions ?l2 (Db.withComments ?l1 (live mongo)))))
    with (Db.stories (live mongo)).
  destruct (findOneAndUpdate_at _ (Story.setArchive false true) _ _ Hfound)
    as (i & Hi & Hfirst & ->).
  do 2 eexists. split; [reflexivity|]. cbn [live archive].
  split; [done|]. split; [done|]. split; [done|].
  rewrite !(proj1 (withStories_frame _ _)), Hcomments.
  rewrite (proj1 (proj2 (withStories_frame _ _))), Hactions.
  rewrite (proj2 (proj2 (proj2 (withStories_frame _ _)))).
  split; [by rewrite <- omap_docID_comments|]. split; [done|].
  apply (findOne_insert_first _ _ i story); [done..|].
  rewrite storyByTenantAndID_setArchive. by apply findOne_Some in Hfound as [_ ?].
Qed.

(** The same for a successful [unarchiveStory]. *)
Lemma unarchiveStory_moved mongo redis tenantID id archiveDb story :
  onlySites ->
  archive mongo = Some archiveDb ->
  findOne (storyByTenantAndID tenantID id) (Db.stories (live mongo)) = Some story ->
  Story.isArchived story = true ->
  exists final archiveDb',
    unarchiveStory mongo redis tenantID id
    = (final,
       updateSharedCommentCounts redis tenantID (getCommentCounts story false),
       Ok (Some (Story.setArchive false false story)))
    /\ archive final = Some archiveDb'
    /\ Db.comments (live final)
       = Db.comments (live mongo)
         ++ find (commentOfStory tenantID id) (Db.archivedComments archiveDb)
    /\ Db.commentActions (live final)
       = Db.commentActions (live mongo)
         ++ find (actionOfStory tenantID id) (Db.archivedCommentActions archiveDb)
    /\ Db.archivedComments archiveDb'
       = bulkRemove tenantID
           (map Comment.id
                (find (commentOfStory tenantID id) (Db.archivedComments archiveDb)))
           (Db.archivedComments archiveDb)
    /\ Db.archivedCommentActions archiveDb'
       = bulkRemove tenantID
           (omap docID (find (actionOfStory tenantID id)
                             (Db.archivedCommentActions archiveDb)))
           (Db.archivedCommentActions archiveDb)
    /\ findOne (storyByTenantAndID tenantID id) (Db.stories (live final))
       = Some (Story.setArchive false false story).
Proof.
  intros Honly Harchive Hfound Harchived.
  unfold unarchiveStory. rewrite Harchive, Hfound, Harchived. cbn [negb].
  rewrite !moveDocuments_moved. cbn [fst snd].
  match goal with
  | |- context [updateSiteCounts ?db ?t ?i ?c] =>
      destruct (onlySites_frame db t i c Honly)
        as (Hcomments & Hactions & _ & Hstories)
  end.
  rewrite Hstories.
  change (Db.stories (Db.withCommentModerationActions ?l3
            (Db.withCommentActions ?l2 (Db.withComments ?l1 (live mongo)))))
    with (Db.stories (live mongo)).
  destruct (findOneAndUpdate_at _ (Story.setArchive false false) _ _ Hfound)
    as (i & Hi & Hfirst & ->).
  do 2 eexists. split; [reflexivity|]. cbn [live archive].
  split; [done|].
  rewrite !(proj1 (withStories_frame _ _)), Hcomments.
  rewrite (proj1 (proj2 (withStories_frame _ _))), Hactions.
  rewrite (proj2 (proj2 (proj2 (withStories_frame _ _)))).
  split; [done|]. split; [done|].
  split; [by rewrite <- omap_docID_comments|]. split; [done|].
  apply (findOne_insert_first _ _ i story); [done..|].
  rewrite storyByTenantAndID_setArchive. by apply findOne_Some in Hfound as [_ ?].
Qed.

(** X22.  With an archive connection, counters that only write to the sites,
    and a story of the live database that is not archived, [archiveStory]
    succeeds.  Afterwards the live database holds no comment and no comment
    action of the story in the tenant: the comments of the story are at
    the end of the archived comments, in the order they had, after the
    comments that the archive held, and so are its comment actions; the
    live comments are the former ones without the documents of the tenant
    that have the identifier of a comment of the story.  The cache has
    received the negated counters of the story, and the story is returned
    as the live database now holds it, archived. *)
Theorem archiveStory_effect mongo redis tenantID id archiveDb story :
  onlySites ->
  archive mongo = Some archiveDb ->
  findOne (storyByTenantAndID tenantID id) (Db.stories (live mongo)) = Some story ->
  Story.isArchived story = false ->
  let selected := find (commentOfStory tenantID id) (Db.comments (live mongo)) in
  let actions := find (actionOfStory tenantID id) (Db.commentActions (live mongo)) in
  exists final archiveDb' s,
    archiveStory mongo redis tenantID id
    = (final,
       updateSharedCommentCounts redis tenantID (getCommentCounts story true),
       Ok (Some s))
    /\ archive final = Some archiveDb'
    /\ Db.archivedComments archiveDb' = Db.archivedComments archiveDb ++ selected
    /\ Db.archivedCommentActions archiveDb'
       = Db.archivedCommentActions archiveDb ++ actions
    /\ Db.comments (live final)
       = bulkRemove tenantID (map Comment.id selected) (Db.comments (live mongo))
    /\ find (commentOfStory tenantID id) (Db.comments (live final)) = []
    /\ find (actionOfStory tenantID id) (Db.commentActions (live final)) = []
    /\ isPostImage final tenantID id true s.
Proof.
  intros Honly Harchive Hfound Hlive. cbv zeta.
  unfold archiveStory. rewrite Harchive, Hfound, Hlive.
  rewrite !moveDocuments_moved. cbn [fst snd].
  match goal with
  | |- context [findOneAndUpdate _ _ (Db.stories ?db)] =>
      destruct (markStory tenantID id true db) as (original & stories' & Hmark & Hafter)
  end.
  { apply (onlySites_keepsStories Honly). simpl. by rewrite Hfound. }
  rewrite Hmark. do 3 eexists. split; [reflexivity|].
  cbn [live archive].
  match goal with
  | |- context [updateSiteCounts ?db ?t ?i ?c] =>
      destruct (onlySites_frame db t i c Honly) as (Hcomments & Hactions & _ & _)
  end.
  split; [done|]. split; [done|]. split; [done|].
  split; [|split; [|split]].
  - rewrite (proj1 (withStories_frame _ _)), Hcomments.
    rewrite <- omap_docID_comments. reflexivity.
  - rewrite (proj1 (withStories_frame _ _)), Hcomments.
    change (find (commentOfStory tenantID id)
              (bulkRemove tenantID
                 (omap docID (List.filter (commentOfStory tenantID id)
                                          (Db.comments (live mongo))))
                 (Db.comments (live mongo))) = []).
    apply (bulkRemove_none_left tenantID (commentOfStory tenantID id)).
    intros c [Htenant%bool_decide_eq_true _]%andb_true_iff. split; [done|by eexists].
  - rewrite (proj1 (proj2 (withStories_frame _ _))), Hactions.
    change (find (actionOfStory tenantID id)
              (bulkRemove tenantID
                 (omap docID (List.filter (actionOfStory tenantID id)
                                          (Db.commentActions (live mongo))))
                 (Db.commentActions (live mongo))) = []).
    apply (bulkRemove_none_left tenantID (actionOfStory tenantID id)).
    intros a [Htenant%bool_decide_eq_true _]%andb_true_iff. split; [done|by eexists].
  - by repeat split.
Qed.

(** X23.  With an archive connection, counters that only write to the sites,
    and an archived story of the live database, [unarchiveStory] succeeds
    and mirrors [archiveStory]: the archived comments and comment actions of
    the story in the tenant are appended to the live ones, in the order the
    archive had them; none of them is left in the archive; the cache
    receives the counters of the story as they are, not negated; and the
    story is returned as the live database now holds it, neither archiving
    nor archived. *)
Theorem unarchiveStory_effect mongo redis tenantID id archiveDb story :
  onlySites ->
  archive mongo = Some archiveDb ->
  findOne (storyByTenantAndID tenantID id) (Db.stories (live mongo)) = Some story ->
  Story.isArchived story = true ->
  let selected := find (commentOfStory tenantID id) (Db.archivedComments archiveDb) in
  let actions :=
    find (actionOfStory tenantID id) (Db.archivedCommentActions archiveDb) in
  exists final archiveDb' s,
    unarchiveStory mongo redis tenantID id
    = (final,
       updateSharedCommentCounts redis tenantID (getCommentCounts story false),
       Ok (Some s))
    /\ archive final = Some archiveDb'
    /\ Db.comments (live final) = Db.comments (live mongo) ++ selected
    /\ Db.commentActions (live final) = Db.commentActions (live mongo) ++ actions
    /\ find (commentOfStory tenantID id) (Db.archivedComments archiveDb') = []
    /\ find (actionOfStory tenantID id) (Db.archivedCommentActions archiveDb') = []
    /\ isPostImage final tenantID id false s.
Proof.
  intros Honly Harchive Hfound Harchived. cbv zeta.
  destruct (unarchiveStory_moved mongo redis tenantID id archiveDb story
              Honly Harchive Hfound Harchived)
    as (final & archiveDb' & Heq & Hfinal & Hcomments & Hactions
        & Hleft & Hleft' & Hstory).
  exists final, archiveDb', (Story.setArchive false false story).
  split; [done|]. split; [done|]. split; [done|]. split; [done|].
  split; [|split; [|by repeat split]].
  - rewrite Hleft, <- omap_docID_comments.
    apply (bulkRemove_none_left tenantID (commentOfStory tenantID id)).
    intros c [Htenant%bool_decide_eq_true _]%andb_true_iff. split; [done|by eexists].
  - rewrite Hleft'.
    apply (bulkRemove_none_left tenantID (actionOfStory tenantID id)).
    intros a [Htenant%bool_decide_eq_true _]%andb_true_iff. split; [done|by eexists].
Qed.

Lemma filter_all {A : Type} (p : A -> bool) (l : list A) :
  (forall x, x ∈ l -> p x = true) -> List.filter p l = l.
Proof.
  induction l as [|x l IH]; intros Hall; simpl; [done|].
  rewrite (Hall x) by left. f_equal. apply IH. intros y Hy. apply Hall. by right.
Qed.

Lemma filter_none {A : Type} (p : A -> bool) (l : list A) :
  (forall x, x ∈ l -> p x = false) -> List.filter p l = [].
Proof.
  induction l as [|x l IH]; intros Hnone; simpl; [done|].
  rewrite (Hnone x) by left. apply IH. intros y Hy. apply Hnone. by right.
Qed.

(** X24.  Archiving a story and then unarchiving it, on the stores the first
    call leaves.  When, within the tenant, an identifier belongs to the live
    comments of one story, and the archive holds no comment of the tenant
    that is of this story or shares its identifier with a live comment of
    this story, the second call succeeds and: the archived comments are
    again what they were; the live comments are the former ones, with the
    comments of the story moved behind all others, the order otherwise
    kept, so the same comments up to order; the story is returned as the
    live database holds it, with both flags cleared and nothing else
    changed; and the cache has received the negated counters of the story
    and then the counters themselves. *)
Theorem archive_unarchive_round_trip mongo redis tenantID id archiveDb story :
  onlySites ->
  archive mongo = Some archiveDb ->
  findOne (storyByTenantAndID tenantID id) (Db.stories (live mongo)) = Some story ->
  Story.isArchived story = false ->
  oneStoryPerID tenantID (Db.comments (live mongo)) ->
  (forall c, c ∈ Db.archivedComments archiveDb -> Comment.tenantID c = tenantID ->
     Comment.storyID c <> id
     /\ forall c', c' ∈ Db.comments (live mongo) ->
          commentOfStory tenantID id c' = true -> Comment.id c' <> Comment.id c) ->
  let archived := archiveStory mongo redis tenantID id in
  let restored := unarchiveStory archived.1.1 archived.1.2 tenantID id in
  exists archiveDb',
    restored.2 = Ok (Some (Story.setArchive false false story))
    /\ restored.1.2
       = updateSharedCommentCounts
           (updateSharedCommentCounts redis tenantID (getCommentCounts story true))
           tenantID (getCommentCounts story false)
    /\ archive restored.1.1 = Some archiveDb'
    /\ Db.archivedComments archiveDb' = Db.archivedComments archiveDb
    /\ Db.comments (live restored.1.1)
       = List.filter (fun c => negb (commentOfStory tenantID id c))
                     (Db.comments (live mongo))
         ++ find (commentOfStory tenantID id) (Db.comments (live mongo))
    /\ Db.comments (live restored.1.1) ≡ₚ Db.comments (live mongo)
    /\ isPostImage restored.1.1 tenantID id false (Story.setArchive false false story).
Proof.
  intros Honly Harchive Hfound Hlive Hone Hapart. cbv zeta.
  destruct (archiveStory_moved mongo redis tenantID id archiveDb story
              Honly Harchive Hfound Hlive)
    as (final1 & archiveDb1 & -> & Harchive1 & Harchived1 & _ & Hlive1 & _ & Hstory1).
  cbn [fst snd].
  destruct (unarchiveStory_moved final1
              (updateSharedCommentCounts redis tenantID (getCommentCounts story true))
              tenantID id archiveDb1 (Story.setArchive false true story)
              Honly Harchive1 Hstory1 eq_refl)
    as (final2 & archiveDb2 & -> & Harchive2 & Hlive2 & _ & Harchived2 & _ & Hstory2).
  cbn [fst snd]. exists archiveDb2.
  assert (find (commentOfStory tenantID id) (Db.archivedComments archiveDb1)
          = find (commentOfStory tenantID id) (Db.comments (live mongo))) as Hselected.
  { rewrite Harchived1. unfold find. rewrite List.filter_app, filter_idemp.
    rewrite filter_none; [done|].
    intros c Hc. unfold commentOfStory.
    destruct (decide (Comment.tenantID c = tenantID)) as [Htenant|Htenant].
    - destruct (Hapart c Hc Htenant) as [Hstory _].
      by rewrite (bool_decide_eq_false_2 _ Hstory), andb_false_r.
    - by rewrite (bool_decide_eq_false_2 _ Htenant). }
  assert (Db.comments (live final2)
          = List.filter (fun c => negb (commentOfStory tenantID id c))
                        (Db.comments (live mongo))
            ++ find (commentOfStory tenantID id) (Db.comments (live mongo))) as Hback.
  { rewrite Hlive2, Hselected, Hlive1, <- omap_docID_comments. f_equal.
    apply (bulkRemove_selection tenantID (commentOfStory tenantID id)).
    - intros c _ [Htenant%bool_decide_eq_true _]%andb_true_iff.
      split; [done|by eexists].
    - intros c1 c2 Hc1 Hc2 Htenant1 Htenant2 [= Hid].
      unfold commentOfStory.
      by rewrite (Hone c1 c2 Hc1 Hc2 Htenant1 Htenant2 Hid),
        (Htenant1 : Comment.tenantID c1 = tenantID),
        (Htenant2 : Comment.tenantID c2 = tenantID). }
  split; [done|]. split; [done|]. split; [done|].
  split; [|split; [done|split; [|by repeat split]]].
  - rewrite Harchived2, Hselected, Harchived1. unfold bulkRemove.
    rewrite List.filter_app, filter_all, filter_none; [by rewrite app_nil_r| |].
    + intros c [Hc Hof]%list_elem_of_In%List.filter_In.
      pose proof Hof as [Htenant%bool_decide_eq_true _]%andb_true_iff.
      apply negb_false_iff, andb_true_iff. split; [by apply bool_decide_eq_true|].
      apply bool_decide_eq_true, list_elem_of_fmap. exists c. split; [done|].
      apply list_elem_of_In, List.filter_In. by split.
    + intros c Hc. apply negb_true_iff, andb_false_iff.
      destruct (decide (Comment.tenantID c = tenantID)) as [Htenant|Htenant];
        [right|left; by apply bool_decide_eq_false].
      apply bool_decide_eq_false. intros (c' & Hid & Hc')%list_elem_of_fmap.
      apply list_elem_of_In, List.filter_In in Hc' as [Hc' Hof].
      destruct (Hapart c Hc Htenant) as [_ Hfresh].
      apply (Hfresh c'); [by apply list_elem_of_In|done|done].
  - rewrite Hback. apply filter_complement_Permutation.
Qed.

End ArchiverEffects.

Lemma sampleCounterStores_onlySites : @onlySites sampleCounterStores.
Proof. intros db tenantID id counts. eexists. reflexivity. Qed.

Lemma archiveStory_effect_witness :
  exists final,
    (@archiveStory sampleCounterStores (sampleContext false) ∅ "t1" "s1").1.1 = final
    /\ find (commentOfStory "t1" "s1") (Db.comments (live final)) = [].
Proof.
  destruct (@archiveStory_effect sampleCounterStores (sampleContext false) ∅
              "t1" "s1" emptyDb (sampleStory false)
              sampleCounterStores_onlySites eq_refl eq_refl eq_refl)
    as (final & archiveDb' & s & Heq & _ & _ & _ & _ & Hnone & _).
  exists final. split; [by rewrite Heq|exact Hnone].
Defined.

Lemma unarchiveStory_effect_witness :
  exists final,
    (@unarchiveStory sampleCounterStores sampleArchived ∅ "t1" "s1").1.1 = final
    /\ Db.comments (live final) = [sampleComment].
Proof.
  destruct (@unarchiveStory_effect sampleCounterStores sampleArchived ∅
              "t1" "s1" (Db.withArchivedComments [sampleComment] emptyDb)
              (sampleStory true)
              sampleCounterStores_onlySites eq_refl eq_refl eq_refl)
    as (final & archiveDb' & s & Heq & _ & Hcomments & _).
  exists final. split; [by rewrite Heq|exact Hcomments].
Defined.

Lemma archive_unarchive_round_trip_witness :
  (@unarchiveStory sampleCounterStores
     (@archiveStory sampleCounterStores (sampleContext false) ∅ "t1" "s1").1.1
     (@archiveStory sampleCounterStores (sampleContext false) ∅ "t1" "s1").1.2
     "t1" "s1").2
  = Ok (Some (Story.setArchive false false (sampleStory false))).
Proof.
  destruct (@archive_unarchive_round_trip sampleCounterStores (sampleContext false) ∅
              "t1" "s1" emptyDb (sampleStory false)
              sampleCounterStores_onlySites eq_refl eq_refl eq_refl)
    as (archiveDb' & Hvalue & _).
  - intros c1 c2 Hc1%list_elem_of_singleton Hc2%list_elem_of_singleton _ _ _.
    by subst.
  - intros c Hc. by apply elem_of_nil in Hc.
  - exact Hvalue.
Defined.



(** ** The counters that a migration applies *)

Lemma scaleInto_dom multiplier (source target : gmap string Z) :
  dom (scaleInto multiplier source target) = dom source ∪ dom target.
Proof. unfold scaleInto. by rewrite dom_union_L, dom_fmap_L. Qed.

Lemma scaleInto_one (source target : gmap string Z) :
  dom target ⊆ dom source -> scaleInto 1 source target = source.
Proof.
  intros Hkeys. apply map_eq. intros key. rewrite scaleInto_lookup.
  destruct (source !! key) as [value|] eqn:Hsource.
  - f_equal. lia.
  - apply not_elem_of_dom. intros Hin.
    apply Hkeys, elem_of_dom in Hin. rewrite Hsource in Hin. by destruct Hin.
Qed.

Lemma createEmptyCommentStatusCounts_zero key value :
  createEmptyCommentStatusCounts !! key = Some value -> value = 0.
Proof.
  unfold createEmptyCommentStatusCounts. intros Hvalue.
  repeat (apply lookup_insert_Some in Hvalue as [[_ <-]|[_ Hvalue]]; [done|]).
  by apply lookup_singleton_Some in Hvalue as [_ <-].
Qed.

Lemma createEmptyCommentModerationQueueCounts_zero key value :
  queues createEmptyCommentModerationQueueCounts !! key = Some value -> value = 0.
Proof.
  cbn. intros Hvalue.
  repeat (apply lookup_insert_Some in Hvalue as [[_ <-]|[_ Hvalue]]; [done|]).
  by apply lookup_singleton_Some in Hvalue as [_ <-].
Qed.

(** The negated copy of a dictionary into a zeroed target is, key by key,
    the opposite of the plain copy. *)
Lemma scaleInto_opposite (source target : gmap string Z) key :
  (forall value, target !! key = Some value -> value = 0) ->
  scaleInto (-1) source target !! key = Z.opp <$> scaleInto 1 source target !! key.
Proof.
  intros Hzero. rewrite !scaleInto_lookup.
  destruct (source !! key) as [value|]; simpl; [f_equal; lia|].
  destruct (target !! key) as [value|] eqn:Htarget; simpl; [|done].
  by rewrite (Hzero value eq_refl).
Qed.

(** X26.  Whatever counters the story has, also with a part missing,
    [getCommentCounts] returns an aggregate with its three parts, with a
    counter for each of the three moderation queues and for each of the
    five statuses. *)
Theorem getCommentCounts_complete story negate :
  isRelatedCommentCounts (getCommentCounts story negate).
Proof.
  destruct story as [id tenantID siteID [a q s] archiving archived].
  unfold isRelatedCommentCounts, getCommentCounts. cbn.
  split.
  - destruct q as [[t q]|]; cbn; [|done]. rewrite scaleInto_dom. apply union_subseteq_r.
  - destruct s as [s|]; cbn; [|done]. rewrite scaleInto_dom. apply union_subseteq_r.
Qed.

(** X27.  The counters that [archiveStory] applies are the opposite of those
    that [unarchiveStory] applies for the same story: the negated result
    has the keys of the plain one, and each action total, the moderation
    queue total, each queue count and each status count is the opposite
    number. *)
Theorem getCommentCounts_opposite story :
  let plain := getCommentCounts story false in
  let negated := getCommentCounts story true in
  (forall key, action negated ≫= (fun a => a !! key)
               = Z.opp <$> (action plain ≫= (fun a => a !! key)))
  /\ total <$> moderationQueue negated = Z.opp <$> (total <$> moderationQueue plain)
  /\ (forall key, moderationQueue negated ≫= (fun q => queues q !! key)
                  = Z.opp <$> (moderationQueue plain ≫= (fun q => queues q !! key)))
  /\ (forall key, status negated ≫= (fun s => s !! key)
                  = Z.opp <$> (status plain ≫= (fun s => s !! key))).
Proof.
  destruct story as [id tenantID siteID [a q s] archiving archived].
  unfold getCommentCounts. cbn. split; [|split; [|split]].
  - intros key. destruct a as [a|]; [|by rewrite lookup_empty].
    apply scaleInto_opposite. intros value. by rewrite lookup_empty.
  - destruct q as [[t q]|]; cbn; [f_equal; lia|done].
  - intros key. destruct q as [[t q]|]; cbn.
    + apply scaleInto_opposite, createEmptyCommentModerationQueueCounts_zero.
    + destruct (_ !! key) as [value|] eqn:Hvalue; [|done].
      by rewrite (createEmptyCommentModerationQueueCounts_zero _ _ Hvalue).
  - intros key. destruct s as [s|].
    + apply scaleInto_opposite, createEmptyCommentStatusCounts_zero.
    + destruct (_ !! key) as [value|] eqn:Hvalue; [|done].
      by rewrite (createEmptyCommentStatusCounts_zero _ _ Hvalue).
Qed.

(** X28.  Without negation, the counters of a story that has its three
    parts, every queue and every status come back as they are: what
    [unarchiveStory] adds to the site and to the cache is what the story
    holds. *)
Theorem getCommentCounts_plain story :
  isRelatedCommentCounts (Story.commentCounts story) ->
  getCommentCounts story false = Story.commentCounts story.
Proof.
  destruct story as [id tenantID siteID [a q s] archiving archived].
  destruct a as [a|], q as [[t q]|], s as [s|];
    unfold isRelatedCommentCounts; cbn; try done.
  intros [Hqueues Hstatus]. unfold getCommentCounts. cbn.
  rewrite !scaleInto_one by (done || set_solver).
  do 3 f_equal. f_equal. lia.
Qed.

Lemma getCommentCounts_plain_witness :
  getCommentCounts (sampleStory false) false = sampleCounts.
Proof.
  apply (getCommentCounts_plain (sampleStory false)).
  split; simpl; unfold createEmptyCommentStatusCounts; set_solver.
Defined.

(** * Subscription filters *)

(** X29.  With an asset given, each of the five comment subscriptions
    delivers only comments of that asset.  [commentAdded] and
    [commentEdited] then deliver every comment of the asset to any
    context, signed in or not, whatever its permissions, whereas
    [commentFlagged], [commentAccepted] and [commentRejected] deliver
    nothing to a context without a user. *)
Theorem comment_subscriptions_scope
    (args : Subscriptions.Args) (comment : Subscriptions.PublishedComment)
    (context : Subscriptions.Context) :
  Subscriptions.not_ (Subscriptions.asset_id args) = false ->
  Forall (fun filter =>
            filter args comment context = true ->
            Subscriptions.asset_id args
            = Some (Subscriptions.comment_asset_id comment))
         [Subscriptions.commentAdded; Subscriptions.commentEdited;
          Subscriptions.commentFlagged; Subscriptions.commentAccepted;
          Subscriptions.commentRejected]
  /\ Subscriptions.commentAdded args comment context
     = Subscriptions.sameAsset comment args
  /\ Subscriptions.commentEdited args comment context
     = Subscriptions.sameAsset comment args
  /\ Forall (fun filter => filter args comment Subscriptions.nobody = false)
            [Subscriptions.commentFlagged; Subscriptions.commentAccepted;
             Subscriptions.commentRejected].
Proof.
  intros Hgiven. rewrite !Forall_cons, !Forall_nil. cbv beta.
  unfold Subscriptions.commentAdded, Subscriptions.commentEdited,
    Subscriptions.commentFlagged, Subscriptions.commentAccepted,
    Subscriptions.commentRejected.
  rewrite Hgiven. cbn [andb orb].
  assert (Subscriptions.sameAsset comment args = true ->
          Subscriptions.asset_id args
          = Some (Subscriptions.comment_asset_id comment)) as Hsame.
  { unfold Subscriptions.sameAsset. by intros ->%bool_decide_eq_true. }
  repeat split; try done;
    match goal with
    | |- context [Subscriptions.cannot ?c ?p] =>
        by destruct (Subscriptions.cannot c p)
    end.
Qed.

Lemma comment_subscriptions_scope_witness :
  Subscriptions.commentAdded
    {| Subscriptions.asset_id := Some "a1"; Subscriptions.user_id := None |}
    {| Subscriptions.comment_asset_id := "a1" |} Subscriptions.nobody
  = true.
Proof.
  refine (eq_trans
            (proj1 (proj2 (comment_subscriptions_scope
               {| Subscriptions.asset_id := Some "a1"; Subscriptions.user_id := None |}
               {| Subscriptions.comment_asset_id := "a1" |}
               Subscriptions.nobody eq_refl)))
            eq_refl).
Defined.

Lemma user_subscription permission args published context :
  (if match Subscriptions.user context with
      | None => true
      | Some u => negb (Subscriptions.sameUser published args)
                  && negb (Subscriptions.can u permission)
      end
   then false
   else Subscriptions.not_ (Subscriptions.user_id args)
        || Subscriptions.sameUser published args) = true
  <-> exists u, Subscriptions.user context = Some u
      /\ (Subscriptions.user_id args = Some (Subscriptions.id published)
          \/ Subscriptions.not_ (Subscriptions.user_id args) = true
             /\ Subscriptions.can u permission = true).
Proof.
  unfold Subscriptions.sameUser.
  destruct (Subscriptions.user context) as [u|]; [|split; [done|by intros (? & ? & _)]].
  destruct (decide (Some (Subscriptions.id published) = Subscriptions.user_id args))
    as [Hsame|Hother].
  - rewrite (bool_decide_eq_true_2 _ Hsame). cbn. rewrite orb_true_r.
    split; [|done]. intros _. exists u. split; [done|]. by left.
  - rewrite (bool_decide_eq_false_2 _ Hother). cbn. rewrite orb_false_r.
    destruct (Subscriptions.can u permission) eqn:Hcan; cbn.
    + split.
      * intros Habsent. exists u. split; [done|]. right. by split.
      * intros (? & _ & [Hsame|[Habsent _]]); [by rewrite Hsame in Hother|done].
    + split; [done|].
      intros (u' & [= <-] & [Hsame|[_ Hcan']]); [by rewrite Hsame in Hother|].
      by rewrite Hcan in Hcan'.
Qed.

(** X30.  The three user subscriptions deliver a published user exactly when
    the context has a user and either the subscription names that very
    user, in which case no permission is asked for, or it names none (the
    argument is absent or empty) and the user of the context has the
    permission to subscribe to all. *)
Theorem user_subscriptions_delivery
    (args : Subscriptions.Args) (published : Subscriptions.PublishedUser)
    (context : Subscriptions.Context) :
  let delivered permission :=
    exists u, Subscriptions.user context = Some u
      /\ (Subscriptions.user_id args = Some (Subscriptions.id published)
          \/ Subscriptions.not_ (Subscriptions.user_id args) = true
             /\ Subscriptions.can u permission = true) in
  (Subscriptions.userSuspended args published context = true
   <-> delivered Subscriptions.SUBSCRIBE_ALL_USER_SUSPENDED)
  /\ (Subscriptions.userBanned args published context = true
      <-> delivered Subscriptions.SUBSCRIBE_ALL_USER_BANNED)
  /\ (Subscriptions.usernameRejected args published context = true
      <-> delivered Subscriptions.SUBSCRIBE_ALL_USERNAME_REJECTED).
Proof. cbv zeta. repeat split; by apply user_subscription. Qed.
